(** * media-analysis-cli.py: a shallow embedding and its specification

    The program fetches one news article, extracts its paragraphs and the
    external links they cite, and computes four heuristics over the text:
    topic, sentiment, loaded-language bias and source credibility.

    Modelling conventions.
    - A Python [str] is a [string] whose characters are the code points
      U+0000..U+00FF; [\w], [str.lower] and [str.strip] follow CPython's
      Unicode tables on that range.
    - A Python [int] is a [Z]; [len] results are [Z.of_nat].
    - A Python [float] is an IEEE binary64 number ([PrimFloat]), every
      operation rounded as CPython rounds it. The numeric code is written
      over the class [PyFloat]; its other instance, the exact rationals
      [Q], is the idealised reading of the sentiment thresholds and nothing
      else rests on it.
    - [requests], [BeautifulSoup], [urllib.parse] and [TextBlob] are outside
      the source file: the network and the keyboard are scripts consumed in
      order, a parsed page is a record of what the program reads from the
      soup, and [urlparse], [urljoin] and [TextBlob] are parameters. They
      are total functions: the exceptions the libraries raise on their own
      account (a [ValueError] of [urllib.parse] on a malformed host, say)
      are not modelled, and neither is the handler of [__main__] that they
      would reach.
    - [fetch_content] retries by calling itself, so the interpreter's
      recursion limit is part of its behaviour: the room it leaves for
      nested calls is a parameter ([frames], [depth]), and the call without
      room raises [RecursionError].
    - Line 301 of the source carries a stray token [D] after the call
      [analyzer.analyze_source_credibility()]; [CLI.run] is modelled as the
      call without it. *)

From Stdlib Require Import ZArith QArith Lqa Lia Bool List Ascii String.
From Stdlib Require Import Floats DecimalString Qround Qabs.
From stdpp Require Import gmap strings list.

Open Scope Z_scope.

(** ** Python strings *)

Module Py.

Definition code (c : ascii) : N := N_of_ascii c.

Definition in_range (lo hi : N) (c : ascii) : bool :=
  ((lo <=? code c) && (code c <=? hi))%N.

(** [Py_UNICODE_ISALNUM] on U+0000..U+00FF: letters, decimal digits and the
    numeric characters of the Latin-1 supplement. *)
Definition isalnum (c : ascii) : bool :=
  in_range 48 57 c || in_range 65 90 c || in_range 97 122 c
  || (code c =? 170)%N || in_range 178 179 c || (code c =? 181)%N
  || in_range 185 186 c || in_range 188 190 c
  || in_range 192 214 c || in_range 216 246 c || in_range 248 255 c.

(** The class [\w] of [re] on [str] patterns. *)
Definition is_word (c : ascii) : bool := isalnum c || (code c =? 95)%N.

(** [Py_UNICODE_TOLOWER] on U+0000..U+00FF. *)
Definition tolower (c : ascii) : ascii :=
  if in_range 65 90 c || in_range 192 214 c || in_range 216 222 c
  then ascii_of_N (code c + 32) else c.

(** [Py_UNICODE_ISSPACE] on U+0000..U+00FF, the characters [str.strip]
    removes. *)
Definition isspace (c : ascii) : bool :=
  in_range 9 13 c || in_range 28 32 c || (code c =? 133)%N || (code c =? 160)%N.

(** [s.lower()] *)
Fixpoint lower (s : string) : string :=
  match s with
  | EmptyString => EmptyString
  | String c s' => String (tolower c) (lower s')
  end.

Fixpoint lstrip (s : string) : string :=
  match s with
  | EmptyString => EmptyString
  | String c s' => if isspace c then lstrip s' else s
  end.

Fixpoint rstrip (s : string) : string :=
  match s with
  | EmptyString => EmptyString
  | String c s' =>
      match rstrip s' with
      | EmptyString => if isspace c then EmptyString else String c EmptyString
      | r => String c r
      end
  end.

(** [s.strip()] *)
Definition strip (s : string) : string := rstrip (lstrip s).

(** [sep.join(parts)] *)
Fixpoint join (sep : string) (parts : list string) : string :=
  match parts with
  | [] => EmptyString
  | [p] => p
  | p :: rest => p +:+ sep +:+ join sep rest
  end.

(** [bool(s)] for a string: non-empty. *)
Definition truthy (s : string) : bool :=
  match s with EmptyString => false | String _ _ => true end.

(** [s.count(sub)]: the occurrences of [sub] found scanning left to right,
    the scan resuming after the end of each occurrence found. [skip] is the
    number of characters still covered by the last occurrence. *)
Fixpoint count_from (sub : string) (skip : nat) (s : string) : Z :=
  match s with
  | EmptyString => 0
  | String _ s' =>
      match skip with
      | S k => count_from sub k s'
      | O =>
          if String.prefix sub s
          then 1 + count_from sub (Nat.pred (String.length sub)) s'
          else count_from sub 0 s'
      end
  end.

Definition count (s sub : string) : Z :=
  match sub with
  | EmptyString => Z.of_nat (String.length s) + 1
  | _ => count_from sub 0 s
  end.

(** *** [re.search(r'\b' + re.escape(word) + r'\b', text, re.IGNORECASE)] *)

Definition opt_is_word (c : option ascii) : bool :=
  match c with Some c => is_word c | None => false end.

Definition head (s : string) : option ascii :=
  match s with EmptyString => None | String c _ => Some c end.

(** [\b] between the character before the position and the one at it; a
    position outside the text counts as a non-word character. *)
Definition at_boundary (prev next : option ascii) : bool :=
  xorb (opt_is_word prev) (opt_is_word next).

(** A literal of the pattern against a character of the text under
    [re.IGNORECASE]. *)
Definition ci_eq (a c : ascii) : bool :=
  Ascii.eqb (tolower a) (tolower c).

(** The escaped word is a sequence of literals: consume them from [s],
    remembering the last character consumed. *)
Fixpoint match_literals (w s : string) (prev : option ascii)
  : option (option ascii * string) :=
  match w with
  | EmptyString => Some (prev, s)
  | String a w' =>
      match s with
      | EmptyString => None
      | String c s' =>
          if ci_eq a c then match_literals w' s' (Some c) else None
      end
  end.

Definition match_at (w : string) (prev : option ascii) (s : string) : bool :=
  at_boundary prev (head s) &&
  match match_literals w s prev with
  | Some (last, rest) => at_boundary last (head rest)
  | None => false
  end.

Fixpoint search_from (w : string) (prev : option ascii) (s : string) : bool :=
  match_at w prev s ||
  match s with
  | EmptyString => false
  | String c s' => search_from w (Some c) s'
  end.

Definition re_search_word (w text : string) : bool := search_from w None text.

End Py.

(** ** Python numbers *)

(** What the program asks of a [float]: conversion from [int], the literal
    [0.1], arithmetic, the order, and the exact value of a finite number
    (what [format] prints from). *)
Class PyFloat (F : Type) := {
  of_int : Z -> F;
  lit_0_1 : F;
  fadd : F -> F -> F;
  fsub : F -> F -> F;
  fmul : F -> F -> F;
  fneg : F -> F;
  flt : F -> F -> bool;
  exact : F -> Q
}.

(** The builtins [min(a, b)] and [max(a, b)]: the first argument is kept
    unless the second is strictly smaller (greater). *)
Definition py_min {F} `{PyFloat F} (a b : F) : F := if flt b a then b else a.
Definition py_max {F} `{PyFloat F} (a b : F) : F := if flt a b then b else a.

Definition Qltb (a b : Q) : bool := negb (Qle_bool b a).

#[export] Instance Q_PyFloat : PyFloat Q := {
  of_int := inject_Z;
  lit_0_1 := 1 # 10;
  fadd := Qplus;
  fsub := Qminus;
  fmul := Qmult;
  fneg := Qopp;
  flt := Qltb;
  exact := fun q => q
}.

(** IEEE binary64. The integers the program converts are small, so the
    conversion is exact. *)
Definition float_of_int (z : Z) : float :=
  if z <? 0 then PrimFloat.opp (PrimFloat.of_uint63 (Uint63.of_Z (- z)))
  else PrimFloat.of_uint63 (Uint63.of_Z z).

Definition float_exact (x : float) : Q :=
  match Prim2SF x with
  | S754_finite s m e =>
      inject_Z (if s then Z.neg m else Z.pos m) * Qpower 2 e
  | _ => 0
  end.

#[export] Instance float_PyFloat : PyFloat float := {
  of_int := float_of_int;
  lit_0_1 := 0x1.999999999999ap-4%float;
  fadd := PrimFloat.add;
  fsub := PrimFloat.sub;
  fmul := PrimFloat.mul;
  fneg := PrimFloat.opp;
  flt := PrimFloat.ltb;
  exact := float_exact
}.

(** *** [f"{x:.2f}"] *)

(** The nearest integer, ties to even. *)
Definition round_half_even (q : Q) : Z :=
  let f := Qfloor q in
  match Qcompare (q - inject_Z f) (1 # 2) with
  | Lt => f
  | Gt => f + 1
  | Eq => if Z.even f then f else f + 1
  end.

Definition decimal (n : Z) : string :=
  DecimalString.NilZero.string_of_uint (N.to_uint (Z.to_N n)).

Definition two_digits (n : Z) : string :=
  if n <? 10 then "0" +:+ decimal n else decimal n.

Definition format_2f (q : Q) : string :=
  let n := round_half_even (Qabs q * inject_Z 100) in
  (if Qltb q 0 then "-" else "") +:+
  decimal (n / 100) +:+ "." +:+ two_digits (n mod 100).

(** ** Python dicts, in insertion order *)

Module Dict.

Definition t (V : Type) : Type := list (string * V).

Fixpoint get {V} (d : t V) (k : string) : option V :=
  match d with
  | [] => None
  | (k', v) :: d' => if String.eqb k' k then Some v else get d' k
  end.

(** [d[k] = v]: an existing key keeps its position, a new key goes last. *)
Fixpoint set {V} (d : t V) (k : string) (v : V) : t V :=
  match d with
  | [] => [(k, v)]
  | (k', v') :: d' =>
      if String.eqb k' k then (k', v) :: d' else (k', v') :: set d' k v
  end.

Definition keys {V} (d : t V) : list string := map fst d.
Definition values {V} (d : t V) : list V := map snd d.

End Dict.

(** [max(iterable, key=f)]: the first element whose key no later element
    exceeds; [None] stands for the [ValueError] on an empty iterable. *)
Fixpoint max_from {A} (f : A -> Z) (best : A) (l : list A) : A :=
  match l with
  | [] => best
  | x :: l' => if f best <? f x then max_from f x l' else max_from f best l'
  end.

Definition py_max_key {A} (l : list A) (f : A -> Z) : option A :=
  match l with
  | [] => None
  | x :: l' => Some (max_from f x l')
  end.

(** ** The fixed tables of the analyzer *)

Definition topics : Dict.t (list string) := [
  ("Technology", ["ai"; "software"; "hardware"; "apple"; "google"; "data";
     "cloud"; "startup"; "algorithm"; "cybersecurity"; "innovation";
     "robotics"; "crypto"; "samsung"; "processor"; "graphics"; "performance"]);
  ("Politics", ["government"; "election"; "senate"; "law"; "policy";
     "president"; "congress"; "political"; "legislation"; "democracy";
     "ballot"; "vote"]);
  ("Sports", ["game"; "team"; "player"; "season"; "score"; "nba"; "football";
     "olympics"; "champion"; "athlete"; "stadium"; "playoffs"; "goal";
     "soccer"]);
  ("Business", ["company"; "market"; "stock"; "economy"; "ceo"; "finance";
     "investment"; "revenue"; "quarterly"; "wall street"; "ipo"; "earnings"]);
  ("Health", ["health"; "sleep"; "medical"; "doctor"; "hospital"; "fda";
     "virus"; "pandemic"; "vaccine"; "research"; "disease"; "wellness";
     "nutrition"]);
  ("Entertainment", ["movie"; "music"; "singer"; "box office"; "celebrity";
     "film"; "hollywood"; "nollywood"; "bollywood"; "award"; "series";
     "netflix"; "actor"; "actress"; "director"; "album"; "concert"]);
  ("Education", ["course"; "student"; "test"; "exam"; "school"; "university";
     "scholarship"; "hostel"; "bootcamp"; "camp"])
]%string.

Definition biased_words : list string := [
  "alarming"; "amazing"; "appalling"; "awful"; "bad"; "beautiful"; "best";
  "blatant"; "breakthrough"; "catastrophe"; "certainly"; "chaotic";
  "clearly"; "collusion"; "conspiracy"; "corrupt"; "covert"; "crisis";
  "danger"; "deadly"; "decent"; "definitely"; "disaster"; "disgraceful";
  "disgusting"; "drastic"; "duty"; "effective"; "excellent"; "exceptional";
  "extreme"; "failure"; "fair"; "fantastic"; "fear-mongering"; "finally";
  "flawless"; "foolish"; "freedom"; "frenzy"; "frightening"; "good"; "great";
  "hate"; "healthy"; "heroic"; "historic"; "honest"; "horrible"; "huge";
  "immediately"; "important"; "impossible"; "incompetent"; "incredible";
  "inevitable"; "inflammatory"; "injustice"; "inspirational";
  "irresponsible"; "justice"; "landmark"; "likely"; "looming"; "massive";
  "masterpiece"; "meaningful"; "miracle"; "misleading"; "monumental"; "must";
  "myth"; "obviously"; "of course"; "outrageous"; "panic"; "patriotic";
  "perfect"; "pivotal"; "poor"; "propaganda"; "radical"; "reasonable";
  "revolutionary"; "rigged"; "scandal"; "scare"; "secret"; "shameful";
  "shocking"; "significant"; "smart"; "so-called"; "special"; "stupid";
  "successful"; "suddenly"; "superb"; "terrible"; "terrifying"; "threat";
  "timely"; "tiny"; "tragic"; "tremendous"; "true"; "trust"; "truth";
  "unacceptable"; "unbelievable"; "undoubtedly"; "unfair"; "unfortunate";
  "unprecedented"; "urgent"; "victory"; "violent"; "vital"; "wonderful";
  "worst"; "wrong"
]%string.

(** ** Exceptions and the console *)

Inductive Exception : Type :=
  | ValueError (msg : string)
  | RecursionError.

Inductive Result (A : Type) : Type :=
  | Ok (a : A)
  | Raise (e : Exception).
Arguments Ok {A} a.
Arguments Raise {A} e.

#[export] Instance Result_ret : MRet Result := fun A a => Ok a.

#[export] Instance Result_bind : MBind Result := fun A B k r =>
  match r with
  | Ok a => k a
  | Raise e => Raise e
  end.

(** The terminal: the lines the user will type, and what has been written. *)
Record Console : Type := {
  stdin : list string;
  stdout : list string
}.

Definition print (io : Console) (msg : string) : Console :=
  {| stdin := stdin io; stdout := stdout io ++ [msg] |}.

(** [input(prompt)]; [None] when the user has nothing more to type. *)
Definition input (io : Console) (prompt : string) : option (string * Console) :=
  match stdin io with
  | [] => None
  | line :: rest => Some (line, {| stdin := rest; stdout := stdout io ++ [prompt] |})
  end.

Definition newline : string := String (ascii_of_nat 10) EmptyString.

(** ** What the program reads from the libraries *)

(** [urlparse(u)]: the two components the program looks at. *)
Record ParseResult : Type := {
  scheme : string;
  netloc : string
}.

(** A [<p>] element: [p.get_text()] and the [href] of every
    [p.find_all('a', href=True)], in document order. *)
Record Paragraph : Type := {
  get_text : string;
  hrefs : list string
}.

(** A tag, reduced to its [find_all('p')]. *)
Record Tag : Type := {
  find_all_p : list Paragraph
}.

(** The parsed page: [soup.title.string] when both exist, [soup.find] of
    the two containers, and the document itself. *)
Record Soup : Type := {
  title_string : option string;
  find_article : option Tag;
  find_main : option Tag;
  document : Tag
}.

(** One [requests.get] followed by [raise_for_status]. *)
Inductive Outcome : Type :=
  | RequestException (details : string)
  | Response (soup : Soup).

(** [x in ('http', 'https')] *)
Definition is_http (s : string) : bool :=
  existsb (String.eqb s) ["http"; "https"]%string.

(** ** class Article *)

Module Article.

Record t : Type := {
  url : string;
  text : string;
  title : string;
  authors : list string;
  external_links_count : Z
}.

Definition set_text (self : t) (v : string) : t :=
  {| url := url self; text := v; title := title self;
     authors := authors self;
     external_links_count := external_links_count self |}.

Definition set_title (self : t) (v : string) : t :=
  {| url := url self; text := text self; title := v;
     authors := authors self;
     external_links_count := external_links_count self |}.

Definition set_external_links_count (self : t) (v : Z) : t :=
  {| url := url self; text := text self; title := title self;
     authors := authors self; external_links_count := v |}.

(** The attributes [__init__] sets before it fetches. *)
Definition blank (url0 : string) : t :=
  {| url := url0; text := ""; title := ""; authors := [];
     external_links_count := 0 |}.

Section Fetch.

Variable urlparse : string -> ParseResult.
Variable urljoin : string -> string -> string.

(** The body of the loop over the anchors of the paragraphs. *)
Definition add_link (self_url base_url_netloc : string)
    (links : gset string) (href : string) : gset string :=
  let absolute_url := urljoin self_url href in
  if is_http (scheme (urlparse absolute_url))
     && negb (String.eqb (netloc (urlparse absolute_url)) base_url_netloc)
  then {[ absolute_url ]} ∪ links
  else links.

Definition collect_links (self_url : string) (paragraphs : list Paragraph)
  : gset string :=
  let base_url_netloc := netloc (urlparse self_url) in
  fold_left
    (fun links p => fold_left (add_link self_url base_url_netloc) (hrefs p) links)
    paragraphs ∅.

(** [soup.find('article') or soup.find('main') or soup] *)
Definition article_body (soup : Soup) : Tag :=
  match find_article soup with
  | Some tag => tag
  | None => match find_main soup with
            | Some tag => tag
            | None => document soup
            end
  end.

(** The [try] block once the response has arrived. *)
Definition extract (self : t) (soup : Soup) (io : Console) : t * Console :=
  let self :=
    match title_string soup with
    | Some s => if Py.truthy s then set_title self (Py.strip s)
                else set_title self "No title found"
    | None => set_title self "No title found"
    end in
  let paragraphs := find_all_p (article_body soup) in
  let self := set_text self (Py.join newline (map get_text paragraphs)) in
  let links := collect_links (url self) paragraphs in
  let self := set_external_links_count self (Z.of_nat (size links)) in
  let '(self, io) :=
    if negb (Py.truthy (text self))
    then (set_text self "Content could not be extracted.",
          print io "Warning: Could not extract paragraph text. The report might be empty.")
    else (self, io) in
  (self, print io "Fetching complete.").

(** [fetch_content]: each call consumes one outcome of the network; [None]
    when the network or the keyboard script runs out. The retry is a call
    of [fetch_content] from inside its own handler, so every accepted offer
    nests one call deeper, and the interpreter's recursion limit bounds the
    nesting: [frames] is the number of nested calls, this one included,
    that still have room to call [requests.get]. A call without that room
    prints its first line and then fails with [RecursionError], which is
    no [RequestException]: no handler of [fetch_content] catches it. *)
Fixpoint fetch_content (frames : nat) (self : t) (net : list Outcome)
    (io : Console) : option (Result t * list Outcome * Console) :=
  let io := print io ("Fetching content from " +:+ url self +:+ "...") in
  match frames with
  | O => Some (Raise RecursionError, net, io)
  | S frames' =>
      match net with
      | [] => None
      | Response soup :: net' =>
          let '(self, io) := extract self soup io in
          Some (Ok self, net', io)
      | RequestException e :: net' =>
          let io := print io "Error: Could not fetch the article. Please check the URL and your connection." in
          let io := print io ("Details: " +:+ e) in
          match input io "Would you like to try again? (y/n): " with
          | None => None
          | Some (retry, io) =>
              if String.eqb (Py.lower retry) "y"
              then fetch_content frames' self net' io
              else Some (Ok (set_title (set_text self "") "Failed to Fetch"),
                         net', io)
          end
      end
  end.

(** [Article(url)]. The first call of [fetch_content] always has room;
    [depth] is the number of nested retries that have room after it
    (somewhat under 1000 with CPython's default limit). *)
Definition init (depth : nat) (url0 : string) (net : list Outcome)
    (io : Console) : option (Result t * list Outcome * Console) :=
  fetch_content (S depth) (blank url0) net io.

End Fetch.

End Article.

(** ** class Analyzer *)

(** [TextBlob(text)]: the sentiment pair and the sentence segmentation. *)
Record Blob (F : Type) : Type := {
  polarity : F;
  subjectivity : F;
  sentences : list string
}.
Arguments polarity {F} b.
Arguments subjectivity {F} b.
Arguments sentences {F} b.

(** The four tiers of the bias assessment, from the score. *)
Definition bias_assessment (score : Z) : string :=
  if 15 <? score then "High potential for bias"
  else if 7 <? score then "Moderate potential for bias"
  else if 0 <? score then "Low potential for bias"
  else "Appears to be objective".

(** The loop of [detect_bias]: the lexicon entries the text matches, in
    lexicon order. *)
Definition find_words (lexicon : list string) (body : string) : list string :=
  fold_left
    (fun found_words word =>
       if Py.re_search_word word body then found_words ++ [word]
       else found_words)
    lexicon [].

Module Analyzer.

Section Analyzer.

Context {F : Type} `{PyFloat F}.
Variable TextBlob : string -> Blob F.

Record t : Type := {
  article : Article.t;
  text : string;
  blob : Blob F
}.

(** [Analyzer(article)]; the [isinstance] test holds by typing. *)
Definition init (a : Article.t) : Result t :=
  if negb (Py.truthy (Article.text a))
  then Raise (ValueError "Analyzer requires a valid Article object with fetched text.")
  else Ok {| article := a; text := Article.text a;
             blob := TextBlob (Article.text a) |}.

(** The two loops that fill [scores]. *)
Definition topic_scores (lower_text : string) : Dict.t Z :=
  let scores :=
    fold_left (fun d topic => Dict.set d topic 0) (Dict.keys topics) [] in
  fold_left
    (fun scores '(topic, keywords) =>
       fold_left
         (fun scores keyword =>
            Dict.set scores topic
              (default 0 (Dict.get scores topic) + Py.count lower_text keyword))
         keywords scores)
    topics scores.

Definition categorize_topic (self : t) : Result string :=
  let lower_text := Py.lower (text self) in
  let scores := topic_scores lower_text in
  if forallb (fun score => score =? 0) (Dict.values scores)
  then Ok "Uncategorized"
  else
    match py_max_key (Dict.keys scores) (fun k => default 0 (Dict.get scores k)) with
    | Some primary_topic => Ok primary_topic
    | None => Raise (ValueError "max() arg is an empty sequence")
    end.

Definition analyze_sentiment (self : t) : string * F * F :=
  let polarity := polarity (blob self) in
  let subjectivity := subjectivity (blob self) in
  let sentiment_label :=
    if flt lit_0_1 polarity then "Positive"
    else if flt polarity (fneg lit_0_1) then "Negative"
    else "Neutral" in
  (sentiment_label, polarity, subjectivity).

Definition detect_bias (self : t) : string * Z * list string :=
  let found_words := find_words biased_words (text self) in
  let score := Z.of_nat (length found_words) in
  (bias_assessment score, score,
   elements (list_to_set found_words : gset string)).

(** The value of [credibility_score] after the clamp. *)
Definition credibility_score (self : t) : F :=
  let '(_, _, subjectivity) := analyze_sentiment self in
  let num_sentences := Z.of_nat (length (sentences (blob self))) in
  let link_count := Article.external_links_count (article self) in
  let credibility_score := fmul (fsub (of_int 1) subjectivity) (of_int 100) in
  let credibility_score :=
    if num_sentences <? 8 then fsub credibility_score (of_int 25)
    else credibility_score in
  let link_bonus := Z.min (link_count * 3) 30 in
  let credibility_score := fadd credibility_score (of_int link_bonus) in
  py_max (of_int 0) (py_min (of_int 100) credibility_score).

Definition credibility_assessment (credibility_score : F) : string :=
  if flt (of_int 80) credibility_score then "Appears highly credible"
  else if flt (of_int 60) credibility_score then "Appears credible"
  else if flt (of_int 40) credibility_score then "Moderate credibility"
  else "Low credibility (review with caution)".

Definition analyze_source_credibility (self : t) : string * string :=
  let credibility_score := credibility_score self in
  (credibility_assessment credibility_score,
   format_2f (exact credibility_score) +:+ "/100").

End Analyzer.

Arguments t F : clear implicits.

End Analyzer.

(** ** class CLI *)

Module CLI.

Section CLI.

Context {F : Type} `{PyFloat F}.
Variable TextBlob : string -> Blob F.
Variable urlparse : string -> ParseResult.
Variable urljoin : string -> string -> string.

Definition is_valid_url (u : string) : bool :=
  let parsed := urlparse u in
  is_http (scheme parsed) && Py.truthy (netloc parsed).

(** The dictionary [analysis_results]. *)
Record AnalysisResults : Type := {
  topic : string;
  sentiment : string * F * F;
  bias : string * Z * list string;
  credibility : string * string
}.

(** How [run] ends: one of its two early returns, the report (printed by
    [ReportGenerator.print_report], below), or an exception left to the
    caller. *)
Inductive Exit : Type :=
  | InvalidURL
  | CannotProceed (a : Article.t)
  | Report (a : Article.t) (results : AnalysisResults)
  | Uncaught (e : Exception).

Definition analyse (a : Article.t) : Result AnalysisResults :=
  analyzer ← Analyzer.init TextBlob a;
  topic ← Analyzer.categorize_topic analyzer;
  mret {| topic := topic;
          sentiment := Analyzer.analyze_sentiment analyzer;
          bias := Analyzer.detect_bias analyzer;
          credibility := Analyzer.analyze_source_credibility analyzer |}.

(** [depth]: the room for nested retries, as in [Article.init]. *)
Definition run (depth : nat) (net : list Outcome) (io : Console)
  : option (Exit * Console) :=
  let io := print io "Welcome to the Media Analysis CLI!" in
  '(u, io) ← input io "Please enter the URL of a news article to analyze: ";
  if negb (is_valid_url u)
  then Some (InvalidURL, print io "Error: Please enter a valid URL (e.g., https://...)")
  else
    '(fetched, _, io) ← Article.init urlparse urljoin depth u net io;
    match fetched with
    | Raise e => Some (Uncaught e, io)
    | Ok a =>
        if negb (Py.truthy (Article.text a))
           || String.eqb (Article.title a) "Failed to Fetch"
        then Some (CannotProceed a, print io "Analysis cannot proceed. Exiting.")
        else
          match analyse a with
          | Ok results => Some (Report a results, io)
          | Raise e => Some (Uncaught e, io)
          end
    end.

End CLI.

End CLI.

(** ** class ReportGenerator *)



Module ReportGenerator.

Section ReportGenerator.

Context {F : Type} `{PyFloat F}.

(** [f"{x:.2f}"] on a number of [F]. *)
Variable format_float : F -> string.

(** The dictionary [analysis_results] as [print_report] reads it: each of
    the four keys may be missing. *)
Record Results : Type := {
  get_topic : option string;
  get_sentiment : option (string * F * F);
  get_bias : option (string * Z * list string);
  get_credibility : option (string * string)
}.

Record t : Type := {
  article : Article.t;
  results : Results
}.

(** [bias[2][:5]] *)
Definition display_words (words : list string) : list string := take 5 words.

Definition ellipsis (words : list string) : string :=
  if (5 <? length words)%nat then "..." else "".

(** The line of the sample, when there is a word to show. *)
Definition sample_line (words : list string) : option string :=
  match words with
  | [] => None
  | _ => Some ("      - Sample Words Found: "
               +:+ Py.join ", " (display_words words) +:+ ellipsis words)
  end.



End ReportGenerator.

Arguments Results F : clear implicits.
Arguments t F : clear implicits.

End ReportGenerator.

(** ** Sample analyzers *)

(** An analyzer over [body], with a given link count and blob. *)
Definition analyzer_with {F : Type} (body : string) (link_count : Z)
    (b : Blob F) : Analyzer.t F :=
  {| Analyzer.article :=
       {| Article.url := "https://example.org/a"; Article.text := body;
          Article.title := "Example"; Article.authors := [];
          Article.external_links_count := link_count |};
     Analyzer.text := body;
     Analyzer.blob := b |}.

(** A blob with a given subjectivity and number of sentences. *)
Definition blob_of {F} `{PyFloat F} (s : F) (n : nat) : Blob F :=
  {| polarity := of_int 0; subjectivity := s; sentences := repeat "." n |}.

Definition calm_blob : Blob float :=
  {| polarity := 0%float; subjectivity := 0%float; sentences := [] |}.

Definition analyzer_of (body : string) : Analyzer.t float :=
  analyzer_with body 0 calm_blob.

(** ** Sample collaborators *)

(** Stand-ins for [urllib.parse] and [TextBlob], for the worked examples
    only: URLs of the form scheme://netloc/path or scheme:rest, on which
    they answer as [urllib.parse] does, and a blob that finds nothing. *)
Fixpoint split_at (sep s : string) : option (string * string) :=
  match s with
  | EmptyString => None
  | String c s' =>
      if String.prefix sep s
      then Some (EmptyString, String.substring (String.length sep) (String.length s) s)
      else match split_at sep s' with
           | Some (a, b) => Some (String c a, b)
           | None => None
           end
  end.

Definition sample_urlparse (u : string) : ParseResult :=
  match split_at ":" u with
  | Some (sch, rest) =>
      {| scheme := Py.lower sch;
         netloc := if String.prefix "//" rest
                   then let after := String.substring 2 (String.length rest) rest in
                        match split_at "/" after with
                        | Some (host, _) => host
                        | None => after
                        end
                   else "" |}
  | None => {| scheme := ""; netloc := "" |}
  end.

(** An [href] with a scheme is absolute; any other is taken as a path from
    the root of the base. *)
Definition sample_urljoin (base href : string) : string :=
  match split_at ":" href with
  | Some _ => href
  | None =>
      scheme (sample_urlparse base) +:+ "://" +:+ netloc (sample_urlparse base)
      +:+ href
  end.

Definition sample_TextBlob (body : string) : Blob float := calm_blob.

(** A page without paragraphs whose title is the text of the sentinel. *)
Definition sentinel_titled_page : Soup :=
  {| title_string := Some "Failed to Fetch";
     find_article := None;
     find_main := None;
     document := {| find_all_p := [] |} |}.

(** A page without paragraphs and without title. *)
Definition empty_page : Soup :=
  {| title_string := None;
     find_article := None;
     find_main := None;
     document := {| find_all_p := [] |} |}.

(** A page with two paragraphs in its [<article>]. *)
Definition news_page : Soup :=
  {| title_string := Some "  Election night  ";
     find_article := Some {| find_all_p := [
       {| get_text := "The government passed a new election law.";
          hrefs := ["https://gov.example/law"; "/about";
                    "https://gov.example/law"; "https://gov.example/vote"] |};
       {| get_text := "A shocking disaster, then a miracle.";
          hrefs := ["mailto:desk@example.org"] |} ] |};
     find_main := None;
     document := {| find_all_p := [] |} |}.

Definition keyboard (lines : list string) : Console :=
  {| stdin := lines; stdout := [] |}.

(** Room for nested retries, of the order CPython's default recursion
    limit of 1000 leaves. *)
Definition sample_depth : nat := 990.

(** * Specification and proofs *)

(** ** Lists of strings *)

(** No string occurs twice in the list. *)
Fixpoint distinct (l : list string) : bool :=
  match l with
  | [] => true
  | x :: l' => negb (existsb (String.eqb x) l') && distinct l'
  end.

Lemma distinct_NoDup (l : list string) : distinct l = true -> NoDup l.
Proof.
  induction l as [|x l IH]; simpl; [constructor|].
  intros [Hx Hl]%andb_true_iff. apply NoDup_cons. split; [|by apply IH].
  intros Hin%list_elem_of_In. apply negb_true_iff in Hx.
  assert (existsb (String.eqb x) l = true); [|congruence].
  apply existsb_exists. exists x. split; [done|apply String.eqb_refl].
Qed.

(** ** Whole-word matching *)

Module Match.

(** The strings equal up to the case of their letters. *)
Fixpoint ci_equal (w m : string) : bool :=
  match w, m with
  | EmptyString, EmptyString => true
  | String a w', String c m' => Py.ci_eq a c && ci_equal w' m'
  | _, _ => false
  end.

(** The last character of [s], or [d] when [s] is empty. *)
Fixpoint last_or (d : option ascii) (s : string) : option ascii :=
  match s with
  | EmptyString => d
  | String c s' => last_or (Some c) s'
  end.

(** A word character stands right before the occurrence / right after it. *)
Definition ends_in_word (pre : string) : bool := Py.opt_is_word (last_or None pre).
Definition starts_with_word (post : string) : bool := Py.opt_is_word (Py.head post).

(** An occurrence of [w] in [body], whatever the case of its letters. *)
Definition occurs_at (w body pre mid post : string) : Prop :=
  body = pre +:+ mid +:+ post /\ ci_equal w mid = true.

(** [w] occurs in [body] as a whole word or phrase: some occurrence has no
    word character next to it on either side. *)
Definition whole_word_match (w body : string) : Prop :=
  exists pre mid post,
    occurs_at w body pre mid post /\
    ends_in_word pre = false /\ starts_with_word post = false.

(** Every occurrence of [w] in [body] lies inside a larger word. *)
Definition only_inside_words (w body : string) : Prop :=
  forall pre mid post,
    occurs_at w body pre mid post ->
    ends_in_word pre = true \/ starts_with_word post = true.

(** The word begins and ends with a word character, as every lexicon entry
    does. *)
Definition word_delimited (w : string) : bool :=
  Py.opt_is_word (Py.head w) && Py.opt_is_word (last_or None w).

Lemma str_app_cons (a : ascii) (s t : string) : String a s +:+ t = String a (s +:+ t).
Proof. reflexivity. Qed.

Lemma str_app_nil_r (s : string) : s +:+ "" = s.
Proof. induction s as [|a s IH]; [reflexivity|]. by rewrite str_app_cons, IH. Qed.

Lemma str_app_assoc (s t u : string) : (s +:+ t) +:+ u = s +:+ t +:+ u.
Proof. induction s as [|a s IH]; [reflexivity|]. by rewrite !str_app_cons, IH. Qed.

Lemma last_or_app (d : option ascii) (s t : string) :
  last_or d (s +:+ t) = last_or (last_or d s) t.
Proof.
  revert d; induction s as [|a s IH]; intros d; [reflexivity|].
  rewrite str_app_cons; simpl; apply IH.
Qed.

Lemma is_word_tolower (c : ascii) : Py.is_word (Py.tolower c) = Py.is_word c.
Proof. destruct c as [[] [] [] [] [] [] [] []]; vm_compute; reflexivity. Qed.

Lemma ci_eq_is_word (a c : ascii) :
  Py.ci_eq a c = true -> Py.is_word c = Py.is_word a.
Proof.
  unfold Py.ci_eq; intros E; apply Ascii.eqb_eq in E.
  by rewrite <- (is_word_tolower c), <- E, is_word_tolower.
Qed.

Lemma ci_eq_refl (a : ascii) : Py.ci_eq a a = true.
Proof. apply Ascii.eqb_refl. Qed.

Lemma ci_equal_refl (w : string) : ci_equal w w = true.
Proof. induction w as [|a w IH]; simpl; [done|]. by rewrite ci_eq_refl. Qed.

(** Strings equal up to case begin, and end, with characters of the same
    class. *)
Lemma ci_equal_head (w m : string) :
  ci_equal w m = true ->
  Py.opt_is_word (Py.head m) = Py.opt_is_word (Py.head w).
Proof.
  destruct w as [|a w], m as [|c m]; simpl; try done.
  intros [E _]%andb_true_iff. by apply ci_eq_is_word.
Qed.

Lemma ci_equal_last (w m : string) (d e : option ascii) :
  ci_equal w m = true -> Py.opt_is_word d = Py.opt_is_word e ->
  Py.opt_is_word (last_or d m) = Py.opt_is_word (last_or e w).
Proof.
  revert m d e; induction w as [|a w IH]; intros [|c m] d e; simpl; try done.
  intros [E1 E2]%andb_true_iff _. apply IH; [done|]. simpl.
  by apply ci_eq_is_word.
Qed.

(** What consuming the literals of the pattern returns. *)
Lemma match_literals_Some (w s : string) (prev last : option ascii) (rest : string) :
  Py.match_literals w s prev = Some (last, rest) <->
  exists mid, s = mid +:+ rest /\ ci_equal w mid = true /\ last = last_or prev mid.
Proof.
  revert s prev; induction w as [|a w IH]; intros s prev; simpl.
  - split.
    + intros [= <- <-]. by exists "".
    + intros ([|c mid] & -> & E & ->); [done|discriminate].
  - destruct s as [|c s].
    + split; [done|]. intros ([|c mid] & E1 & E2 & _); discriminate.
    + destruct (Py.ci_eq a c) eqn:Eac.
      * rewrite IH. split.
        -- intros (mid & -> & E & ->). exists (String c mid).
           rewrite str_app_cons; simpl. by rewrite Eac.
        -- intros ([|c' mid] & E1 & E2 & ->); [discriminate|].
           rewrite str_app_cons in E1. injection E1 as <- ->.
           simpl in E2. apply andb_true_iff in E2 as [_ E2]. by exists mid.
      * split; [done|]. intros ([|c' mid] & E1 & E2 & _); [discriminate|].
        rewrite str_app_cons in E1. injection E1 as <- ->.
        simpl in E2. by rewrite Eac in E2.
Qed.

(** The pattern at one position, for a word that begins and ends with a word
    character: the text continues with the word, and no word character
    stands before or after it. *)
Lemma match_at_true (w : string) (prev : option ascii) (s : string) :
  word_delimited w = true ->
  Py.match_at w prev s = true <->
  Py.opt_is_word prev = false /\
  exists mid post, s = mid +:+ post /\ ci_equal w mid = true /\
                   starts_with_word post = false.
Proof.
  intros [Hh Hl]%andb_true_iff. unfold Py.match_at, Py.at_boundary, starts_with_word.
  split.
  - intros [B1 M]%andb_true_iff.
    destruct (Py.match_literals w s prev) as [[last rest]|] eqn:E; [|done].
    apply match_literals_Some in E as (mid & -> & Ew & ->).
    assert (Hm : Py.opt_is_word (Py.head (mid +:+ rest)) = true).
    { destruct w as [|a w]; [done|]. destruct mid as [|c mid]; [done|].
      rewrite str_app_cons. by rewrite <- Hh; apply (ci_equal_head (String a w) (String c mid)). }
    rewrite Hm in B1.
    assert (Hp : Py.opt_is_word prev = false) by by destruct (Py.opt_is_word prev).
    split; [done|]. exists mid, rest. split; [done|]. split; [done|].
    assert (Hlast : Py.opt_is_word (last_or prev mid) = true).
    { destruct w as [|a w]; [done|]. destruct mid as [|c mid]; [done|].
      simpl. simpl in Ew. apply andb_true_iff in Ew as [E1 E2].
      rewrite (ci_equal_last w mid (Some c) (Some a)); [done|done|].
      simpl. by apply ci_eq_is_word. }
    rewrite Hlast in M. by destruct (Py.opt_is_word (Py.head rest)).
  - intros (Hp & mid & post & -> & Ew & Hpost).
    assert (E : Py.match_literals w (mid +:+ post) prev = Some (last_or prev mid, post)).
    { apply match_literals_Some. by exists mid. }
    rewrite E, Hp, Hpost.
    destruct w as [|a w]; [done|]. destruct mid as [|c mid]; [done|].
    rewrite str_app_cons. simpl. simpl in Ew. apply andb_true_iff in Ew as [E1 E2].
    rewrite (ci_eq_is_word _ _ E1). simpl in Hh. rewrite Hh. simpl.
    rewrite (ci_equal_last w mid (Some c) (Some a)); [|done|by apply ci_eq_is_word].
    simpl in Hl. by rewrite Hl.
Qed.

Lemma search_from_true (w : string) (prev : option ascii) (s : string) :
  word_delimited w = true ->
  Py.search_from w prev s = true <->
  exists pre mid post,
    s = pre +:+ mid +:+ post /\ ci_equal w mid = true /\
    Py.opt_is_word (last_or prev pre) = false /\ starts_with_word post = false.
Proof.
  intros Hw. revert prev; induction s as [|c s IH]; intros prev.
  - simpl. rewrite orb_false_r, (match_at_true _ _ _ Hw). split.
    + intros (Hp & mid & post & E & Ew & Hpost). by exists "", mid, post.
    + intros (pre & mid & post & E & Ew & Hp & Hpost).
      destruct pre; [|discriminate]. split; [done|]. by exists mid, post.
  - simpl. rewrite orb_true_iff, (match_at_true _ _ _ Hw), IH. split.
    + intros [(Hp & mid & post & E & Ew & Hpost)|(pre & mid & post & E & Ew & Hp & Hpost)].
      * by exists "", mid, post.
      * exists (String c pre), mid, post. rewrite str_app_cons, E. done.
    + intros (pre & mid & post & E & Ew & Hp & Hpost). destruct pre as [|c' pre].
      * left. split; [done|]. by exists mid, post.
      * right. rewrite str_app_cons in E. injection E as <- ->.
        by exists pre, mid, post.
Qed.

(** The regular expression of [detect_bias] decides whole-word matching. *)
Lemma re_search_word_spec (w body : string) :
  word_delimited w = true ->
  Py.re_search_word w body = true <-> whole_word_match w body.
Proof.
  intros Hw. unfold Py.re_search_word, whole_word_match, occurs_at, ends_in_word.
  rewrite (search_from_true _ _ _ Hw).
  split.
  - intros (pre & mid & post & ? & ? & ? & ?). by exists pre, mid, post.
  - intros (pre & mid & post & [? ?] & ? & ?). by exists pre, mid, post.
Qed.

Lemma biased_words_delimited :
  forallb word_delimited biased_words = true.
Proof. vm_compute. reflexivity. Qed.

Lemma lexicon_search_spec (w body : string) :
  w ∈ biased_words ->
  Py.re_search_word w body = true <-> whole_word_match w body.
Proof.
  intros Hin%list_elem_of_In. apply re_search_word_spec.
  pose proof biased_words_delimited as Hall.
  rewrite forallb_forall in Hall. apply Hall, Hin.
Qed.

End Match.

(** ** detect_bias *)

Module Bias.

Import Match.

Section Bias.

Context {F : Type} `{PyFloat F}.

Definition assessment_of (r : string * Z * list string) : string := r.1.1.
Definition score_of (r : string * Z * list string) : Z := r.1.2.
Definition words_of (r : string * Z * list string) : list string := r.2.

(** The lexicon entries that match [body], as a boolean test per entry. *)
Definition matched (body : string) : list string :=
  List.filter (fun w => Py.re_search_word w body) biased_words.

Lemma find_words_acc (lexicon acc : list string) (body : string) :
  fold_left
    (fun found_words word =>
       if Py.re_search_word word body then found_words ++ [word]
       else found_words) lexicon acc
  = acc ++ List.filter (fun w => Py.re_search_word w body) lexicon.
Proof.
  revert acc; induction lexicon as [|w l IH]; intros acc; simpl.
  - by rewrite List.app_nil_r.
  - rewrite IH. destruct (Py.re_search_word w body); [|done].
    by rewrite <- List.app_assoc.
Qed.

Lemma find_words_filter (lexicon : list string) (body : string) :
  find_words lexicon body
  = List.filter (fun w => Py.re_search_word w body) lexicon.
Proof. unfold find_words. rewrite find_words_acc. apply List.app_nil_l. Qed.

Lemma find_words_matched (body : string) :
  find_words biased_words body = matched body.
Proof. exact (find_words_filter biased_words body). Qed.

Lemma biased_words_NoDup : NoDup biased_words.
Proof. apply distinct_NoDup. vm_compute. reflexivity. Qed.

Lemma biased_words_length : length biased_words = 121%nat.
Proof. reflexivity. Qed.

Lemma matched_NoDup (body : string) : NoDup (matched body).
Proof.
  apply NoDup_ListNoDup, List.NoDup_filter, NoDup_ListNoDup, biased_words_NoDup.
Qed.

Lemma matched_elem_of (body w : string) :
  w ∈ matched body <-> w ∈ biased_words /\ whole_word_match w body.
Proof.
  unfold matched. rewrite !list_elem_of_In, List.filter_In.
  rewrite <- list_elem_of_In. split.
  - intros [Hin E]. split; [exact Hin|]. apply lexicon_search_spec; assumption.
  - intros [Hin E]. split; [exact Hin|]. apply lexicon_search_spec; assumption.
Qed.

Lemma matched_length (body : string) : (length (matched body) <= 121)%nat.
Proof. rewrite <- biased_words_length. apply List.filter_length_le. Qed.

Lemma detect_bias_eq (self : Analyzer.t F) :
  Analyzer.detect_bias self
  = (bias_assessment (Z.of_nat (length (matched (Analyzer.text self)))),
     Z.of_nat (length (matched (Analyzer.text self))),
     elements (list_to_set (matched (Analyzer.text self)) : gset string)).
Proof. unfold Analyzer.detect_bias. rewrite find_words_matched. reflexivity. Qed.

Lemma bias_assessment_tiers (score : Z) :
  (bias_assessment score = "High potential for bias" <-> 15 < score) /\
  (bias_assessment score = "Moderate potential for bias" <-> 7 < score <= 15) /\
  (bias_assessment score = "Low potential for bias" <-> 0 < score <= 7) /\
  (bias_assessment score = "Appears to be objective" <-> score <= 0).
Proof.
  unfold bias_assessment.
  destruct (Z.ltb_spec 15 score); [|destruct (Z.ltb_spec 7 score);
    [|destruct (Z.ltb_spec 0 score)]];
    repeat split; intros; try discriminate; try lia; try reflexivity.
Qed.

Lemma words_of_elem_of (self : Analyzer.t F) (w : string) :
  w ∈ words_of (Analyzer.detect_bias self) <->
  w ∈ matched (Analyzer.text self).
Proof.
  rewrite detect_bias_eq. unfold words_of; cbn [fst snd].
  rewrite elem_of_elements, elem_of_list_to_set. reflexivity.
Qed.

Lemma words_of_NoDup (self : Analyzer.t F) :
  NoDup (words_of (Analyzer.detect_bias self)).
Proof.
  rewrite detect_bias_eq. unfold words_of; cbn [fst snd]. apply NoDup_elements.
Qed.

Lemma elements_list_to_set_length (l : list string) :
  NoDup l -> length (elements (list_to_set l : gset string)) = length l.
Proof. intros Hl. exact (size_list_to_set (C := gset string) l Hl). Qed.

Lemma words_of_length (self : Analyzer.t F) :
  length (words_of (Analyzer.detect_bias self))
  = length (matched (Analyzer.text self)).
Proof.
  rewrite detect_bias_eq. unfold words_of; cbn [fst snd].
  apply elements_list_to_set_length, matched_NoDup.
Qed.

Lemma score_of_length (self : Analyzer.t F) :
  score_of (Analyzer.detect_bias self)
  = Z.of_nat (length (matched (Analyzer.text self))).
Proof.
  rewrite detect_bias_eq. unfold score_of; cbn [fst snd]. reflexivity.
Qed.

Lemma assessment_of_score (self : Analyzer.t F) :
  assessment_of (Analyzer.detect_bias self)
  = bias_assessment (score_of (Analyzer.detect_bias self)).
Proof.
  rewrite detect_bias_eq. unfold assessment_of, score_of; cbn [fst snd].
  reflexivity.
Qed.

(** An occurrence that lies inside a larger word is not a whole-word match. *)
Lemma only_inside_words_no_match (w body : string) :
  only_inside_words w body -> ~ whole_word_match w body.
Proof.
  intros Hin (pre & mid & post & Hocc & Hpre & Hpost).
  destruct (Hin pre mid post Hocc) as [E|E]; congruence.
Qed.

(** The score depends on the set of matched entries only, and grows with
    it. *)
Lemma matched_length_mono (a b : string) :
  (forall w, w ∈ biased_words -> whole_word_match w a -> whole_word_match w b) ->
  (length (matched a) <= length (matched b))%nat.
Proof.
  intros Hab. apply submseteq_length, NoDup_submseteq; [apply matched_NoDup|].
  intros w Hw. apply matched_elem_of in Hw as [Hin Hm].
  apply matched_elem_of. split; [exact Hin|]. apply Hab; assumption.
Qed.

(** The boolean form of the inclusion of the matched sets, for concrete
    texts. *)
Lemma matched_incl_check (a b : string) :
  forallb (fun w => implb (Py.re_search_word w a) (Py.re_search_word w b))
    biased_words = true ->
  forall w, w ∈ biased_words -> whole_word_match w a -> whole_word_match w b.
Proof.
  intros Hall w Hin Ha. rewrite forallb_forall in Hall.
  specialize (Hall w (proj1 (list_elem_of_In _ _) Hin)).
  apply lexicon_search_spec in Ha; [|exact Hin].
  rewrite Ha in Hall. apply lexicon_search_spec; assumption.
Qed.

(** The score of a text whose matched entries are exactly those of [l]. *)
Lemma matched_exactly (body : string) (l : list string) :
  NoDup l ->
  (forall w, w ∈ biased_words -> (whole_word_match w body <-> w ∈ l)) ->
  (forall w, w ∈ l -> w ∈ biased_words) ->
  length (matched body) = length l.
Proof.
  intros Hl Hiff Hsub. apply Permutation_length, NoDup_Permutation.
  - apply matched_NoDup.
  - exact Hl.
  - intros w. rewrite matched_elem_of. split.
    + intros [Hin Hm]. apply Hiff; assumption.
    + intros Hw. split; [apply Hsub, Hw|]. apply Hiff; [apply Hsub, Hw|exact Hw].
Qed.

(** Text added after a space keeps every whole-word match. *)
Lemma whole_word_match_app_space (v body extra : string) :
  whole_word_match v body -> whole_word_match v (body +:+ " " +:+ extra).
Proof.
  intros (pre & mid & post & [-> Hm] & Hpre & Hpost).
  exists pre, mid, (post +:+ " " +:+ extra). repeat split; try assumption.
  - by rewrite !str_app_assoc.
  - destruct post; [reflexivity|exact Hpost].
Qed.

(** A word added after a space is a whole-word match of itself. *)
Lemma whole_word_match_appended (w body : string) :
  whole_word_match w (body +:+ " " +:+ w).
Proof.
  exists (body +:+ " "), w, "". repeat split.
  - by rewrite str_app_nil_r, str_app_assoc.
  - apply ci_equal_refl.
  - unfold ends_in_word. by rewrite last_or_app.
Qed.

(** A word the pattern does not find occurs, if at all, inside larger
    words only. *)
Lemma no_match_only_inside (w body : string) :
  word_delimited w = true -> Py.re_search_word w body = false ->
  only_inside_words w body.
Proof.
  intros Hw Hs pre mid post Hocc.
  destruct (ends_in_word pre) eqn:Hpre; [by left|].
  destruct (starts_with_word post) eqn:Hpost; [by right|].
  assert (Hm : whole_word_match w body) by by exists pre, mid, post.
  apply (re_search_word_spec _ _ Hw) in Hm. congruence.
Qed.

(** Membership in a list of strings, by evaluation. *)
Lemma elem_of_check (w : string) (l : list string) :
  existsb (String.eqb w) l = true -> w ∈ l.
Proof.
  intros (x & Hx & E%String.eqb_eq)%existsb_exists. subst x.
  apply list_elem_of_In, Hx.
Qed.

(** A new matched entry raises the score. *)
Lemma matched_length_strict (a b w : string) :
  (forall v, v ∈ biased_words -> whole_word_match v a -> whole_word_match v b) ->
  w ∈ biased_words -> ~ whole_word_match w a -> whole_word_match w b ->
  (S (length (matched a)) <= length (matched b))%nat.
Proof.
  intros Hab Hw Hna Hb.
  change (S (length (matched a))) with (length (w :: matched a)).
  apply submseteq_length, NoDup_submseteq.
  - apply NoDup_cons. split; [|apply matched_NoDup].
    rewrite matched_elem_of. tauto.
  - intros v [->|Hv]%elem_of_cons; apply matched_elem_of.
    + split; assumption.
    + apply matched_elem_of in Hv as [Hin Hm]. split; [exact Hin|].
      apply Hab; assumption.
Qed.

(** C2. The bias score is the number of distinct lexicon entries that match
    the text as a whole word or phrase, whatever the case of the letters and
    however often: it is the length of a duplicate-free list of exactly those
    entries. An entry whose occurrences all lie inside larger words is not
    reported (the text "goodness" contains "good" and scores 0). The tier is
    "High potential for bias" iff score > 15, "Moderate potential for bias"
    iff 7 < score <= 15, "Low potential for bias" iff 0 < score <= 7 and
    "Appears to be objective" iff score = 0. A text whose matched entries
    are exactly "shocking", "disaster" and "miracle" scores 3, "Low
    potential for bias". *)
Theorem detect_bias_score_and_tier (self : Analyzer.t F) :
  let body := Analyzer.text self in
  let r := Analyzer.detect_bias self in
  (exists l : list string,
     NoDup l /\
     (forall w, w ∈ l <-> w ∈ biased_words /\ whole_word_match w body) /\
     score_of r = Z.of_nat (length l)) /\
  (forall w, w ∈ biased_words -> only_inside_words w body -> w ∉ words_of r) /\
  (body = "goodness" ->
     occurs_at "good" body "" "good" "ness" /\
     only_inside_words "good" body /\ score_of r = 0) /\
  (assessment_of r = "High potential for bias" <-> 15 < score_of r) /\
  (assessment_of r = "Moderate potential for bias" <-> 7 < score_of r <= 15) /\
  (assessment_of r = "Low potential for bias" <-> 0 < score_of r <= 7) /\
  (assessment_of r = "Appears to be objective" <-> score_of r = 0) /\
  ((forall w, w ∈ biased_words ->
      (whole_word_match w body <-> w ∈ ["shocking"; "disaster"; "miracle"])) ->
     score_of r = 3 /\ assessment_of r = "Low potential for bias") /\
  (body = "A shocking disaster, then a miracle." ->
     score_of r = 3 /\ assessment_of r = "Low potential for bias").
Proof.
  intros body r. subst r.
  pose proof (bias_assessment_tiers (score_of (Analyzer.detect_bias self)))
    as (T1 & T2 & T3 & T4).
  rewrite assessment_of_score.
  assert (Hpos : 0 <= score_of (Analyzer.detect_bias self))
    by (rewrite score_of_length; lia).
  split; [|split; [|split; [|split; [|split; [|split; [|split; [|split]]]]]]].
  - exists (matched body). split; [apply matched_NoDup|].
    split; [intros w; apply matched_elem_of|apply score_of_length].
  - intros w Hw Hin Hr. apply words_of_elem_of, matched_elem_of in Hr as [_ Hm].
    exact (only_inside_words_no_match _ _ Hin Hm).
  - intros E. split; [|split].
    + split; [exact E|reflexivity].
    + rewrite E. apply no_match_only_inside; vm_compute; reflexivity.
    + rewrite score_of_length. fold body. rewrite E. vm_compute. reflexivity.
  - exact T1.
  - exact T2.
  - exact T3.
  - rewrite T4. lia.
  - intros Hiff.
    assert (E : score_of (Analyzer.detect_bias self) = 3).
    { rewrite score_of_length. fold body.
      rewrite (matched_exactly body ["shocking"; "disaster"; "miracle"]).
      - reflexivity.
      - apply distinct_NoDup. reflexivity.
      - exact Hiff.
      - intros w Hw. apply list_elem_of_In in Hw. simpl in Hw.
        destruct Hw as [<-|[<-|[<-|[]]]];
          apply elem_of_check; vm_compute; reflexivity. }
    split; [exact E|]. rewrite E. reflexivity.
  - intros E.
    assert (E3 : score_of (Analyzer.detect_bias self) = 3).
    { rewrite score_of_length. fold body. rewrite E. vm_compute. reflexivity. }
    split; [exact E3|]. rewrite E3. reflexivity.
Qed.

(** The sample text matches exactly three entries of the lexicon. *)
Lemma three_entries_exactly (w : string) :
  w ∈ biased_words ->
  whole_word_match w "A shocking disaster, then a miracle." <->
  w ∈ ["shocking"; "disaster"; "miracle"].
Proof.
  intros Hw. rewrite <- (lexicon_search_spec w _ Hw).
  assert (Hall : forallb
            (fun w => Bool.eqb
               (Py.re_search_word w "A shocking disaster, then a miracle.")
               (existsb (String.eqb w) ["shocking"; "disaster"; "miracle"]))
            biased_words = true) by (vm_compute; reflexivity).
  rewrite forallb_forall in Hall.
  specialize (Hall w (proj1 (list_elem_of_In _ _) Hw)).
  apply Bool.eqb_prop in Hall. rewrite Hall. split.
  - apply elem_of_check.
  - intros Hin%list_elem_of_In. apply existsb_exists. exists w.
    split; [exact Hin|apply String.eqb_refl].
Qed.

(** C10. The triple returned by [detect_bias] is coherent: the score is the
    length of the returned word list, every returned word is a lexicon entry
    that matches the text, no word is returned twice, and the score lies
    between 0 and 121, the number of entries of the lexicon. *)
Theorem detect_bias_result_coherent (self : Analyzer.t F) :
  let r := Analyzer.detect_bias self in
  score_of r = Z.of_nat (length (words_of r)) /\
  (forall w, w ∈ words_of r ->
     w ∈ biased_words /\
     Py.re_search_word w (Analyzer.text self) = true /\
     whole_word_match w (Analyzer.text self)) /\
  NoDup (words_of r) /\
  0 <= score_of r <= 121 /\
  length biased_words = 121%nat.
Proof.
  intros r. subst r. split; [|split; [|split; [|split]]].
  - rewrite words_of_length. apply score_of_length.
  - intros w Hw. apply words_of_elem_of, matched_elem_of in Hw as [Hin Hm].
    split; [exact Hin|]. split; [|exact Hm].
    apply lexicon_search_spec; assumption.
  - apply words_of_NoDup.
  - rewrite score_of_length.
    pose proof (matched_length (Analyzer.text self)). lia.
  - exact biased_words_length.
Qed.

(** C9. The bias score is monotone in the set of lexicon entries that match:
    when every entry that matches the text of [a] as a whole word also
    matches the text of [b], the score of [a] is at most the score of [b].
    In particular a lexicon entry added to a text after a space never lowers
    the score, and raises it when the entry did not match before. *)
Theorem bias_score_monotone :
  (forall a b : Analyzer.t F,
     (forall w, w ∈ biased_words ->
        whole_word_match w (Analyzer.text a) ->
        whole_word_match w (Analyzer.text b)) ->
     score_of (Analyzer.detect_bias a) <= score_of (Analyzer.detect_bias b)) /\
  (forall (a b : Analyzer.t F) (w : string),
     w ∈ biased_words ->
     Analyzer.text b = Analyzer.text a +:+ " " +:+ w ->
     score_of (Analyzer.detect_bias a) <= score_of (Analyzer.detect_bias b) /\
     (~ whole_word_match w (Analyzer.text a) ->
      score_of (Analyzer.detect_bias a) < score_of (Analyzer.detect_bias b))).
Proof.
  split.
  - intros a b Hab. rewrite !score_of_length.
    apply inj_le, matched_length_mono, Hab.
  - intros a b w Hw E. rewrite !score_of_length, E.
    assert (Hkeep : forall v, v ∈ biased_words ->
              whole_word_match v (Analyzer.text a) ->
              whole_word_match v (Analyzer.text a +:+ " " +:+ w)).
    { intros v _. apply whole_word_match_app_space. }
    split.
    + apply inj_le, matched_length_mono, Hkeep.
    + intros Hna.
      pose proof (matched_length_strict _ _ w Hkeep Hw Hna
                    (whole_word_match_appended w (Analyzer.text a))).
      lia.
Qed.

End Bias.

(** The monotonicity at two concrete texts: the entries of the first text
    ("shocking") are among those of the second ("shocking", "disaster"). *)
Lemma bias_score_monotone_witness :
  score_of (Analyzer.detect_bias (analyzer_of "A shocking claim."))
  <= score_of (Analyzer.detect_bias (analyzer_of "A shocking disaster.")).
Proof.
  apply (proj1 bias_score_monotone).
  apply matched_incl_check. vm_compute. reflexivity.
Defined.

(** The score at a text that matches exactly "shocking", "disaster" and
    "miracle". *)
Lemma detect_bias_score_and_tier_witness :
  score_of (Analyzer.detect_bias
              (analyzer_of "A shocking disaster, then a miracle.")) = 3 /\
  assessment_of (Analyzer.detect_bias
                   (analyzer_of "A shocking disaster, then a miracle."))
  = "Low potential for bias".
Proof.
  pose proof (detect_bias_score_and_tier
                (analyzer_of "A shocking disaster, then a miracle.")) as Hthm.
  cbv zeta in Hthm.
  destruct Hthm as (_ & _ & _ & _ & _ & _ & _ & Hthree & _).
  apply Hthree. exact three_entries_exactly.
Defined.

End Bias.

(** ** categorize_topic *)

Module Topic.

(** The number of positions of [s] at which [sub] occurs, overlapping
    occurrences included. *)
Fixpoint occurrences (s sub : string) : Z :=
  (if String.prefix sub s then 1 else 0) +
  match s with
  | EmptyString => 0
  | String _ s' => occurrences s' sub
  end.

(** The sum, over the keywords, of a count in the lowercased body. *)
Definition keyword_total (cnt : string -> string -> Z) (body : string)
    (keywords : list string) : Z :=
  foldr (fun keyword acc => cnt (Py.lower body) keyword + acc) 0 keywords.

(** The score of every category, in the order of the taxonomy. *)
Definition category_scores (cnt : string -> string -> Z) (body : string)
  : list (string * Z) :=
  map (fun '(topic, keywords) => (topic, keyword_total cnt body keywords)) topics.

(** [c] is the first entry of [scores] with the greatest score. *)
Definition first_maximum (scores : list (string * Z)) (c : string) : Prop :=
  exists before s after,
    scores = before ++ (c, s) :: after /\
    (forall p, p ∈ before -> p.2 < s) /\
    (forall p, p ∈ after -> p.2 <= s).

(** The classifier as the sentence states it, over a way of counting. *)
Definition classifies (cnt : string -> string -> Z) (body : string)
    (result : string) : Prop :=
  let scores := category_scores cnt body in
  (Forall (fun p => p.2 = 0) scores /\ result = "Uncategorized") \/
  (~ Forall (fun p => p.2 = 0) scores /\ first_maximum scores result).

Section Topic.

Context {F : Type} `{PyFloat F}.

Lemma topic_scores_eq (body : string) :
  Analyzer.topic_scores (Py.lower body) = category_scores Py.count body.
Proof.
  unfold category_scores, keyword_total.
  cbv -[Py.count Py.lower Z.add].
  repeat (f_equal; try lia).
Qed.

(** [max] with a key: the result is the first element no other exceeds.
    [before] and [mid] are the elements already seen, before and after the
    current best. *)
Lemma max_from_first {A} (f : A -> Z) (before mid l : list A) (best : A) :
  (forall y, y ∈ before -> f y < f best) ->
  (forall y, y ∈ mid -> f y <= f best) ->
  exists l1 l2,
    before ++ best :: mid ++ l = l1 ++ max_from f best l :: l2 /\
    (forall y, y ∈ l1 -> f y < f (max_from f best l)) /\
    (forall y, y ∈ l2 -> f y <= f (max_from f best l)).
Proof.
  revert before mid best; induction l as [|x l IH]; intros before mid best Hb Hm.
  - exists before, mid. rewrite List.app_nil_r. auto.
  - simpl. destruct (Z.ltb_spec (f best) (f x)) as [Hlt|Hge].
    + destruct (IH (before ++ best :: mid) [] x) as (l1 & l2 & E & H1 & H2).
      * intros y [Hy|[->|Hy]%elem_of_cons]%elem_of_app.
        -- specialize (Hb y Hy). lia.
        -- exact Hlt.
        -- specialize (Hm y Hy). lia.
      * intros y Hy. by apply elem_of_nil in Hy.
      * exists l1, l2. split; [|auto]. rewrite <- E.
        rewrite <- !List.app_assoc. reflexivity.
    + destruct (IH before (mid ++ [x]) best) as (l1 & l2 & E & H1 & H2).
      * exact Hb.
      * intros y [Hy|Hy%list_elem_of_singleton]%elem_of_app; [auto|].
        subst y. lia.
      * exists l1, l2. split; [|auto]. rewrite <- E.
        rewrite <- !List.app_assoc. reflexivity.
Qed.

Lemma dict_get_elem_of {V} (d : Dict.t V) (k : string) (v : V) :
  NoDup (Dict.keys d) -> (k, v) ∈ d -> Dict.get d k = Some v.
Proof.
  unfold Dict.keys. induction d as [|[k' v'] d IH]; simpl.
  - intros _ Hin. by apply elem_of_nil in Hin.
  - intros [Hk Hd]%NoDup_cons [E|Hin]%elem_of_cons.
    + injection E as -> ->. by rewrite String.eqb_refl.
    + destruct (String.eqb_spec k' k) as [->|Hne]; [|by apply IH].
      exfalso. apply Hk. apply (list_elem_of_fmap_2 fst) in Hin. exact Hin.
Qed.

(** [max(scores, key=scores.get)] on a dictionary: the first key with the
    greatest value. *)
Lemma py_max_key_first (scores : Dict.t Z) :
  NoDup (Dict.keys scores) -> scores <> [] ->
  exists r,
    py_max_key (Dict.keys scores) (fun k => default 0 (Dict.get scores k)) = Some r /\
    first_maximum scores r.
Proof.
  intros Hnd Hne. destruct scores as [|[k0 v0] rest] eqn:Es; [done|].
  rewrite <- Es in *. clear Hne.
  set (f := fun k => default 0 (Dict.get scores k)).
  assert (Hf : forall p, p ∈ scores -> f p.1 = p.2).
  { intros [k v] Hp. unfold f. cbn [fst snd].
    by rewrite (dict_get_elem_of _ _ _ Hnd Hp). }
  assert (Ek : Dict.keys scores = k0 :: Dict.keys rest) by by rewrite Es.
  rewrite Ek. simpl. eexists. split; [reflexivity|].
  destruct (max_from_first f [] [] (Dict.keys rest) k0) as (l1 & l2 & E & H1 & H2).
  { intros y Hy. by apply elem_of_nil in Hy. }
  { intros y Hy. by apply elem_of_nil in Hy. }
  simpl in E. rewrite <- Ek in E. unfold Dict.keys in E at 1.
  apply fmap_app_inv in E as (before & tl & -> & Etl & Escores).
  symmetry in Etl. apply fmap_cons_inv in Etl as ([r s] & after & Er & -> & ->).
  simpl in Er. exists before, s, after. rewrite Er.
  assert (Hs : f r = s).
  { apply (Hf (r, s)). rewrite Escores. set_solver. }
  rewrite Er, Hs in H1, H2.
  split; [exact Escores|]. split.
  - intros p Hp. rewrite <- (Hf p); [|rewrite Escores; set_solver].
    apply H1. by apply list_elem_of_fmap_2.
  - intros p Hp. rewrite <- (Hf p); [|rewrite Escores; set_solver].
    apply H2. by apply list_elem_of_fmap_2.
Qed.

Lemma category_scores_keys (cnt : string -> string -> Z) (body : string) :
  Dict.keys (category_scores cnt body) = Dict.keys topics.
Proof. reflexivity. Qed.

Lemma topics_keys_NoDup : NoDup (Dict.keys topics).
Proof. apply distinct_NoDup. reflexivity. Qed.

Lemma forallb_zero (scores : list (string * Z)) :
  forallb (fun score => score =? 0) (Dict.values scores) = true <->
  Forall (fun p => p.2 = 0) scores.
Proof.
  unfold Dict.values. induction scores as [|[k v] l IH]; simpl.
  - split; [constructor|done].
  - rewrite andb_true_iff, IH, Forall_cons, Z.eqb_eq. reflexivity.
Qed.

(** The classifier returns what the rule selects, under [str.count]. *)
Lemma categorize_topic_classifies (self : Analyzer.t F) :
  exists r,
    Analyzer.categorize_topic self = Ok r /\
    classifies Py.count (Analyzer.text self) r.
Proof.
  unfold Analyzer.categorize_topic, classifies.
  rewrite topic_scores_eq.
  set (scores := category_scores Py.count (Analyzer.text self)).
  destruct (forallb _ (Dict.values scores)) eqn:Ez.
  - exists "Uncategorized". split; [reflexivity|]. left.
    split; [by apply forallb_zero|reflexivity].
  - destruct (py_max_key_first scores) as (r & -> & Hr).
    + unfold scores. rewrite category_scores_keys. apply topics_keys_NoDup.
    + discriminate.
    + exists r. split; [reflexivity|]. right. split; [|exact Hr].
      intros Hz%forallb_zero. congruence.
Qed.


(** [str.count] never finds more than the occurrences there are. *)
Lemma count_from_le_occurrences (sub s : string) (skip : nat) :
  0 <= Py.count_from sub skip s <= occurrences s sub.
Proof.
  revert skip; induction s as [|c s IH]; intros skip; cbn -[String.prefix].
  - destruct (String.prefix sub ""); lia.
  - destruct skip as [|k].
    + destruct (String.prefix sub (String c s)).
      * specialize (IH (Nat.pred (String.length sub))). lia.
      * specialize (IH O). lia.
    + specialize (IH k). destruct (String.prefix sub (String c s)); lia.
Qed.

Lemma count_le_occurrences (s sub : string) :
  sub <> "" -> 0 <= Py.count s sub <= occurrences s sub.
Proof.
  intros Hne. destruct sub as [|a sub]; [done|].
  apply count_from_le_occurrences.
Qed.

(** [s] without its first [n] characters. *)
Fixpoint drop (n : nat) (s : string) : string :=
  match n, s with
  | S n', String _ s' => drop n' s'
  | _, _ => s
  end.

(** A proper, non-empty end of [sub] is also a beginning of it: two
    occurrences of [sub] can overlap. *)
Definition bordered (sub : string) : bool :=
  existsb (fun k => String.prefix (drop k sub) sub)
    (seq 1 (Nat.pred (String.length sub))).

Lemma prefix_nil (s : string) : String.prefix "" s = true.
Proof. by destruct s. Qed.

Lemma prefix_cons (a c : ascii) (p s : string) :
  String.prefix (String a p) (String c s) = true <->
  a = c /\ String.prefix p s = true.
Proof.
  simpl. destruct (ascii_dec a c) as [->|Hne]; [tauto|].
  split; [done|]. by intros [? _].
Qed.

(** Two beginnings of the same string: the shorter begins the longer. *)
Lemma prefix_prefix (a b s : string) :
  String.prefix a s = true -> String.prefix b s = true ->
  (String.length a <= String.length b)%nat -> String.prefix a b = true.
Proof.
  revert b s; induction a as [|x a IH]; intros b s Ha Hb Hlen.
  - apply prefix_nil.
  - destruct s as [|c s]; [done|]. apply prefix_cons in Ha as [-> Ha].
    destruct b as [|y b]; [simpl in Hlen; lia|].
    apply prefix_cons in Hb as [-> Hb]. apply prefix_cons.
    split; [reflexivity|]. apply (IH b s); [done|done|simpl in Hlen; lia].
Qed.

Lemma drop_length (n : nat) (s : string) :
  String.length (drop n s) = (String.length s - n)%nat.
Proof.
  revert s; induction n as [|n IH]; intros [|c s]; simpl; try lia. apply IH.
Qed.

Lemma drop_all (s : string) : drop (String.length s) s = "".
Proof. induction s as [|c s IH]; [reflexivity|exact IH]. Qed.

Lemma drop_step (n : nat) (s : string) :
  (n < String.length s)%nat ->
  exists d, drop n s = String d (drop (S n) s).
Proof.
  revert s; induction n as [|n IH]; intros [|c s] Hn; simpl in Hn; try lia.
  - by exists c.
  - destruct (IH s) as (d & E); [lia|]. exists d. exact E.
Qed.

Lemma bordered_false (sub : string) (k : nat) :
  bordered sub = false -> (0 < k < String.length sub)%nat ->
  String.prefix (drop k sub) sub = false.
Proof.
  intros Hb Hk. apply not_true_iff_false. intros Hp.
  apply not_true_iff_false in Hb. apply Hb. unfold bordered.
  apply existsb_exists. exists k. split; [|exact Hp].
  apply in_seq. lia.
Qed.

(** Where no two occurrences can overlap, [str.count] counts them all.
    [k] characters of the occurrence found last are still ahead. *)
Lemma count_from_unbordered (sub : string) :
  sub <> "" -> bordered sub = false ->
  forall (s : string) (k : nat),
    (k < String.length sub)%nat ->
    String.prefix (drop (String.length sub - k) sub) s = true ->
    Py.count_from sub k s = occurrences s sub.
Proof.
  intros Hne Hb. induction s as [|c s IH]; intros k Hk Hp.
  - cbn -[String.prefix]. destruct sub; [done|reflexivity].
  - cbn -[String.prefix drop]. destruct k as [|k].
    + destruct (String.prefix sub (String c s)) eqn:E.
      * rewrite (IH (Nat.pred (String.length sub))).
        -- reflexivity.
        -- destruct sub; [done|simpl; lia].
        -- destruct sub as [|a sub]; [done|].
           apply prefix_cons in E as [_ E].
           replace (String.length (String a sub) - Nat.pred (String.length (String a sub)))%nat
             with 1%nat by (simpl; lia).
           exact E.
      * rewrite (IH O).
        -- reflexivity.
        -- lia.
        -- rewrite Nat.sub_0_r, drop_all. apply prefix_nil.
    + assert (E : String.prefix sub (String c s) = false).
      { apply not_true_iff_false. intros E.
        pose proof (prefix_prefix _ _ _ Hp E) as Hpp.
        rewrite (bordered_false sub (String.length sub - S k) Hb) in Hpp; [|lia].
        assert (false = true); [|done]. apply Hpp.
        rewrite drop_length. lia. }
      rewrite E.
      destruct (drop_step (String.length sub - S k) sub) as (d & Ed); [lia|].
      rewrite Ed in Hp. apply prefix_cons in Hp as [_ Hp].
      rewrite (IH k); [lia|lia|].
      replace (String.length sub - k)%nat with (S (String.length sub - S k)) by lia.
      exact Hp.
Qed.

Lemma count_unbordered (s sub : string) :
  sub <> "" -> bordered sub = false ->
  Py.count s sub = occurrences s sub.
Proof.
  intros Hne Hb.
  assert (E : Py.count s sub = Py.count_from sub 0 s)
    by (destruct sub; [done|reflexivity]).
  rewrite E. apply count_from_unbordered; [done|done| |].
  - destruct sub; [done|simpl; lia].
  - rewrite Nat.sub_0_r, drop_all. apply prefix_nil.
Qed.

(** The keywords of the taxonomy two of whose occurrences can overlap. *)
Lemma bordered_keywords :
  List.filter bordered (concat (Dict.values topics))
  = ["health"; "nutrition"; "series"; "test"].
Proof. vm_compute. reflexivity. Qed.

Lemma keywords_nonempty :
  forallb Py.truthy (concat (Dict.values topics)) = true.
Proof. vm_compute. reflexivity. Qed.

(** Apart from those four, [str.count] of a keyword is the number of its
    occurrences. *)
Lemma keyword_count_occurrences (keyword s : string) :
  keyword ∈ concat (Dict.values topics) ->
  keyword ∉ ["health"; "nutrition"; "series"; "test"] ->
  Py.count s keyword = occurrences s keyword.
Proof.
  intros Hin Hnot. apply count_unbordered.
  - pose proof keywords_nonempty as Hall. rewrite forallb_forall in Hall.
    apply list_elem_of_In, Hall in Hin. by destruct keyword.
  - apply not_true_iff_false. intros Hb. apply Hnot.
    rewrite <- bordered_keywords. apply list_elem_of_In, List.filter_In.
    split; [by apply list_elem_of_In|exact Hb].
Qed.

(** C3. For every body text, the score of a category is the sum, over its
    keywords, of [str.count] of the keyword in the lowercased body: the
    occurrences found from left to right, each search resuming after the end
    of the occurrence just found, so an occurrence that overlaps one already
    counted is not counted. For every keyword but "health", "nutrition",
    "series" and "test" that is the number of all occurrences; it never
    exceeds it. The classifier returns "Uncategorized" when every score is
    zero, and otherwise the first category, in the declared order
    Technology, Politics, Sports, Business, Health, Entertainment,
    Education, whose score no other category exceeds. The result depends on
    the body only. "The government passed a new election law." is
    classified as "Politics", with score 3. *)
Theorem categorize_topic_spec (self : Analyzer.t F) :
  let body := Analyzer.text self in
  Analyzer.topic_scores (Py.lower body) = category_scores Py.count body /\
  (exists r,
     Analyzer.categorize_topic self = Ok r /\ classifies Py.count body r) /\
  (forall other : Analyzer.t F,
     Analyzer.text other = body ->
     Analyzer.categorize_topic other = Analyzer.categorize_topic self) /\
  Dict.keys topics
    = ["Technology"; "Politics"; "Sports"; "Business"; "Health";
       "Entertainment"; "Education"] /\
  (forall keyword s,
     keyword ∈ concat (Dict.values topics) ->
     keyword ∉ ["health"; "nutrition"; "series"; "test"] ->
     Py.count s keyword = occurrences s keyword) /\
  (forall keyword s,
     keyword <> "" -> 0 <= Py.count s keyword <= occurrences s keyword) /\
  (body = "The government passed a new election law." ->
     Py.count (Py.lower body) "government" = 1 /\
     Py.count (Py.lower body) "election" = 1 /\
     Py.count (Py.lower body) "law" = 1 /\
     category_scores Py.count body
       = [("Technology", 0); ("Politics", 3); ("Sports", 0); ("Business", 0);
          ("Health", 0); ("Entertainment", 0); ("Education", 0)] /\
     Analyzer.categorize_topic self = Ok "Politics").
Proof.
  intros body. split; [apply topic_scores_eq|].
  split; [apply categorize_topic_classifies|].
  split; [|split; [reflexivity|]].
  { intros other E. unfold Analyzer.categorize_topic. by rewrite E. }
  split; [intros keyword s; apply keyword_count_occurrences|].
  split; [intros keyword s; apply count_le_occurrences|].
  - intros E. unfold Analyzer.categorize_topic. fold body. rewrite E.
    repeat split; vm_compute; reflexivity.
Qed.

End Topic.

(** The classifier on the sample sentence. *)
Lemma categorize_topic_spec_witness :
  Analyzer.categorize_topic
    (analyzer_of "The government passed a new election law.")
  = Ok "Politics".
Proof.
  pose proof (categorize_topic_spec
                (analyzer_of "The government passed a new election law."))
    as Hthm.
  cbv zeta in Hthm.
  destruct Hthm as (_ & _ & _ & _ & _ & _ & Hsample).
  apply Hsample. reflexivity.
Defined.

(** The count of occurrences differs from [str.count] where occurrences
    overlap: "testest" holds "test" at positions 0 and 3. *)
Lemma count_overlapping :
  Py.count "testest" "test" = 1 /\ occurrences "testest" "test" = 2.
Proof. split; reflexivity. Qed.

Lemma categorize_topic_testest_law :
  Analyzer.categorize_topic (analyzer_of "testest law") = Ok "Politics" /\
  category_scores Py.count "testest law"
    = [("Technology", 0); ("Politics", 1); ("Sports", 0); ("Business", 0);
       ("Health", 0); ("Entertainment", 0); ("Education", 1)] /\
  category_scores occurrences "testest law"
    = [("Technology", 0); ("Politics", 1); ("Sports", 0); ("Business", 0);
       ("Health", 0); ("Entertainment", 0); ("Education", 2)].
Proof. repeat split; vm_compute; reflexivity. Qed.

(** With every occurrence counted, overlapping ones included, the rule
    selects "Education" for the body "testest law"; the classifier returns
    "Politics". *)
Lemma categorize_topic_not_all_occurrences :
  ~ exists r,
      Analyzer.categorize_topic (analyzer_of "testest law") = Ok r /\
      classifies occurrences "testest law" r.
Proof.
  intros (r & Er & Hr).
  assert (r = "Politics") as ->.
  { vm_compute in Er. by injection Er. }
  unfold classifies in Hr.
  destruct categorize_topic_testest_law as (_ & _ & Es).
  rewrite Es in Hr. clear Es Er.
  destruct Hr as [[Hz _]|[_ (before & s & after & E & _ & Ha)]].
  - rewrite Forall_forall in Hz.
    specialize (Hz ("Politics", 1)). simpl in Hz.
    assert (1 = 0) by (apply Hz; set_solver). lia.
  - destruct before as [|p0 before]; [discriminate|].
    destruct before as [|p1 before].
    + injection E as _ <- <-.
      specialize (Ha ("Education", 2)). simpl in Ha.
      assert (2 <= 1) by (apply Ha; set_solver). lia.
    + injection E as _ _ E.
      do 5 (destruct before as [|? before]; [discriminate|injection E as _ E]).
      destruct before; discriminate.
Qed.

End Topic.

(** ** Numbers: the order of the rationals *)

Lemma Qltb_lt (a b : Q) : Qltb a b = true <-> (a < b)%Q.
Proof.
  unfold Qltb. rewrite negb_true_iff, <- not_true_iff_false, Qle_bool_iff.
  split; [apply Qnot_le_lt|apply Qlt_not_le].
Qed.

Lemma Qltb_ge (a b : Q) : Qltb a b = false <-> (b <= a)%Q.
Proof.
  unfold Qltb. rewrite negb_false_iff. apply Qle_bool_iff.
Qed.

(** A binary64 number above the literal [0.1] is not below [-0.1]. *)
Lemma float_above_not_below (p : float) :
  PrimFloat.ltb lit_0_1 p = true ->
  PrimFloat.ltb p (PrimFloat.opp lit_0_1) = false.
Proof.
  rewrite !ltb_spec, opp_spec.
  change (Prim2SF lit_0_1) with (S754_finite false 7205759403792794 (-56)).
  destruct (Prim2SF p) as [[]|[]| |[] m e]; try reflexivity; try discriminate.
Qed.

(** ** Numbers: the order of binary64 *)

Module Binary64.

(** Not a NaN. *)
Definition ordered (x : float) : bool := negb (PrimFloat.is_nan x).

(** A number's place in the order: infinities outside, the zeros together
    in the middle, the finite numbers by exponent and then mantissa. *)
Definition rank (x : spec_float) : Z * Z * Z :=
  match x with
  | S754_nan => (0, 0, 0)
  | S754_infinity true => (-2, 0, 0)
  | S754_infinity false => (2, 0, 0)
  | S754_zero _ => (0, 0, 0)
  | S754_finite true m e => (-1, - e, Z.neg m)
  | S754_finite false m e => (1, e, Z.pos m)
  end.

Definition lex_lt (a b : Z * Z * Z) : Prop :=
  a.1.1 < b.1.1 \/
  (a.1.1 = b.1.1 /\ (a.1.2 < b.1.2 \/ (a.1.2 = b.1.2 /\ a.2 < b.2))).

Lemma SFcompare_rank (x y : spec_float) :
  x <> S754_nan -> y <> S754_nan ->
  exists c, SFcompare x y = Some c /\
    (c = Lt <-> lex_lt (rank x) (rank y)) /\
    (c = Eq <-> rank x = rank y) /\
    (c = Gt <-> lex_lt (rank y) (rank x)).
Proof.
  intros Hx Hy. unfold lex_lt.
  destruct x as [[]|[]| |[] mx ex], y as [[]|[]| |[] my ey]; try done;
    cbn [SFcompare rank fst snd];
    try (eexists; split; [reflexivity|];
         split; [|split]; split; intros E; try discriminate E; try lia;
         try (injection E; intros; lia); reflexivity).
  - rewrite Pos.compare_cont_spec. cbn [Pos.switch_Eq].
    destruct (Z.compare_spec ex ey), (Pos.compare_spec mx my);
      cbn [CompOpp]; eexists; (split; [reflexivity|]);
      (split; [|split]); split; intros E; try discriminate E; try lia;
      try (injection E; intros; lia); try reflexivity;
      try (subst; reflexivity).
  - rewrite Pos.compare_cont_spec. cbn [Pos.switch_Eq].
    destruct (Z.compare_spec ex ey), (Pos.compare_spec mx my);
      eexists; (split; [reflexivity|]);
      (split; [|split]); split; intros E; try discriminate E; try lia;
      try (injection E; intros; lia); try reflexivity;
      try (subst; reflexivity).
Qed.

Lemma SFcompare_None (x y : spec_float) :
  SFcompare x y = None <-> x = S754_nan \/ y = S754_nan.
Proof.
  destruct x as [[]|[]| |[] mx ex], y as [[]|[]| |[] my ey];
    cbn [SFcompare]; split; intros E; try discriminate E; auto;
    destruct E as [E|E]; discriminate E.
Qed.

Lemma SFltb_rank (x y : spec_float) :
  SFltb x y = true <->
  x <> S754_nan /\ y <> S754_nan /\ lex_lt (rank x) (rank y).
Proof.
  unfold SFltb. split.
  - intros E.
    assert (Hn : ~ (x = S754_nan \/ y = S754_nan)).
    { intros Hn%SFcompare_None. by rewrite Hn in E. }
    assert (Hx : x <> S754_nan) by tauto.
    assert (Hy : y <> S754_nan) by tauto.
    destruct (SFcompare_rank x y Hx Hy) as (c & Ec & Hlt & _).
    rewrite Ec in E. split; [exact Hx|]. split; [exact Hy|].
    apply Hlt. by destruct c.
  - intros (Hx & Hy & Hl).
    destruct (SFcompare_rank x y Hx Hy) as (c & Ec & Hlt & _).
    apply Hlt in Hl. by rewrite Ec, Hl.
Qed.

Lemma SFleb_rank (x y : spec_float) :
  SFleb x y = true <->
  x <> S754_nan /\ y <> S754_nan /\ ~ lex_lt (rank y) (rank x).
Proof.
  unfold SFleb. split.
  - intros E.
    assert (Hn : ~ (x = S754_nan \/ y = S754_nan)).
    { intros Hn%SFcompare_None. by rewrite Hn in E. }
    assert (Hx : x <> S754_nan) by tauto.
    assert (Hy : y <> S754_nan) by tauto.
    destruct (SFcompare_rank x y Hx Hy) as (c & Ec & _ & _ & Hgt).
    rewrite Ec in E. split; [exact Hx|]. split; [exact Hy|].
    intros Hl%Hgt. by rewrite Hl in E.
  - intros (Hx & Hy & Hl).
    destruct (SFcompare_rank x y Hx Hy) as (c & Ec & _ & _ & Hgt).
    rewrite Ec. destruct c; try reflexivity. destruct Hl. by apply Hgt.
Qed.

Lemma SFcompare_refl (x : spec_float) :
  x <> S754_nan -> SFcompare x x = Some Eq.
Proof.
  intros Hx. destruct (SFcompare_rank x x Hx Hx) as (c & Ec & _ & Heq & _).
  rewrite Ec. f_equal. by apply Heq.
Qed.

Lemma is_nan_spec (x : float) :
  PrimFloat.is_nan x = true <-> Prim2SF x = S754_nan.
Proof.
  unfold PrimFloat.is_nan. rewrite FloatAxioms.eqb_spec. unfold SFeqb.
  destruct (Prim2SF x) as [s|s| |s m e] eqn:E.
  4: rewrite SFcompare_refl by discriminate.
  1, 2: rewrite SFcompare_refl by discriminate.
  all: cbn [SFcompare negb]; split; try discriminate; reflexivity.
Qed.

Lemma ordered_spec (x : float) : ordered x = true <-> Prim2SF x <> S754_nan.
Proof.
  unfold ordered. rewrite negb_true_iff, <- not_true_iff_false, is_nan_spec.
  reflexivity.
Qed.

(** The two comparisons the program and its specification use, by rank. *)
Lemma ltb_rank (x y : float) :
  PrimFloat.ltb x y = true <->
  ordered x = true /\ ordered y = true /\
  lex_lt (rank (Prim2SF x)) (rank (Prim2SF y)).
Proof. rewrite ltb_spec, !ordered_spec. apply SFltb_rank. Qed.

Lemma leb_rank (x y : float) :
  PrimFloat.leb x y = true <->
  ordered x = true /\ ordered y = true /\
  ~ lex_lt (rank (Prim2SF y)) (rank (Prim2SF x)).
Proof. rewrite leb_spec, !ordered_spec. apply SFleb_rank. Qed.

(** On numbers, [x <= y] says that [y < x] fails. *)
Lemma leb_ltb (x y : float) :
  PrimFloat.leb x y = true <->
  PrimFloat.ltb y x = false /\ ordered x = true /\ ordered y = true.
Proof.
  rewrite leb_rank, <- not_true_iff_false, ltb_rank. tauto.
Qed.

Lemma ltb_ordered (x y : float) :
  PrimFloat.ltb x y = true -> ordered x = true /\ ordered y = true.
Proof. rewrite ltb_rank. tauto. Qed.

Lemma ltb_trans (x y z : float) :
  PrimFloat.ltb x y = true -> PrimFloat.ltb y z = true ->
  PrimFloat.ltb x z = true.
Proof.
  rewrite !ltb_rank. unfold lex_lt.
  destruct (rank (Prim2SF x)) as [[? ?] ?], (rank (Prim2SF y)) as [[? ?] ?],
    (rank (Prim2SF z)) as [[? ?] ?]. cbn [fst snd].
  intros (? & ? & ?) (? & ? & ?). split; [done|]. split; [done|]. lia.
Qed.

Lemma leb_ltb_trans (x y z : float) :
  PrimFloat.leb x y = true -> PrimFloat.ltb y z = true ->
  PrimFloat.ltb x z = true.
Proof.
  rewrite leb_rank, !ltb_rank. unfold lex_lt.
  destruct (rank (Prim2SF x)) as [[? ?] ?], (rank (Prim2SF y)) as [[? ?] ?],
    (rank (Prim2SF z)) as [[? ?] ?]. cbn [fst snd].
  intros (? & ? & ?) (? & ? & ?). split; [done|]. split; [done|]. lia.
Qed.

Lemma ltb_leb_trans (x y z : float) :
  PrimFloat.ltb x y = true -> PrimFloat.leb y z = true ->
  PrimFloat.ltb x z = true.
Proof.
  rewrite leb_rank, !ltb_rank. unfold lex_lt.
  destruct (rank (Prim2SF x)) as [[? ?] ?], (rank (Prim2SF y)) as [[? ?] ?],
    (rank (Prim2SF z)) as [[? ?] ?]. cbn [fst snd].
  intros (? & ? & ?) (? & ? & ?). split; [done|]. split; [done|]. lia.
Qed.

Lemma ltb_leb (x y : float) :
  PrimFloat.ltb x y = true -> PrimFloat.leb x y = true.
Proof.
  rewrite leb_rank, !ltb_rank. unfold lex_lt.
  destruct (rank (Prim2SF x)) as [[? ?] ?], (rank (Prim2SF y)) as [[? ?] ?].
  cbn [fst snd]. intros (? & ? & ?). split; [done|]. split; [done|]. lia.
Qed.

Lemma ltb_asym (x y : float) :
  PrimFloat.ltb x y = true -> PrimFloat.ltb y x = false.
Proof. intros H%ltb_leb%leb_ltb. tauto. Qed.

Lemma rank_opp (x : spec_float) :
  rank (SFopp x) = (- (rank x).1.1, - (rank x).1.2, - (rank x).2).
Proof.
  destruct x as [[]|[]| |[] m e]; simpl; rewrite ?Z.opp_involutive;
    reflexivity.
Qed.

Lemma ordered_opp (x : float) : ordered (- x) = ordered x.
Proof.
  apply eq_true_iff_eq. rewrite !ordered_spec, opp_spec.
  by destruct (Prim2SF x) as [[]|[]| |[] m e].
Qed.

(** [x < y] is the same as [-y < -x], and the opposite of a NaN is a NaN. *)
Lemma ltb_opp (x y : float) :
  PrimFloat.ltb (- x) (- y) = PrimFloat.ltb y x.
Proof.
  apply eq_true_iff_eq. rewrite !ltb_rank, !ordered_opp, !opp_spec, !rank_opp.
  unfold lex_lt.
  destruct (rank (Prim2SF x)) as [[? ?] ?], (rank (Prim2SF y)) as [[? ?] ?].
  cbn [fst snd]. split; intros (? & ? & ?); (split; [done|]);
    (split; [done|]); lia.
Qed.

Lemma opp_involutive (x : float) : (- - x)%float = x.
Proof.
  apply Prim2SF_inj. rewrite !opp_spec.
  destruct (Prim2SF x) as [[]|[]| |[] m e]; reflexivity.
Qed.

(** *** No NaN from numbers *)

Section Rounding.

Variables prec emax : Z.

Lemma shr_1_nonneg (mrs : shr_record) :
  0 <= shr_m mrs -> 0 <= shr_m (shr_1 mrs).
Proof.
  destruct mrs as [m r s]. cbn [shr_m]. intros Hm.
  destruct m as [|[p|p|]|p]; cbn; lia.
Qed.

Lemma iter_pos_shr_1_nonneg (p : positive) :
  forall mrs, 0 <= shr_m mrs -> 0 <= shr_m (SpecFloat.iter_pos shr_1 p mrs).
Proof.
  induction p as [p IH|p IH|]; intros mrs Hm; cbn [SpecFloat.iter_pos].
  - by apply IH, IH, shr_1_nonneg.
  - by apply IH, IH.
  - by apply shr_1_nonneg.
Qed.

Lemma shr_fexp_nonneg (m e : Z) (l : location) :
  0 <= m -> 0 <= shr_m (shr_fexp prec emax m e l).1.
Proof.
  intros Hm. unfold shr_fexp, shr.
  assert (H0 : 0 <= shr_m (shr_record_of_loc m l)) by by destruct l as [|[]].
  destruct (fexp prec emax (Zdigits2 m + e) - e); cbn [fst]; try exact H0.
  by apply iter_pos_shr_1_nonneg.
Qed.

Lemma round_nearest_even_nonneg (m : Z) (l : location) :
  0 <= m -> 0 <= round_nearest_even m l.
Proof.
  intros Hm. destruct l as [|[]]; cbn [round_nearest_even]; try lia.
  destruct (Z.even m); lia.
Qed.

(** Rounding a magnitude gives a zero, a finite number or an infinity. *)
Lemma binary_round_aux_number (sx : bool) (mx ex : Z) (lx : location) :
  0 <= mx -> binary_round_aux prec emax sx mx ex lx <> S754_nan.
Proof.
  intros Hm. unfold binary_round_aux.
  pose proof (shr_fexp_nonneg mx ex lx Hm) as H1.
  destruct (shr_fexp prec emax mx ex lx) as [mrs' e']. cbn [fst] in H1.
  pose proof (shr_fexp_nonneg
                (round_nearest_even (shr_m mrs') (loc_of_shr_record mrs'))
                e' loc_Exact
                (round_nearest_even_nonneg _ _ H1)) as H2.
  destruct (shr_fexp prec emax _ e' loc_Exact) as [mrs'' e'']. cbn [fst] in H2.
  destruct (shr_m mrs'') as [|m|m]; [done| |lia].
  by destruct (e'' <=? emax - prec).
Qed.

Lemma binary_normalize_number (m e : Z) (szero : bool) :
  binary_normalize prec emax m e szero <> S754_nan.
Proof.
  destruct m as [|m|m]; cbn [binary_normalize]; [done| |];
    unfold binary_round; destruct (shl_align _ _ _) as [mz ez];
    by apply binary_round_aux_number.
Qed.

(** A number that is no infinity. *)
Definition finite_number (x : spec_float) : bool :=
  match x with
  | S754_zero _ | S754_finite _ _ _ => true
  | _ => false
  end.

Lemma SFadd_number (x y : spec_float) :
  x <> S754_nan -> finite_number y = true -> SFadd prec emax x y <> S754_nan.
Proof.
  intros Hx Hy.
  destruct x as [[]|[]| |sx mx ex], y as [[]|[]| |sy my ey]; try done;
    cbn [SFadd]; apply binary_normalize_number.
Qed.

Lemma SFsub_number (x y : spec_float) :
  x <> S754_nan -> finite_number y = true -> SFsub prec emax x y <> S754_nan.
Proof.
  intros Hx Hy.
  destruct x as [[]|[]| |sx mx ex], y as [[]|[]| |sy my ey]; try done;
    cbn [SFsub]; apply binary_normalize_number.
Qed.

Lemma SFsub_from_number (x y : spec_float) :
  finite_number x = true -> y <> S754_nan -> SFsub prec emax x y <> S754_nan.
Proof.
  intros Hx Hy.
  destruct x as [[]|[]| |sx mx ex], y as [[]|[]| |sy my ey]; try done;
    cbn [SFsub]; apply binary_normalize_number.
Qed.

Lemma SFmul_number (x : spec_float) (sy : bool) (my : positive) (ey : Z) :
  x <> S754_nan -> SFmul prec emax x (S754_finite sy my ey) <> S754_nan.
Proof.
  intros Hx. destruct x as [[]|[]| |sx mx ex]; try done.
  cbn [SFmul]. by apply binary_round_aux_number.
Qed.

End Rounding.

(** Subtracting the integer zero changes nothing, not even the sign of a
    zero or a NaN. *)
Lemma sub_zero (x : float) : (x - 0)%float = x.
Proof.
  apply Prim2SF_inj. rewrite sub_spec.
  change (Prim2SF 0) with (S754_zero false).
  destruct (Prim2SF x) as [[]|[]| |[] m e]; reflexivity.
Qed.

End Binary64.

(** ** analyze_sentiment *)

Module Sentiment.

Definition label_of {F} (r : string * F * F) : string := r.1.1.

Section Generic.

Context {F : Type} `{PyFloat F}.

(** The only fact about the order of [F] the three-way split needs. *)
Hypothesis above_not_below :
  forall p : F, flt lit_0_1 p = true -> flt p (fneg lit_0_1) = false.

Lemma label_cases (self : Analyzer.t F) :
  let p := polarity (Analyzer.blob self) in
  let label := label_of (Analyzer.analyze_sentiment self) in
  (label = "Positive" <-> flt lit_0_1 p = true) /\
  (label = "Negative" <-> flt p (fneg lit_0_1) = true) /\
  (label = "Neutral" <->
     flt lit_0_1 p = false /\ flt p (fneg lit_0_1) = false).
Proof.
  intros p label. subst label. unfold Analyzer.analyze_sentiment, label_of.
  cbn [fst snd]. fold p.
  destruct (flt lit_0_1 p) eqn:Ehi.
  - rewrite (above_not_below p Ehi). repeat split; intros; try done.
    by destruct H0.
  - destruct (flt p (fneg lit_0_1)) eqn:Elo; repeat split; intros; try done.
    by destruct H0.
Qed.

End Generic.

(** C4. The label is "Positive" iff polarity > 0.1, "Negative" iff
    polarity < -0.1 and "Neutral" otherwise, the polarity and the
    subjectivity being returned as the primitive gave them. This holds over
    the rationals and over binary64 (where "otherwise" includes a NaN). A
    polarity of exactly 0.1, or exactly -0.1, is "Neutral"; 0.1000001 is
    "Positive". *)
Theorem analyze_sentiment_label :
  (forall self : Analyzer.t Q,
     let p := polarity (Analyzer.blob self) in
     let label := label_of (Analyzer.analyze_sentiment self) in
     Analyzer.analyze_sentiment self
       = (label, p, subjectivity (Analyzer.blob self)) /\
     (label = "Positive" <-> (1 # 10 < p)%Q) /\
     (label = "Negative" <-> (p < - (1 # 10))%Q) /\
     (label = "Neutral" <-> (- (1 # 10) <= p <= 1 # 10)%Q) /\
     ((p == 1 # 10)%Q -> label = "Neutral") /\
     ((p == - (1 # 10))%Q -> label = "Neutral") /\
     ((p == 1000001 # 10000000)%Q -> label = "Positive")) /\
  (forall self : Analyzer.t float,
     let p := polarity (Analyzer.blob self) in
     let label := label_of (Analyzer.analyze_sentiment self) in
     Analyzer.analyze_sentiment self
       = (label, p, subjectivity (Analyzer.blob self)) /\
     (label = "Positive" <-> PrimFloat.ltb 0x1.999999999999ap-4 p = true) /\
     (label = "Negative" <-> PrimFloat.ltb p (-0x1.999999999999ap-4) = true) /\
     (label = "Neutral" <->
        PrimFloat.ltb 0x1.999999999999ap-4 p = false /\
        PrimFloat.ltb p (-0x1.999999999999ap-4) = false) /\
     (p = 0x1.999999999999ap-4%float -> label = "Neutral") /\
     (p = (-0x1.999999999999ap-4)%float -> label = "Neutral") /\
     (p = 0x1.9999b4718c345p-4%float -> label = "Positive")).
Proof.
  split.
  - intros self p label.
    assert (Hlaw : forall q : Q, flt lit_0_1 q = true -> flt q (fneg lit_0_1) = false).
    { intros q Hq. apply Qltb_lt in Hq. apply Qltb_ge. simpl in *. lra. }
    destruct (label_cases Hlaw self) as (Hpos & Hneg & Hneu).
    fold p label in Hpos, Hneg, Hneu. simpl in Hpos, Hneg, Hneu.
    rewrite Qltb_lt in Hpos, Hneg. rewrite !Qltb_ge in Hneu.
    split; [reflexivity|]. split; [exact Hpos|]. split; [exact Hneg|].
    split; [rewrite Hneu; tauto|].
    repeat split; intros E.
    + apply Hneu. rewrite E. lra.
    + apply Hneu. rewrite E. lra.
    + apply Hpos. rewrite E. lra.
  - intros self p label.
    destruct (label_cases (H := float_PyFloat) float_above_not_below self) as (Hpos & Hneg & Hneu).
    fold p label in Hpos, Hneg, Hneu.
    split; [reflexivity|]. split; [exact Hpos|]. split; [exact Hneg|].
    split; [exact Hneu|].
    repeat split; intros E.
    + apply Hneu. rewrite E. split; reflexivity.
    + apply Hneu. rewrite E. split; reflexivity.
    + apply Hpos. rewrite E. reflexivity.
Qed.

(** A polarity of exactly one tenth. *)
Lemma analyze_sentiment_label_witness :
  label_of (Analyzer.analyze_sentiment
              (analyzer_with "." 0
                 {| polarity := (1 # 10)%Q; subjectivity := 0%Q;
                    sentences := [] |}))
  = "Neutral".
Proof.
  pose proof (proj1 analyze_sentiment_label
                (analyzer_with "." 0
                   {| polarity := (1 # 10)%Q; subjectivity := 0%Q;
                      sentences := [] |})) as Hthm.
  cbv zeta in Hthm.
  destruct Hthm as (_ & _ & _ & _ & Htenth & _).
  apply Htenth. reflexivity.
Defined.

End Sentiment.

(** ** analyze_source_credibility *)

Module Credibility.

Import Binary64.

(** The score before the clamp, as the formula states it, every operation
    rounded to binary64 as Python rounds it. *)
Definition claimed_score (s : float) (n L : Z) : float :=
  ((1 - s) * 100 - (if (n <? 8)%Z then 25 else 0)
   + float_of_int (Z.min (L * 3) 30)%Z)%float.

(** [clamp(x, lo, hi)] of a number. *)
Definition clamp (x lo hi : float) : float :=
  if (x <=? lo)%float then lo else if (hi <=? x)%float then hi else x.

Definition assessment_of (r : string * string) : string := r.1.
Definition formatted_of (r : string * string) : string := r.2.

(** The builtins [max(0, min(100, x))] clamp a number; they answer 100 on
    a NaN, which compares false with everything. *)
Lemma py_clamp (x : float) :
  py_max (of_int 0) (py_min (of_int 100) x)
  = if PrimFloat.is_nan x then 100%float else clamp x 0 100.
Proof.
  unfold py_max, py_min, clamp. cbn [flt of_int float_PyFloat].
  change (float_of_int 0) with 0%float.
  change (float_of_int 100) with 100%float.
  destruct (PrimFloat.is_nan x) eqn:En.
  - assert (Ho : ordered x = false) by (unfold ordered; by rewrite En).
    destruct (x <? 100)%float eqn:Ea; [|reflexivity].
    apply ltb_ordered in Ea as [Ha _]. congruence.
  - assert (Ho : ordered x = true) by (unfold ordered; by rewrite En).
    assert (H0 : ordered 0 = true) by reflexivity.
    assert (H100 : ordered 100 = true) by reflexivity.
    destruct (x <? 100)%float eqn:Ea.
    + destruct (0 <? x)%float eqn:Eb.
      * assert (E1 : (x <=? 0)%float = false).
        { apply not_true_iff_false. intros E%leb_ltb. destruct E. congruence. }
        assert (E2 : (100 <=? x)%float = false).
        { apply not_true_iff_false. intros E%leb_ltb. destruct E. congruence. }
        by rewrite E1, E2.
      * assert (E1 : (x <=? 0)%float = true) by by apply leb_ltb.
        by rewrite E1.
    + assert (E2 : (100 <=? x)%float = true) by by apply leb_ltb.
      assert (Eb : (0 <? x)%float = true)
        by (apply (ltb_leb_trans 0 100 x); [reflexivity|exact E2]).
      assert (E1 : (x <=? 0)%float = false).
      { apply not_true_iff_false. intros E%leb_ltb. destruct E. congruence. }
      rewrite E1, E2. reflexivity.
Qed.

(** The clamp of a number lies in the interval. *)
Lemma clamp_range (x : float) :
  ordered x = true ->
  (0 <=? clamp x 0 100)%float = true /\ (clamp x 0 100 <=? 100)%float = true.
Proof.
  intros Ho. unfold clamp.
  destruct (x <=? 0)%float eqn:E1; [split; reflexivity|].
  destruct (100 <=? x)%float eqn:E2; [split; reflexivity|].
  assert (Hx0 : (0 <? x)%float = true).
  { destruct (0 <? x)%float eqn:E; [reflexivity|].
    assert ((x <=? 0)%float = true) by by apply leb_ltb. congruence. }
  assert (Hx1 : (x <? 100)%float = true).
  { destruct (x <? 100)%float eqn:E; [reflexivity|].
    assert ((100 <=? x)%float = true) by by apply leb_ltb. congruence. }
  split; by apply ltb_leb.
Qed.

(** The code's running score is the formula's. *)
Lemma credibility_score_eq (self : Analyzer.t float) :
  Analyzer.credibility_score self
  = py_max (of_int 0) (py_min (of_int 100)
      (claimed_score (subjectivity (Analyzer.blob self))
         (Z.of_nat (length (sentences (Analyzer.blob self))))
         (Article.external_links_count (Analyzer.article self)))).
Proof.
  unfold Analyzer.credibility_score, Analyzer.analyze_sentiment, claimed_score.
  cbn [fadd fsub fmul of_int float_PyFloat].
  change (float_of_int 1) with 1%float.
  change (float_of_int 100) with 100%float.
  change (float_of_int 25) with 25%float.
  destruct (_ <? 8); [reflexivity|]. by rewrite sub_zero.
Qed.

(** The tiers, on a number. *)
Lemma credibility_assessment_tiers (x : float) :
  ordered x = true ->
  (Analyzer.credibility_assessment x = "Appears highly credible"
     <-> (80 <? x)%float = true) /\
  (Analyzer.credibility_assessment x = "Appears credible"
     <-> (60 <? x)%float = true /\ (x <=? 80)%float = true) /\
  (Analyzer.credibility_assessment x = "Moderate credibility"
     <-> (40 <? x)%float = true /\ (x <=? 60)%float = true) /\
  (Analyzer.credibility_assessment x = "Low credibility (review with caution)"
     <-> (x <=? 40)%float = true).
Proof.
  intros Ho. unfold Analyzer.credibility_assessment.
  cbn [flt of_int float_PyFloat].
  change (float_of_int 80) with 80%float.
  change (float_of_int 60) with 60%float.
  change (float_of_int 40) with 40%float.
  assert (L80 : (x <=? 80)%float = true <-> (80 <? x)%float = false).
  { rewrite leb_ltb. split; [tauto|]. intros E. by repeat split. }
  assert (L60 : (x <=? 60)%float = true <-> (60 <? x)%float = false).
  { rewrite leb_ltb. split; [tauto|]. intros E. by repeat split. }
  assert (L40 : (x <=? 40)%float = true <-> (40 <? x)%float = false).
  { rewrite leb_ltb. split; [tauto|]. intros E. by repeat split. }
  assert (M1 : (80 <? x)%float = true -> (60 <? x)%float = true)
    by (apply (ltb_trans 60 80 x); reflexivity).
  assert (M2 : (60 <? x)%float = true -> (40 <? x)%float = true)
    by (apply (ltb_trans 40 60 x); reflexivity).
  rewrite L80, L60, L40.
  destruct (80 <? x)%float eqn:E80.
  { rewrite (M1 eq_refl), (M2 (M1 eq_refl)).
    repeat split; intros; try done; try tauto; by destruct H. }
  destruct (60 <? x)%float eqn:E60.
  { rewrite (M2 eq_refl).
    repeat split; intros; try done; try tauto; by destruct H. }
  destruct (40 <? x)%float eqn:E40;
    repeat split; intros; try done; try tauto; by destruct H.
Qed.

(** The sum of the formula is a number whenever the subjectivity is one:
    no operation of the formula meets an infinity with a zero or with the
    opposite infinity. *)
Lemma claimed_score_ordered (s : float) (n L : Z) :
  0 <= L -> ordered s = true -> ordered (claimed_score s n L) = true.
Proof.
  intros HL. rewrite !ordered_spec. intros Hs. unfold claimed_score.
  rewrite add_spec, sub_spec, mul_spec, sub_spec.
  apply SFadd_number.
  - apply SFsub_number; [|by destruct (n <? 8)].
    assert (H100 : exists sy my ey, Prim2SF 100 = S754_finite sy my ey)
      by (vm_compute; eauto).
    destruct H100 as (sy & my & ey & ->).
    apply SFmul_number. by apply SFsub_from_number.
  - destruct (Z.le_gt_cases 10 L) as [H10|H10].
    + rewrite Z.min_r by lia. reflexivity.
    + assert (Hc : L = 0 \/ L = 1 \/ L = 2 \/ L = 3 \/ L = 4 \/ L = 5 \/
                   L = 6 \/ L = 7 \/ L = 8 \/ L = 9) by lia.
      destruct Hc as [->|[->|[->|[->|[->|[->|[->|[->|[->| ->]]]]]]]]];
        reflexivity.
Qed.

(** A NaN for a subjectivity goes through the formula. *)
Lemma claimed_score_nan (s : float) (n L : Z) :
  ordered s = false -> ordered (claimed_score s n L) = false.
Proof.
  intros Hs.
  assert (Es : Prim2SF s = S754_nan).
  { destruct (Prim2SF s) eqn:E; try reflexivity; exfalso;
      (assert (ordered s = true)
         by (apply ordered_spec; rewrite E; discriminate));
      congruence. }
  apply not_true_iff_false. rewrite ordered_spec. intros Hx. apply Hx.
  unfold claimed_score.
  rewrite add_spec, sub_spec, mul_spec, sub_spec, Es.
  unfold SF64add, SF64sub, SF64mul.
  by destruct (Prim2SF 1).
Qed.

(** C1. In binary64, the arithmetic of the program, for every sentence
    count [n] and link count [L] and every subjectivity that is a number
    (any [s] in [0, 1] is one): the score is
    clamp((1 - s) * 100 - (25 if n < 8 else 0) + min(L * 3, 30), 0, 100),
    every operation rounded as Python rounds it, returned printed with two
    decimals and followed by "/100"; it lies in [0, 100]; the tier is
    "Appears highly credible" above 80, "Appears credible" above 60,
    "Moderate credibility" above 40 and "Low credibility (review with
    caution)" otherwise. (A NaN for a subjectivity gives 100, since
    [max(0, min(100, x))] answers 100 on a NaN.) (s=1.0, n=1, L=0) gives
    0.00, (s=0.0, n=20, L=100) gives 100.00 and (s=0.4, n=10, L=4) gives
    72.00, "Appears credible". *)
Theorem analyze_source_credibility_formula :
  (forall self : Analyzer.t float,
     let s := subjectivity (Analyzer.blob self) in
     let n := Z.of_nat (length (sentences (Analyzer.blob self))) in
     let L := Article.external_links_count (Analyzer.article self) in
     let x := claimed_score s n L in
     let score := Analyzer.credibility_score self in
     let r := Analyzer.analyze_source_credibility self in
     (0 <= L -> ordered s = true -> score = clamp x 0 100) /\
     (ordered s = false -> score = 100%float) /\
     score = (if PrimFloat.is_nan x then 100%float else clamp x 0 100) /\
     formatted_of r = format_2f (float_exact score) +:+ "/100" /\
     ((0 <=? score)%float = true /\ (score <=? 100)%float = true) /\
     (assessment_of r = "Appears highly credible"
        <-> (80 <? score)%float = true) /\
     (assessment_of r = "Appears credible"
        <-> (60 <? score)%float = true /\ (score <=? 80)%float = true) /\
     (assessment_of r = "Moderate credibility"
        <-> (40 <? score)%float = true /\ (score <=? 60)%float = true) /\
     (assessment_of r = "Low credibility (review with caution)"
        <-> (score <=? 40)%float = true)) /\
  Analyzer.analyze_source_credibility
      (analyzer_with "." 0 (blob_of 1%float 1))
    = ("Low credibility (review with caution)", "0.00/100") /\
  Analyzer.analyze_source_credibility
      (analyzer_with "." 100 (blob_of 0%float 20))
    = ("Appears highly credible", "100.00/100") /\
  Analyzer.analyze_source_credibility
      (analyzer_with "." 4 (blob_of 0x1.999999999999ap-2%float 10))
    = ("Appears credible", "72.00/100").
Proof.
  split; [|repeat split; vm_compute; reflexivity].
  intros self s n L x score r.
  assert (Escore : score
            = if PrimFloat.is_nan x then 100%float else clamp x 0 100).
  { unfold score. rewrite credibility_score_eq. apply py_clamp. }
  assert (Hrange : (0 <=? score)%float = true /\ (score <=? 100)%float = true).
  { rewrite Escore. destruct (PrimFloat.is_nan x) eqn:En; [split; reflexivity|].
    apply clamp_range. unfold ordered. by rewrite En. }
  assert (Ho : ordered score = true).
  { destruct Hrange as [H0 _]. apply leb_ltb in H0. tauto. }
  split; [|split].
  - intros HL Hs. rewrite Escore.
    pose proof (claimed_score_ordered s n L HL Hs) as Hx. fold x in Hx.
    unfold ordered in Hx. by destruct (PrimFloat.is_nan x).
  - intros Hs. rewrite Escore.
    pose proof (claimed_score_nan s n L Hs) as Hx. fold x in Hx.
    unfold ordered in Hx. by destruct (PrimFloat.is_nan x).
  - split; [exact Escore|]. split; [reflexivity|]. split; [exact Hrange|].
    exact (credibility_assessment_tiers score Ho).
Qed.

(** Subjectivity 0.25, three sentences, two links: 100 * 0.75 - 25 + 6. *)
Lemma analyze_source_credibility_formula_witness :
  Analyzer.credibility_score (analyzer_with "." 2 (blob_of 0.25%float 3))
  = clamp 56 0 100 /\
  Analyzer.analyze_source_credibility
    (analyzer_with "." 2 (blob_of 0.25%float 3))
  = ("Moderate credibility", "56.00/100").
Proof.
  pose proof (proj1 analyze_source_credibility_formula
                (analyzer_with "." 2 (blob_of 0.25%float 3))) as Hthm.
  cbv zeta in Hthm. destruct Hthm as (Hscore & _).
  split; [|vm_compute; reflexivity].
  rewrite Hscore; [vm_compute; reflexivity|simpl; lia|reflexivity].
Defined.

End Credibility.

(** ** Article.fetch_content: the links *)

Module Links.

Section Links.

Variable urlparse : string -> ParseResult.
Variable urljoin : string -> string -> string.

(** The anchors of the collected paragraphs, in document order. *)
Definition anchors (paragraphs : list Paragraph) : list string :=
  concat (map hrefs paragraphs).

(** An absolute URL that the code counts: its scheme is http or https and
    its network location, the [netloc] string of [urlparse] with user
    information, letter case and port as written, is not the article's. *)
Definition external (article_url absolute_url : string) : Prop :=
  (scheme (urlparse absolute_url) = "http" \/
   scheme (urlparse absolute_url) = "https") /\
  netloc (urlparse absolute_url) <> netloc (urlparse article_url).

(** The URLs the links of the paragraphs resolve to, those that count. *)
Definition cited (article_url : string) (paragraphs : list Paragraph)
    (u : string) : Prop :=
  exists p href,
    p ∈ paragraphs /\ href ∈ hrefs p /\
    u = urljoin article_url href /\ external article_url u.

Lemma is_http_spec (s : string) :
  is_http s = true <-> s = "http" \/ s = "https".
Proof.
  unfold is_http. simpl. rewrite !orb_true_iff, !String.eqb_eq.
  split; [intros [?|[?|?]]|intros [?|?]]; auto; done.
Qed.

Lemma add_link_elem_of (article_url : string) (links : gset string)
    (href u : string) :
  u ∈ Article.add_link urlparse urljoin article_url
        (netloc (urlparse article_url)) links href <->
  u ∈ links \/ (u = urljoin article_url href /\ external article_url u).
Proof.
  unfold Article.add_link, external.
  destruct (is_http _) eqn:Eh; simpl.
  - apply is_http_spec in Eh.
    destruct (String.eqb_spec (netloc (urlparse (urljoin article_url href)))
                (netloc (urlparse article_url))) as [En|En]; simpl.
    + split; [auto|]. intros [?|[-> [_ Hne]]]; [done|]. by destruct Hne.
    + rewrite elem_of_union, elem_of_singleton. split.
      * intros [->|?]; auto.
      * intros [?|[-> _]]; auto.
  - split; [auto|]. intros [?|[-> [Hs _]]]; [done|].
    apply is_http_spec in Hs. congruence.
Qed.

Lemma fold_add_link_elem_of (article_url : string) (hs : list string)
    (links : gset string) (u : string) :
  u ∈ fold_left (Article.add_link urlparse urljoin article_url
                   (netloc (urlparse article_url))) hs links <->
  u ∈ links \/
  exists href, href ∈ hs /\ u = urljoin article_url href /\ external article_url u.
Proof.
  revert links; induction hs as [|h hs IH]; intros links; simpl.
  - split; [auto|]. intros [?|(href & Hin & _)]; [done|].
    by apply elem_of_nil in Hin.
  - rewrite IH, add_link_elem_of. split.
    + intros [[?|[-> Hx]]|(href & Hin & -> & Hx)]; auto.
      * right. exists h. split; [left|]; done.
      * right. exists href. split; [by right|done].
    + intros [?|(href & [->|Hin]%elem_of_cons & -> & Hx)]; auto.
      right. by exists href.
Qed.

(** The set the two loops build. *)
Lemma collect_links_elem_of (article_url : string)
    (paragraphs : list Paragraph) (u : string) :
  u ∈ Article.collect_links urlparse urljoin article_url paragraphs <->
  cited article_url paragraphs u.
Proof.
  unfold Article.collect_links, cited.
  assert (Hgen : forall links : gset string,
            u ∈ fold_left
                  (fun links p =>
                     fold_left (Article.add_link urlparse urljoin article_url
                                  (netloc (urlparse article_url)))
                       (hrefs p) links) paragraphs links <->
            u ∈ links \/
            exists p href, p ∈ paragraphs /\ href ∈ hrefs p /\
              u = urljoin article_url href /\ external article_url u).
  { induction paragraphs as [|p ps IH]; intros links; simpl.
    - split; [auto|]. intros [?|(p & href & Hin & _)]; [done|].
      by apply elem_of_nil in Hin.
    - rewrite IH, fold_add_link_elem_of. split.
      + intros [[?|(href & Hin & -> & Hx)]|(q & href & Hq & Hin & -> & Hx)]; auto.
        * right. exists p, href. split; [left|]; done.
        * right. exists q, href. split; [by right|done].
      + intros [?|(q & href & [->|Hq]%elem_of_cons & Hin & -> & Hx)]; auto.
        * left. right. by exists href.
        * right. by exists q, href. }
  rewrite Hgen. split; [intros [Hin|?]; [|done]|auto].
  by apply elem_of_empty in Hin.
Qed.


(** The number the extraction stores: the size of the set. *)
Definition link_count (article_url : string) (paragraphs : list Paragraph) : Z :=
  Z.of_nat (size (Article.collect_links urlparse urljoin article_url paragraphs)).

Lemma extract_url (self : Article.t) (soup : Soup) (io : Console) :
  Article.url (Article.extract urlparse urljoin self soup io).1 = Article.url self.
Proof.
  unfold Article.extract.
  destruct (title_string soup) as [s|]; [destruct (Py.truthy s)|];
    cbn [Article.url Article.set_title Article.set_text Article.text
         Article.set_external_links_count];
    destruct (Py.truthy _); reflexivity.
Qed.

Lemma extract_links_count (self : Article.t) (soup : Soup) (io : Console) :
  Article.external_links_count (Article.extract urlparse urljoin self soup io).1
  = link_count (Article.url self) (find_all_p (Article.article_body soup)).
Proof.
  unfold Article.extract, link_count.
  destruct (title_string soup) as [s|]; [destruct (Py.truthy s)|];
    cbn [Article.url Article.set_title Article.set_text Article.text
         Article.set_external_links_count];
    destruct (Py.truthy _); reflexivity.
Qed.

(** The count is the length of any duplicate-free enumeration of the cited
    URLs. *)
Lemma link_count_enumeration (article_url : string)
    (paragraphs : list Paragraph) (l : list string) :
  NoDup l -> (forall u, u ∈ l <-> cited article_url paragraphs u) ->
  link_count article_url paragraphs = Z.of_nat (length l).
Proof.
  intros Hl Hiff. unfold link_count. f_equal.
  rewrite <- (size_list_to_set (C := gset string) l Hl). f_equal.
  apply set_eq. intros u.
  rewrite collect_links_elem_of, elem_of_list_to_set. symmetry. apply Hiff.
Qed.

Lemma cited_one_paragraph (article_url : string) (p : Paragraph) (u : string) :
  cited article_url [p] u <->
  exists href, href ∈ hrefs p /\ u = urljoin article_url href /\
               external article_url u.
Proof.
  unfold cited. split.
  - intros (q & href & Hq%list_elem_of_singleton & Hin & E & Hx). subst q.
    by exists href.
  - intros (href & Hin & E & Hx). exists p, href.
    split; [by apply list_elem_of_singleton|done].
Qed.

(** X15. The external-link count is the number of distinct absolute URLs
    obtained by resolving the [href] of every anchor of the collected
    paragraphs against the article URL, keeping those whose scheme is http
    or https and whose [netloc] string differs from the [netloc] string of
    the article URL. Two anchors that resolve to the same URL count once,
    also in different paragraphs; two different URLs count as two, whatever
    their network locations; a link whose [netloc] is the article's is not
    counted, whatever its path. *)
Theorem external_links_count_distinct
    (self : Article.t) (soup : Soup) (io : Console) :
  let a := (Article.extract urlparse urljoin self soup io).1 in
  let article_url := Article.url self in
  let paragraphs := find_all_p (Article.article_body soup) in
  Article.external_links_count a = link_count article_url paragraphs /\
  (exists l, NoDup l /\ (forall u, u ∈ l <-> cited article_url paragraphs u) /\
             Article.external_links_count a = Z.of_nat (length l)) /\
  (forall l, NoDup l -> (forall u, u ∈ l <-> cited article_url paragraphs u) ->
             Article.external_links_count a = Z.of_nat (length l)) /\
  (forall (t1 t2 : string) (h : string),
     external article_url (urljoin article_url h) ->
     link_count article_url [{| get_text := t1; hrefs := [h; h] |}] = 1 /\
     link_count article_url
       [{| get_text := t1; hrefs := [h] |}; {| get_text := t2; hrefs := [h] |}]
     = 1) /\
  (forall (t : string) (h1 h2 : string),
     external article_url (urljoin article_url h1) ->
     external article_url (urljoin article_url h2) ->
     urljoin article_url h1 <> urljoin article_url h2 ->
     link_count article_url [{| get_text := t; hrefs := [h1; h2] |}] = 2) /\
  (forall (h : string),
     netloc (urlparse (urljoin article_url h)) = netloc (urlparse article_url) ->
     ~ external article_url (urljoin article_url h) /\
     (forall t, link_count article_url [{| get_text := t; hrefs := [h] |}] = 0) /\
     (forall ps t,
        link_count article_url (ps ++ [{| get_text := t; hrefs := [h] |}])
        = link_count article_url ps)).
Proof.
  intros a article_url paragraphs. subst a.
  rewrite extract_links_count. fold article_url paragraphs.
  split; [reflexivity|]. split; [|split; [|split; [|split]]].
  - exists (elements (Article.collect_links urlparse urljoin article_url paragraphs)).
    split; [apply NoDup_elements|]. split; [|reflexivity].
    intros u. by rewrite elem_of_elements, collect_links_elem_of.
  - intros l Hl Hiff. by apply link_count_enumeration.
  - intros t1 t2 h Hx. split.
    + apply (link_count_enumeration _ _ [urljoin article_url h]).
      * apply NoDup_singleton.
      * intros u. rewrite cited_one_paragraph, list_elem_of_singleton. simpl.
        split.
        -- intros ->. exists h. split; [left|done].
        -- intros (href & Hin & -> & _).
           apply elem_of_cons in Hin as [->|Hin%list_elem_of_singleton];
             by subst.
    + apply (link_count_enumeration _ _ [urljoin article_url h]).
      * apply NoDup_singleton.
      * intros u. rewrite list_elem_of_singleton. unfold cited. split.
        -- intros ->. eexists _, h. split; [left|]. simpl.
           split; [left|done].
        -- intros (p & href & Hp & Hin & -> & _).
           apply elem_of_cons in Hp as [->|Hp%list_elem_of_singleton];
             subst; simpl in Hin; apply list_elem_of_singleton in Hin;
             by subst.
  - intros t h1 h2 Hx1 Hx2 Hne.
    apply (link_count_enumeration _ _ [urljoin article_url h1; urljoin article_url h2]).
    + apply NoDup_cons. split; [|apply NoDup_singleton].
      by intros ?%list_elem_of_singleton.
    + intros u. rewrite cited_one_paragraph. simpl. split.
      * intros [->|Hu%list_elem_of_singleton]%elem_of_cons.
        -- exists h1. split; [left|done].
        -- subst u. exists h2. split; [right; left|done].
      * intros (href & Hin & -> & _).
        apply elem_of_cons in Hin as [->|Hin%list_elem_of_singleton].
        -- left.
        -- subst. right. left.
  - intros h En.
    assert (Hnx : ~ external article_url (urljoin article_url h))
      by (intros [_ Hne]; by apply Hne).
    split; [exact Hnx|]. split.
    + intros t. apply (link_count_enumeration _ _ []); [constructor|].
      intros u. rewrite cited_one_paragraph. simpl. split.
      * by intros ?%elem_of_nil.
      * intros (href & Hin%list_elem_of_singleton & -> & Hx). subst href.
        by destruct Hnx.
    + intros ps t. unfold link_count. do 2 f_equal. apply set_eq. intros u.
      rewrite !collect_links_elem_of. unfold cited. split.
      * intros (p & href & [Hp|Hp%list_elem_of_singleton]%elem_of_app & Hin & -> & Hx).
        -- by exists p, href.
        -- subst p. simpl in Hin. apply list_elem_of_singleton in Hin. subst.
           by destruct Hnx.
      * intros (p & href & Hp & Hin & -> & Hx). exists p, href.
        split; [apply elem_of_app; by left|done].
Qed.

End Links.

(** Two anchors to one URL, one to another path of the same foreign
    domain, one to the article's own domain, one that is no web link: two
    external links. *)
Lemma link_count_sample :
  link_count sample_urlparse sample_urljoin "https://example.org/a"
    [{| get_text := "";
        hrefs := ["https://gov.example/law"; "https://gov.example/law";
                  "https://gov.example/vote"; "/about";
                  "https://example.org/other"; "mailto:desk@example.org"] |}]
  = 2 /\
  external sample_urlparse "https://example.org/a" "https://gov.example/law" /\
  ~ external sample_urlparse "https://example.org/a" "https://example.org/other".
Proof.
  split; [vm_compute; reflexivity|]. split.
  - split; [by right|]. vm_compute. discriminate.
  - intros [_ Hne]. by apply Hne.
Qed.

(** *** The domain of a link *)

(** The part of [s] after the last [sep], [None] without any. *)
Fixpoint after_last (sep : ascii) (s : string) : option string :=
  match s with
  | EmptyString => None
  | String c s' =>
      match after_last sep s' with
      | Some r => Some r
      | None => if Ascii.eqb c sep then Some s' else None
      end
  end.

(** The part of [s] before the first [sep], all of it without any. *)
Fixpoint before_first (sep : ascii) (s : string) : string :=
  match s with
  | EmptyString => EmptyString
  | String c s' =>
      if Ascii.eqb c sep then EmptyString else String c (before_first sep s')
  end.

(** The domain of a network location [user:password@host:port], which
    the specification and the comment of the code speak of: the host, in
    lower case, as [urlparse(u).hostname] gives it. *)
Definition domain (netloc0 : string) : string :=
  Py.lower (before_first ":" (default netloc0 (after_last "@" netloc0))).

(** C5. The count is not by domain. On the article
    https://example.org/a, anchors to https://EXAMPLE.ORG/b, to
    https://example.org:443/c and to https://reader@example.org/d are on
    the article's own domain, as is the anchor to https://example.org/e;
    the code compares the [netloc] strings, which differ for the first
    three, and counts them: 3 external links where the count by domain is
    0. *)
Theorem same_domain_links_counted :
  let article_url := "https://example.org/a" in
  let anchors_of_page :=
    ["https://EXAMPLE.ORG/b"; "https://example.org:443/c";
     "https://reader@example.org/d"; "https://example.org/e"] in
  let page :=
    {| title_string := Some "News"; find_article := None; find_main := None;
       document := {| find_all_p :=
         [{| get_text := "Read more."; hrefs := anchors_of_page |}] |} |} in
  Article.external_links_count
    (Article.extract sample_urlparse sample_urljoin
       (Article.blank article_url) page (keyboard [])).1 = 3 /\
  Forall (fun href =>
            domain (netloc (sample_urlparse (sample_urljoin article_url href)))
            = domain (netloc (sample_urlparse article_url)))
    anchors_of_page /\
  external sample_urlparse article_url "https://EXAMPLE.ORG/b" /\
  external sample_urlparse article_url "https://example.org:443/c" /\
  external sample_urlparse article_url "https://reader@example.org/d" /\
  ~ external sample_urlparse article_url "https://example.org/e".
Proof.
  cbv zeta. split; [vm_compute; reflexivity|].
  split; [repeat constructor|].
  split; [split; [by right|vm_compute; discriminate]|].
  split; [split; [by right|vm_compute; discriminate]|].
  split; [split; [by right|vm_compute; discriminate]|].
  intros [_ Hne]. by apply Hne.
Qed.

(** Two paths on one foreign domain. *)
Lemma external_links_count_distinct_witness :
  link_count sample_urlparse sample_urljoin "https://example.org/a"
    [{| get_text := "";
        hrefs := ["https://gov.example/law"; "https://gov.example/vote"] |}]
  = 2.
Proof.
  pose proof (external_links_count_distinct sample_urlparse sample_urljoin
                (Article.blank "https://example.org/a") empty_page
                (keyboard [])) as Hthm.
  cbv zeta in Hthm.
  destruct Hthm as (_ & _ & _ & _ & Htwo & _).
  apply Htwo.
  - split; [by right|]. vm_compute. discriminate.
  - split; [by right|]. vm_compute. discriminate.
  - vm_compute. discriminate.
Defined.

End Links.

(** ** Article.fetch_content: text, retries and the sentinel *)

Module Fetch.

Definition placeholder : string := "Content could not be extracted.".
Definition sentinel : string := "Failed to Fetch".
Definition retry_prompt : string := "Would you like to try again? (y/n): ".

(** The line every call of [fetch_content] prints first. *)
Definition fetch_line (url : string) : string :=
  "Fetching content from " +:+ url +:+ "...".

(** The paragraph text of the selected container. *)
Definition paragraph_text (soup : Soup) : string :=
  Py.join newline (map get_text (find_all_p (Article.article_body soup))).

(** The title the extraction stores. *)
Definition page_title (soup : Soup) : string :=
  match title_string soup with
  | Some s => if Py.truthy s then Py.strip s else "No title found"
  | None => "No title found"
  end.

(** The answer that accepts the retry. *)
Definition is_yes (answer : string) : Prop := Py.lower answer = "y".

(** How often the retry was offered, and how many fetches were started,
    according to what was written. *)
Definition prompts (io : Console) : nat :=
  count_occ string_dec (stdout io) retry_prompt.
Definition attempts (url : string) (io : Console) : nat :=
  count_occ string_dec (stdout io) (fetch_line url).

(** The state a declined retry leaves. *)
Definition aborted (self : Article.t) : Article.t :=
  Article.set_title (Article.set_text self "") sentinel.

Lemma truthy_true (s : string) : Py.truthy s = true <-> s <> "".
Proof. destruct s; simpl; split; intros; done. Qed.

Lemma truthy_false (s : string) : Py.truthy s = false <-> s = "".
Proof. destruct s; simpl; split; intros; done. Qed.

(** The joined text is empty for no part, or one empty part. *)
Lemma join_newline_empty (parts : list string) :
  Py.join newline parts = "" <-> parts = [] \/ parts = [""].
Proof.
  destruct parts as [|p [|q rest]]; simpl.
  - split; [by left|done].
  - split; [intros ->; by right|by intros [?|[= ->]]].
  - split; [|by intros [?|?]].
    destruct p; [|discriminate]. discriminate.
Qed.

Lemma paragraph_text_empty (soup : Soup) :
  paragraph_text soup = "" <->
  find_all_p (Article.article_body soup) = [] \/
  exists p, find_all_p (Article.article_body soup) = [p] /\ get_text p = "".
Proof.
  unfold paragraph_text. rewrite join_newline_empty.
  destruct (find_all_p (Article.article_body soup)) as [|p [|q rest]]; simpl.
  - split; by left.
  - split.
    + intros [?|[= E]]; [done|]. right. by exists p.
    + intros [?|(p' & [= <-] & E)]; [done|]. right. by rewrite E.
  - split.
    + by intros [?|?].
    + by intros [?|(p' & ? & _)].
Qed.

Lemma count_print (io : Console) (msg x : string) :
  count_occ string_dec (stdout (print io msg)) x
  = (count_occ string_dec (stdout io) x
     + if string_dec msg x then 1 else 0)%nat.
Proof.
  unfold print; simpl. rewrite count_occ_app. simpl.
  destruct (string_dec msg x); reflexivity.
Qed.

Lemma count_print_ne (io : Console) (msg x : string) :
  msg <> x ->
  count_occ string_dec (stdout (print io msg)) x
  = count_occ string_dec (stdout io) x.
Proof.
  intros Hne. rewrite count_print. destruct (string_dec msg x); [done|lia].
Qed.

(** Two strings that differ at position [n]. *)
Lemma differ_at (n : nat) (s t : string) :
  String.get n s <> String.get n t -> s <> t.
Proof. intros Hne ->. by apply Hne. Qed.

Lemma fetch_line_not_prompt (url : string) : fetch_line url <> retry_prompt.
Proof. apply (differ_at 0). vm_compute. discriminate. Qed.

Lemma fetch_line_not_complete (url : string) :
  "Fetching complete." <> fetch_line url.
Proof. apply (differ_at 11). vm_compute. discriminate. Qed.

Lemma details_not_prompt (e : string) : "Details: " +:+ e <> retry_prompt.
Proof. apply (differ_at 0). vm_compute. discriminate. Qed.

Lemma details_not_fetch_line (e url : string) :
  "Details: " +:+ e <> fetch_line url.
Proof. apply (differ_at 0). vm_compute. discriminate. Qed.

Section Fetch.

Variable urlparse : string -> ParseResult.
Variable urljoin : string -> string -> string.

Lemma extract_text (self : Article.t) (soup : Soup) (io : Console) :
  Article.text (Article.extract urlparse urljoin self soup io).1
  = if Py.truthy (paragraph_text soup) then paragraph_text soup
    else placeholder.
Proof.
  unfold Article.extract, paragraph_text.
  destruct (title_string soup) as [s|]; [destruct (Py.truthy s)|];
    cbn [Article.url Article.set_title Article.set_text Article.text
         Article.set_external_links_count];
    destruct (Py.truthy _); reflexivity.
Qed.

Lemma extract_title (self : Article.t) (soup : Soup) (io : Console) :
  Article.title (Article.extract urlparse urljoin self soup io).1
  = page_title soup.
Proof.
  unfold Article.extract, page_title.
  destruct (title_string soup) as [s|]; [destruct (Py.truthy s)|];
    cbn [Article.url Article.set_title Article.set_text Article.text
         Article.set_external_links_count];
    destruct (Py.truthy _); reflexivity.
Qed.

(** What the extraction stores does not depend on the console. *)
Lemma extract_article (self : Article.t) (soup : Soup) (io io0 : Console) :
  (Article.extract urlparse urljoin self soup io).1
  = (Article.extract urlparse urljoin self soup io0).1.
Proof.
  unfold Article.extract.
  destruct (title_string soup) as [s|]; [destruct (Py.truthy s)|];
    cbn [Article.url Article.set_title Article.set_text Article.text
         Article.set_external_links_count];
    destruct (Py.truthy _); reflexivity.
Qed.

(** The extraction reads nothing, offers no retry and starts no fetch. *)
Lemma extract_console (self : Article.t) (soup : Soup) (io : Console) (url : string) :
  let io' := (Article.extract urlparse urljoin self soup io).2 in
  stdin io' = stdin io /\ prompts io' = prompts io /\
  attempts url io' = attempts url io.
Proof.
  unfold Article.extract, prompts, attempts.
  destruct (title_string soup) as [s|]; [destruct (Py.truthy s)|];
    cbn [Article.url Article.set_title Article.set_text Article.text
         Article.set_external_links_count];
    destruct (Py.truthy _); cbn [snd negb];
    rewrite ?count_print_ne;
    try (split; [reflexivity|split; reflexivity]);
    try apply fetch_line_not_complete; try discriminate;
    try (apply (differ_at 0); vm_compute; discriminate).
Qed.


(** A call of [fetch_content] without room: its first line is written and
    [RecursionError] is raised, nothing is read from the network. *)
Lemma fetch_content_exhausted (self : Article.t) (net : list Outcome)
    (io : Console) :
  Article.fetch_content urlparse urljoin 0 self net io
  = Some (Raise RecursionError, net, print io (fetch_line (Article.url self))).
Proof. reflexivity. Qed.

(** One call of [fetch_content] whose fetch fails: the prompt is written,
    one line is read, and the answer decides. *)
Lemma fetch_content_failure (frames : nat) (self : Article.t) (e : string)
    (net : list Outcome) (io : Console) (answer : string) (rest : list string) :
  stdin io = answer :: rest ->
  exists io1,
    stdin io1 = rest /\
    prompts io1 = S (prompts io) /\
    attempts (Article.url self) io1 = S (attempts (Article.url self) io) /\
    Article.fetch_content urlparse urljoin (S frames) self
      (RequestException e :: net) io
    = if String.eqb (Py.lower answer) "y"
      then Article.fetch_content urlparse urljoin frames self net io1
      else Some (Ok (aborted self), net, io1).
Proof.
  intros Hin. cbn [Article.fetch_content]. unfold input. cbn [stdin print].
  rewrite Hin.
  exists {| stdin := rest;
            stdout := stdout (print (print (print (print io
                        (fetch_line (Article.url self)))
                        "Error: Could not fetch the article. Please check the URL and your connection.")
                        ("Details: " +:+ e)) retry_prompt) |}.
  split; [reflexivity|]. split; [|split; [|reflexivity]].
  - unfold prompts. cbn [stdout]. rewrite count_print.
    rewrite count_print_ne by apply details_not_prompt.
    rewrite count_print_ne by discriminate.
    rewrite count_print_ne by apply fetch_line_not_prompt.
    destruct (string_dec retry_prompt retry_prompt); [lia|done].
  - unfold attempts. cbn [stdout].
    rewrite count_print_ne
      by (intros E; symmetry in E; by apply fetch_line_not_prompt in E).
    rewrite count_print_ne by apply details_not_fetch_line.
    rewrite count_print_ne by (apply (differ_at 0); vm_compute; discriminate).
    rewrite count_print. destruct (string_dec _ _); [lia|done].
Qed.

Lemma fetch_content_response (frames : nat) (self : Article.t) (soup : Soup)
    (net : list Outcome) (io : Console) :
  exists io1,
    stdin io1 = stdin io /\
    prompts io1 = prompts io /\
    attempts (Article.url self) io1 = S (attempts (Article.url self) io) /\
    Article.fetch_content urlparse urljoin (S frames) self
      (Response soup :: net) io
    = Some (Ok (Article.extract urlparse urljoin self soup io).1, net, io1).
Proof.
  cbn [Article.fetch_content].
  set (io0 := print io _).
  destruct (Article.extract urlparse urljoin self soup io0) as [a io1] eqn:E.
  exists io1.
  pose proof (extract_console self soup io0 (Article.url self)) as (H1 & H2 & H3).
  rewrite E in H1, H2, H3. cbn [snd] in H1, H2, H3.
  split; [exact H1|]. split; [|split].
  - rewrite H2. unfold prompts, io0. apply count_print_ne, fetch_line_not_prompt.
  - rewrite H3. unfold attempts, io0. rewrite count_print.
    destruct (string_dec _ _); [lia|done].
  - do 4 f_equal. rewrite (extract_article self soup io io0). by rewrite E.
Qed.

Lemma is_yes_eqb (answer : string) :
  String.eqb (Py.lower answer) "y" = true <-> is_yes answer.
Proof. apply String.eqb_eq. Qed.

(** What a [fetch_content] that returns has done: some failed fetches,
    each followed by an accepted offer to retry, and then either a
    response, whose content is extracted, or one more failure with the
    offer declined. One fetch is started per accepted offer, plus the
    first, and the accepted offers were fewer than the calls with room. *)
Lemma fetch_content_trace (self : Article.t) (frames : nat) :
  forall (net : list Outcome) (io : Console) a net' io',
    Article.fetch_content urlparse urljoin frames self net io
    = Some (Ok a, net', io') ->
    exists (fails yes : list string),
      length fails = length yes /\ Forall is_yes yes /\
      (length yes < frames)%nat /\
      attempts (Article.url self) io'
        = (attempts (Article.url self) io + S (length yes))%nat /\
      ((exists soup,
          net = (RequestException <$> fails) ++ Response soup :: net' /\
          stdin io = yes ++ stdin io' /\
          prompts io' = (prompts io + length fails)%nat /\
          a = (Article.extract urlparse urljoin self soup io).1) \/
       (exists e no,
          net = (RequestException <$> fails) ++ RequestException e :: net' /\
          stdin io = yes ++ no :: stdin io' /\ ~ is_yes no /\
          prompts io' = (prompts io + S (length fails))%nat /\
          a = aborted self)).
Proof.
  induction frames as [|frames IH]; intros net io a net' io' Hf.
  { rewrite fetch_content_exhausted in Hf. discriminate. }
  destruct net as [|[e|soup] net].
  - discriminate.
  - destruct (stdin io) as [|answer rest] eqn:Hin.
    { cbn [Article.fetch_content] in Hf. unfold input in Hf.
      cbn [stdin print] in Hf. rewrite Hin in Hf. discriminate. }
    destruct (fetch_content_failure frames self e net io answer rest Hin)
      as (io1 & Hin1 & Hp1 & Ha1 & Eq).
    rewrite Eq in Hf. clear Eq.
    destruct (String.eqb (Py.lower answer) "y") eqn:Ey.
    + apply is_yes_eqb in Ey.
      apply IH in Hf as (fails & yes & Hlen & Hyes & Hlt & Hatt & Hcase).
      exists (e :: fails), (answer :: yes).
      split; [simpl; by rewrite Hlen|]. split; [by constructor|].
      split; [simpl; lia|].
      split; [rewrite Hatt, Ha1; simpl; lia|].
      destruct Hcase as [(soup & -> & Hs & Hp & ->)|(e' & no & -> & Hs & Hno & Hp & ->)].
      * left. exists soup. split; [reflexivity|].
        split; [simpl; by rewrite <- Hs, Hin1|].
        split; [rewrite Hp, Hp1; simpl; lia|]. apply extract_article.
      * right. exists e', no. split; [reflexivity|].
        split; [simpl; by rewrite <- Hs, Hin1|]. split; [exact Hno|].
        split; [rewrite Hp, Hp1; simpl; lia|reflexivity].
    + injection Hf as <- <- <-. exists [], [].
      split; [reflexivity|]. split; [constructor|]. split; [simpl; lia|].
      split; [rewrite Ha1; simpl; lia|].
      right. exists e, answer. split; [reflexivity|].
      split; [simpl; by rewrite Hin1|]. split.
      * intros Hy%is_yes_eqb. congruence.
      * split; [rewrite Hp1; simpl; lia|reflexivity].
  - destruct (fetch_content_response frames self soup net io)
      as (io1 & Hin1 & Hp1 & Ha1 & Eq).
    rewrite Eq in Hf. injection Hf as <- <- <-. exists [], [].
    split; [reflexivity|]. split; [constructor|]. split; [simpl; lia|].
    split; [rewrite Ha1; simpl; lia|].
    left. exists soup. split; [reflexivity|].
    split; [simpl; by rewrite Hin1|]. split; [rewrite Hp1; simpl; lia|reflexivity].
Qed.

(** A [fetch_content] that raises has used all its room: as many failed
    fetches as calls with room, every offer accepted, and then the call
    without room. The exception is [RecursionError]. *)
Lemma fetch_content_raises (self : Article.t) (frames : nat) :
  forall (net : list Outcome) (io : Console) e net' io',
    Article.fetch_content urlparse urljoin frames self net io
    = Some (Raise e, net', io') ->
    e = RecursionError /\
    exists (fails yes : list string),
      length fails = frames /\ length yes = frames /\ Forall is_yes yes /\
      net = (RequestException <$> fails) ++ net' /\
      stdin io = yes ++ stdin io' /\
      prompts io' = (prompts io + frames)%nat /\
      attempts (Article.url self) io'
        = (attempts (Article.url self) io + S frames)%nat.
Proof.
  induction frames as [|frames IH]; intros net io e net' io' Hf.
  { rewrite fetch_content_exhausted in Hf. injection Hf as <- <- <-.
    split; [reflexivity|]. exists [], [].
    split; [reflexivity|]. split; [reflexivity|]. split; [constructor|].
    split; [reflexivity|]. split; [reflexivity|].
    split; [unfold prompts; rewrite count_print_ne
              by apply fetch_line_not_prompt; lia|].
    unfold attempts. rewrite count_print.
    destruct (string_dec _ _); [lia|done]. }
  destruct net as [|[e0|soup] net].
  - discriminate.
  - destruct (stdin io) as [|answer rest] eqn:Hin.
    { cbn [Article.fetch_content] in Hf. unfold input in Hf.
      cbn [stdin print] in Hf. rewrite Hin in Hf. discriminate. }
    destruct (fetch_content_failure frames self e0 net io answer rest Hin)
      as (io1 & Hin1 & Hp1 & Ha1 & Eq).
    rewrite Eq in Hf. clear Eq.
    destruct (String.eqb (Py.lower answer) "y") eqn:Ey; [|discriminate].
    apply is_yes_eqb in Ey.
    apply IH in Hf as (-> & fails & yes & Hlf & Hly & Hyes & -> & Hs & Hp & Hatt).
    split; [reflexivity|]. exists (e0 :: fails), (answer :: yes).
    split; [simpl; by rewrite Hlf|]. split; [simpl; by rewrite Hly|].
    split; [by constructor|]. split; [reflexivity|].
    split; [simpl; by rewrite <- Hs, Hin1|].
    split; [rewrite Hp, Hp1; lia|rewrite Hatt, Ha1; lia].
  - destruct (fetch_content_response frames self soup net io)
      as (io1 & _ & _ & _ & Eq).
    rewrite Eq in Hf. discriminate.
Qed.

(** The recursion limit bounds the retries: a call with room for [frames]
    nested calls offers at most [frames] retries and starts at most one
    fetch more than that, however it ends. *)
Lemma fetch_content_bounded (self : Article.t) (frames : nat)
    (net : list Outcome) (io : Console) r net' io' :
  Article.fetch_content urlparse urljoin frames self net io
  = Some (r, net', io') ->
  (prompts io' <= prompts io + frames)%nat /\
  (attempts (Article.url self) io'
   <= attempts (Article.url self) io + S frames)%nat.
Proof.
  destruct r as [a|e]; intros Hf.
  - apply fetch_content_trace in Hf
      as (fails & yes & Hlen & _ & Hlt & Hatt & Hcase).
    split; [|lia].
    destruct Hcase as [(soup & _ & _ & Hp & _)|(e & no & _ & _ & _ & Hp & _)];
      lia.
  - apply fetch_content_raises in Hf
      as (_ & fails & yes & _ & _ & _ & _ & _ & Hp & Hatt).
    lia.
Qed.

(** Conversely [fetch_content] goes through every accepted retry that has
    room: after as many failures as accepted offers it is at the next
    outcome, one fetch later per offer and with that much less room. *)
Lemma fetch_content_retries (self : Article.t) (fails yes : list string)
    (frames : nat) (net' : list Outcome) :
  length fails = length yes -> Forall is_yes yes ->
  forall io rest,
    stdin io = yes ++ rest ->
    exists io1,
      stdin io1 = rest /\
      prompts io1 = (prompts io + length yes)%nat /\
      attempts (Article.url self) io1
        = (attempts (Article.url self) io + length yes)%nat /\
      Article.fetch_content urlparse urljoin (length yes + frames) self
        ((RequestException <$> fails) ++ net') io
      = Article.fetch_content urlparse urljoin frames self net' io1.
Proof.
  revert yes; induction fails as [|e fails IH]; intros [|y yes] Hlen Hyes io rest Hin;
    try discriminate.
  - exists io. split; [exact Hin|]. split; [simpl; lia|].
    split; [simpl; lia|reflexivity].
  - apply Forall_cons in Hyes as [Hy Hyes].
    destruct (fetch_content_failure (length yes + frames) self e
                ((RequestException <$> fails) ++ net')
                io y (yes ++ rest) Hin) as (io1 & Hin1 & Hp1 & Ha1 & Eq).
    apply is_yes_eqb in Hy. rewrite Hy in Eq.
    destruct (IH yes (eq_add_S _ _ Hlen) Hyes io1 rest Hin1)
      as (io2 & Hin2 & Hp2 & Ha2 & Eq2).
    exists io2. split; [exact Hin2|].
    split; [rewrite Hp2, Hp1; simpl; lia|].
    split; [rewrite Ha2, Ha1; simpl; lia|].
    simpl fmap. simpl app. simpl length. simpl Nat.add.
    rewrite <- Eq2. exact Eq.
Qed.

End Fetch.

End Fetch.

(** ** Analyzer.__init__ and CLI.run *)

Module Pipeline.

Import Fetch.

Section Pipeline.

Context {F : Type} `{PyFloat F}.
Variable TextBlob : string -> Blob F.
Variable urlparse : string -> ParseResult.
Variable urljoin : string -> string -> string.

(** The analyzer [Analyzer(article)] builds. *)
Definition analyzer_for (a : Article.t) : Analyzer.t F :=
  {| Analyzer.article := a; Analyzer.text := Article.text a;
     Analyzer.blob := TextBlob (Article.text a) |}.

(** [results] holds what the four analyses return on [an]. *)
Definition analyses_of (an : Analyzer.t F) (results : CLI.AnalysisResults) : Prop :=
  Analyzer.categorize_topic an = Ok (CLI.topic results) /\
  CLI.sentiment results = Analyzer.analyze_sentiment an /\
  CLI.bias results = Analyzer.detect_bias an /\
  CLI.credibility results = Analyzer.analyze_source_credibility an.

(** The console once the URL has been read. *)
Definition url_entered (io : Console) (rest : list string) : Console :=
  {| stdin := rest;
     stdout := stdout (print io "Welcome to the Media Analysis CLI!")
               ++ ["Please enter the URL of a news article to analyze: "] |}.

Lemma bind_Ok {A B} (a : A) (k : A -> Result B) : (Ok a ≫= k) = k a.
Proof. reflexivity. Qed.

Lemma bind_Raise {A B} (e : Exception) (k : A -> Result B) :
  (Raise e ≫= k) = Raise e.
Proof. reflexivity. Qed.

Lemma ret_Ok {A} (a : A) : mret a = Ok a.
Proof. reflexivity. Qed.

Lemma init_empty (a : Article.t) :
  Article.text a = "" ->
  Analyzer.init TextBlob a
  = Raise (ValueError "Analyzer requires a valid Article object with fetched text.").
Proof. intros E. unfold Analyzer.init. by rewrite E. Qed.

Lemma init_nonempty (a : Article.t) :
  Article.text a <> "" -> Analyzer.init TextBlob a = Ok (analyzer_for a).
Proof.
  intros Hne%truthy_true. unfold Analyzer.init. by rewrite Hne.
Qed.

Lemma init_Ok (a : Article.t) (an : Analyzer.t F) :
  Analyzer.init TextBlob a = Ok an ->
  Article.text a <> "" /\ an = analyzer_for a.
Proof.
  unfold Analyzer.init. destruct (Py.truthy (Article.text a)) eqn:E; simpl.
  - intros [= <-]. split; [by apply truthy_true|reflexivity].
  - discriminate.
Qed.

Lemma analyse_empty (a : Article.t) :
  Article.text a = "" ->
  CLI.analyse TextBlob a
  = Raise (ValueError "Analyzer requires a valid Article object with fetched text.").
Proof.
  intros E. unfold CLI.analyse. rewrite (init_empty a E). apply bind_Raise.
Qed.

Lemma analyse_nonempty (a : Article.t) :
  Article.text a <> "" ->
  exists results,
    CLI.analyse TextBlob a = Ok results /\ analyses_of (analyzer_for a) results.
Proof.
  intros Hne. unfold CLI.analyse. rewrite (init_nonempty a Hne).
  destruct (Topic.categorize_topic_classifies (analyzer_for a)) as (r & Er & _).
  rewrite bind_Ok, Er, bind_Ok, ret_Ok.
  exists {| CLI.topic := r;
            CLI.sentiment := Analyzer.analyze_sentiment (analyzer_for a);
            CLI.bias := Analyzer.detect_bias (analyzer_for a);
            CLI.credibility :=
              Analyzer.analyze_source_credibility (analyzer_for a) |}.
  split; [reflexivity|]. unfold analyses_of. cbn [CLI.topic CLI.sentiment CLI.bias CLI.credibility].
  split; [exact Er|]. split; [reflexivity|]. split; reflexivity.
Qed.

Lemma analyse_Ok (a : Article.t) (results : CLI.AnalysisResults) :
  CLI.analyse TextBlob a = Ok results ->
  Article.text a <> "" /\ analyses_of (analyzer_for a) results.
Proof.
  intros E. destruct (Py.truthy (Article.text a)) eqn:Et.
  - apply truthy_true in Et. split; [exact Et|].
    destruct (analyse_nonempty a Et) as (r & Er & Hr). congruence.
  - apply truthy_false in Et. rewrite (analyse_empty a Et) in E. discriminate.
Qed.

(** [run] once the URL has been read and found valid, in terms of what
    [Article(url)] returns. *)
Lemma run_valid (depth : nat) (net : list Outcome) (io : Console) (u : string)
    (rest : list string) :
  stdin io = u :: rest -> CLI.is_valid_url urlparse u = true ->
  CLI.run TextBlob urlparse urljoin depth net io
  = match Article.init urlparse urljoin depth u net (url_entered io rest) with
    | Some (Ok a, _, io2) =>
        if negb (Py.truthy (Article.text a))
           || String.eqb (Article.title a) sentinel
        then Some (CLI.CannotProceed a,
                   print io2 "Analysis cannot proceed. Exiting.")
        else match CLI.analyse TextBlob a with
             | Ok results => Some (CLI.Report a results, io2)
             | Raise e => Some (CLI.Uncaught e, io2)
             end
    | Some (Raise e, _, io2) => Some (CLI.Uncaught e, io2)
    | None => None
    end.
Proof.
  intros Hin Hv. unfold CLI.run, input. cbn [stdin print]. rewrite Hin.
  cbn [mbind option_bind]. rewrite Hv. cbn [negb].
  unfold url_entered. cbn [stdout print].
  destruct (Article.init _ _ _ _ _ _) as [[[[a|e] net'] io2]|]; reflexivity.
Qed.

Lemma run_invalid (depth : nat) (net : list Outcome) (io : Console)
    (u : string) (rest : list string) :
  stdin io = u :: rest -> CLI.is_valid_url urlparse u = false ->
  exists io',
    CLI.run TextBlob urlparse urljoin depth net io = Some (CLI.InvalidURL, io').
Proof.
  intros Hin Hv. unfold CLI.run, input. cbn [stdin print]. rewrite Hin.
  cbn [mbind option_bind]. rewrite Hv. eexists. reflexivity.
Qed.

(** However [run] ends with a report, the article went through the fetch
    and the analyses ran on a non-empty body. *)
Lemma run_Report (depth : nat) (net : list Outcome) (io io' : Console)
    (a : Article.t) (results : CLI.AnalysisResults) :
  CLI.run TextBlob urlparse urljoin depth net io
  = Some (CLI.Report a results, io') ->
  Article.text a <> "" /\ Article.title a <> sentinel /\
  analyses_of (analyzer_for a) results.
Proof.
  intros Hr. destruct (stdin io) as [|u rest] eqn:Hin.
  { unfold CLI.run, input in Hr. cbn [stdin print] in Hr.
    rewrite Hin in Hr. discriminate. }
  destruct (CLI.is_valid_url urlparse u) eqn:Hv.
  - rewrite (run_valid depth net io u rest Hin Hv) in Hr.
    destruct (Article.init _ _ _ _ _ _) as [[[[a0|e0] net'] io2]|];
      [|discriminate|discriminate].
    destruct (Py.truthy (Article.text a0)) eqn:Et; [|discriminate].
    destruct (String.eqb_spec (Article.title a0) sentinel) as [|Hne];
      [discriminate|]. cbn [negb orb] in Hr.
    destruct (CLI.analyse TextBlob a0) as [r|e] eqn:Ea; [|discriminate].
    injection Hr as <- <- <-. apply analyse_Ok in Ea as [Hne' Han].
    done.
  - destruct (run_invalid depth net io u rest Hin Hv) as (io1 & E). congruence.
Qed.

(** The code of [run] and of what it calls raises nothing to the caller but
    the [RecursionError] of a retry without room. *)
Lemma run_Uncaught (depth : nat) (net : list Outcome) (io io' : Console)
    (e : Exception) :
  CLI.run TextBlob urlparse urljoin depth net io = Some (CLI.Uncaught e, io') ->
  e = RecursionError.
Proof.
  intros Hr. destruct (stdin io) as [|u rest] eqn:Hin.
  { unfold CLI.run, input in Hr. cbn [stdin print] in Hr.
    rewrite Hin in Hr. discriminate. }
  destruct (CLI.is_valid_url urlparse u) eqn:Hv.
  - rewrite (run_valid depth net io u rest Hin Hv) in Hr.
    destruct (Article.init _ _ _ _ _ _) as [[[[a0|e0] net'] io2]|] eqn:Ei;
      [| |discriminate].
    + destruct (Py.truthy (Article.text a0)) eqn:Et; [|discriminate].
      cbn [negb orb] in Hr.
      destruct (String.eqb (Article.title a0) sentinel); [discriminate|].
      apply truthy_true in Et.
      destruct (analyse_nonempty a0 Et) as (results & Er & _).
      rewrite Er in Hr. discriminate.
    + injection Hr as <- <-. unfold Article.init in Ei.
      by apply fetch_content_raises in Ei as [-> _].
  - destruct (run_invalid depth net io u rest Hin Hv) as (io1 & E). congruence.
Qed.

(** [run] on a page that is fetched at once. *)
Lemma run_response (depth : nat) (net : list Outcome) (io : Console)
    (u : string) (rest : list string) (soup : Soup) :
  stdin io = u :: rest -> CLI.is_valid_url urlparse u = true ->
  let a := (Article.extract urlparse urljoin (Article.blank u) soup io).1 in
  exists io2,
    CLI.run TextBlob urlparse urljoin depth (Response soup :: net) io
    = if String.eqb (page_title soup) sentinel
      then Some (CLI.CannotProceed a,
                 print io2 "Analysis cannot proceed. Exiting.")
      else match CLI.analyse TextBlob a with
           | Ok results => Some (CLI.Report a results, io2)
           | Raise e => Some (CLI.Uncaught e, io2)
           end.
Proof.
  intros Hin Hv a. rewrite (run_valid _ _ _ _ _ Hin Hv).
  unfold Article.init.
  destruct (fetch_content_response urlparse urljoin depth (Article.blank u)
              soup net (url_entered io rest)) as (io2 & _ & _ & _ & Eq).
  rewrite Eq. rewrite (extract_article _ _ _ _ _ io). fold a.
  exists io2.
  assert (Et : Py.truthy (Article.text a) = true).
  { unfold a. rewrite extract_text.
    destruct (Py.truthy (paragraph_text soup)) eqn:E; [exact E|reflexivity]. }
  rewrite Et. cbn [negb orb]. unfold a at 1. rewrite extract_title.
  reflexivity.
Qed.

(** [run] when the last offer to retry is declined, after any accepted
    offers that had room. *)
Lemma run_declined (depth : nat) (io : Console) (u : string)
    (fails yes : list string) (e no : string) (rest : list string)
    (net' : list Outcome) :
  stdin io = u :: yes ++ no :: rest ->
  CLI.is_valid_url urlparse u = true ->
  length fails = length yes -> (length yes <= depth)%nat ->
  Forall is_yes yes -> ~ is_yes no ->
  exists io',
    CLI.run TextBlob urlparse urljoin depth
      ((RequestException <$> fails) ++ RequestException e :: net') io
    = Some (CLI.CannotProceed (aborted (Article.blank u)), io') /\
    stdin io' = rest.
Proof.
  intros Hin Hv Hlen Hroom Hyes Hno.
  rewrite (run_valid _ _ _ _ _ Hin Hv). unfold Article.init.
  replace (S depth) with (length yes + S (depth - length yes))%nat by lia.
  destruct (fetch_content_retries urlparse urljoin (Article.blank u) fails yes
              (S (depth - length yes)) (RequestException e :: net') Hlen Hyes
              (url_entered io (yes ++ no :: rest)) (no :: rest) eq_refl)
    as (io1 & Hin1 & _ & _ & Eq1).
  rewrite Eq1.
  destruct (fetch_content_failure urlparse urljoin (depth - length yes)
              (Article.blank u) e net' io1 no rest Hin1)
    as (io2 & Hin2 & _ & _ & Eq2).
  rewrite Eq2.
  assert (En : String.eqb (Py.lower no) "y" = false).
  { apply not_true_iff_false. intros Hy%is_yes_eqb. by apply Hno. }
  rewrite En. cbn [aborted Article.text Article.set_title Article.set_text
                   Py.truthy negb orb].
  eexists. split; [reflexivity|exact Hin2].
Qed.

(** [run] when every offer is accepted and the room runs out. *)
Lemma run_exhausted (depth : nat) (io : Console) (u : string)
    (fails yes : list string) (rest : list string) (net' : list Outcome) :
  stdin io = u :: yes ++ rest ->
  CLI.is_valid_url urlparse u = true ->
  length fails = S depth -> length yes = S depth -> Forall is_yes yes ->
  exists io',
    CLI.run TextBlob urlparse urljoin depth
      ((RequestException <$> fails) ++ net') io
    = Some (CLI.Uncaught RecursionError, io') /\
    stdin io' = rest.
Proof.
  intros Hin Hv Hlf Hly Hyes.
  rewrite (run_valid _ _ _ _ _ Hin Hv). unfold Article.init.
  replace (S depth) with (length yes + 0)%nat by lia.
  destruct (fetch_content_retries urlparse urljoin (Article.blank u) fails yes
              0 net' (eq_trans Hlf (eq_sym Hly)) Hyes
              (url_entered io (yes ++ rest)) rest eq_refl)
    as (io1 & Hin1 & _ & _ & Eq1).
  rewrite Eq1, fetch_content_exhausted.
  eexists. split; [reflexivity|exact Hin1].
Qed.

(** C6. Constructing the analyzer on an article whose body is the empty
    string raises [ValueError], so none of the four analyses produces a
    result; when the construction succeeds, and whenever [run] reaches its
    report, the body is not empty. *)
Theorem analyzer_rejects_empty_body :
  (forall a : Article.t,
     Article.text a = "" ->
     Analyzer.init TextBlob a
     = Raise (ValueError "Analyzer requires a valid Article object with fetched text.") /\
     CLI.analyse TextBlob a
     = Raise (ValueError "Analyzer requires a valid Article object with fetched text.")) /\
  (forall (a : Article.t) (an : Analyzer.t F),
     Analyzer.init TextBlob a = Ok an ->
     Article.text a <> "" /\ Analyzer.text an = Article.text a /\
     Analyzer.article an = a) /\
  (forall (a : Article.t) (results : CLI.AnalysisResults),
     CLI.analyse TextBlob a = Ok results -> Article.text a <> "") /\
  (forall depth net io io' a results,
     CLI.run TextBlob urlparse urljoin depth net io
     = Some (CLI.Report a results, io') ->
     Article.text a <> "").
Proof.
  split; [|split; [|split]].
  - intros a E. split; [by apply init_empty|by apply analyse_empty].
  - intros a an [Hne ->]%init_Ok. by repeat split.
  - intros a results [Hne _]%analyse_Ok. exact Hne.
  - intros depth net io io' a results [Hne _]%run_Report. exact Hne.
Qed.

(** C7. When the newline-joined text of the paragraphs of the selected
    container is empty (there is no paragraph, or one paragraph without
    text), the extraction stores the placeholder "Content could not be
    extracted." as the body; in every other case the body is the joined
    text, so the body is never empty after a successful fetch. [run] then
    goes on to the four analyses, on the placeholder, unless the title of
    the page, once stripped, is "Failed to Fetch": then [run] stops before
    the analyses. *)
Theorem empty_extraction_placeholder :
  (forall soup : Soup,
     paragraph_text soup = "" <->
     find_all_p (Article.article_body soup) = [] \/
     exists p, find_all_p (Article.article_body soup) = [p] /\ get_text p = "") /\
  (forall (self : Article.t) (soup : Soup) (io : Console),
     let a := (Article.extract urlparse urljoin self soup io).1 in
     (paragraph_text soup = "" -> Article.text a = placeholder) /\
     (paragraph_text soup <> "" -> Article.text a = paragraph_text soup) /\
     Article.text a <> "") /\
  (forall depth net io u rest soup,
     stdin io = u :: rest -> CLI.is_valid_url urlparse u = true ->
     paragraph_text soup = "" ->
     (page_title soup <> sentinel ->
      exists a results io',
        CLI.run TextBlob urlparse urljoin depth (Response soup :: net) io
        = Some (CLI.Report a results, io') /\
        Article.text a = placeholder /\
        Analyzer.init TextBlob a = Ok (analyzer_for a) /\
        Analyzer.text (analyzer_for a) = placeholder /\
        analyses_of (analyzer_for a) results) /\
     (page_title soup = sentinel ->
      exists a io',
        CLI.run TextBlob urlparse urljoin depth (Response soup :: net) io
        = Some (CLI.CannotProceed a, io') /\
        Article.text a = placeholder /\ Article.title a = sentinel)).
Proof.
  split; [exact paragraph_text_empty|].
  split.
  - intros self soup io a. subst a. rewrite extract_text.
    destruct (Py.truthy (paragraph_text soup)) eqn:E.
    + apply truthy_true in E. by repeat split.
    + apply truthy_false in E. by repeat split.
  - intros depth net io u rest soup Hin Hv He.
    destruct (run_response depth net io u rest soup Hin Hv) as (io2 & Eq).
    set (a := (Article.extract urlparse urljoin (Article.blank u) soup io).1) in *.
    assert (Ht : Article.text a = placeholder).
    { unfold a. rewrite extract_text, He. reflexivity. }
    split.
    + intros Hne. apply String.eqb_neq in Hne. rewrite Hne in Eq.
      assert (Hnz : Article.text a <> "") by (rewrite Ht; discriminate).
      destruct (analyse_nonempty a Hnz) as (results & Er & Hr).
      rewrite Er in Eq. exists a, results, io2.
      split; [exact Eq|]. split; [exact Ht|]. split; [by apply init_nonempty|].
      split; [exact Ht|exact Hr].
    + intros Hs. rewrite Hs, String.eqb_refl in Eq.
      exists a, (print io2 "Analysis cannot proceed. Exiting.").
      split; [exact Eq|]. split; [exact Ht|].
      unfold a. by rewrite extract_title.
Qed.

(** C8. Every failed fetch writes the offer to retry and reads one answer,
    the caller's decision: "y", in either case of the letter, starts one
    more fetch, nested in the handler of the failed one, and any other
    answer leaves the title "Failed to Fetch" and the body empty. The retry
    is bounded: a fetch that returns has started one fetch plus one per
    accepted offer, and the nesting stops at the interpreter's recursion
    limit, so that a call with room for [frames] nested calls makes at most
    [frames] offers and starts at most [frames + 1] fetches; the call
    without room raises [RecursionError], and then [run] returns no article
    and analyses nothing. After a declined offer [run] stops with "Analysis
    cannot proceed" and no analysis has run; [run] reaches its report only
    with a non-empty body and a title other than the sentinel. *)
Theorem declined_retry_aborts :
  (forall frames self e net io answer rest,
     stdin io = answer :: rest ->
     exists io1,
       stdin io1 = rest /\ prompts io1 = S (prompts io) /\
       attempts (Article.url self) io1 = S (attempts (Article.url self) io) /\
       Article.fetch_content urlparse urljoin (S frames) self
         (RequestException e :: net) io
       = if String.eqb (Py.lower answer) "y"
         then Article.fetch_content urlparse urljoin frames self net io1
         else Some (Ok (aborted self), net, io1)) /\
  (forall frames self net io r net' io',
     Article.fetch_content urlparse urljoin frames self net io
     = Some (r, net', io') ->
     (prompts io' <= prompts io + frames)%nat /\
     (attempts (Article.url self) io'
      <= attempts (Article.url self) io + S frames)%nat) /\
  (forall frames self net io a net' io',
     Article.fetch_content urlparse urljoin frames self net io
     = Some (Ok a, net', io') ->
     exists (fails yes : list string),
       length fails = length yes /\ Forall is_yes yes /\
       (length yes < frames)%nat /\
       attempts (Article.url self) io'
         = (attempts (Article.url self) io + S (length yes))%nat /\
       ((exists soup,
           net = (RequestException <$> fails) ++ Response soup :: net' /\
           stdin io = yes ++ stdin io' /\
           prompts io' = (prompts io + length fails)%nat /\
           a = (Article.extract urlparse urljoin self soup io).1) \/
        (exists e no,
           net = (RequestException <$> fails) ++ RequestException e :: net' /\
           stdin io = yes ++ no :: stdin io' /\ ~ is_yes no /\
           prompts io' = (prompts io + S (length fails))%nat /\
           a = aborted self))) /\
  (forall frames self net io net' io',
     Article.fetch_content urlparse urljoin frames self net io
     = Some (Raise RecursionError, net', io') ->
     exists (fails yes : list string),
       length fails = frames /\ length yes = frames /\ Forall is_yes yes /\
       net = (RequestException <$> fails) ++ net' /\
       stdin io = yes ++ stdin io') /\
  (forall self,
     Article.title (aborted self) = "Failed to Fetch" /\
     Article.text (aborted self) = "") /\
  (forall depth io u (fails yes : list string) e no rest net',
     stdin io = u :: yes ++ no :: rest ->
     CLI.is_valid_url urlparse u = true ->
     length fails = length yes -> (length yes <= depth)%nat ->
     Forall is_yes yes -> ~ is_yes no ->
     exists io',
       CLI.run TextBlob urlparse urljoin depth
         ((RequestException <$> fails) ++ RequestException e :: net') io
       = Some (CLI.CannotProceed (aborted (Article.blank u)), io') /\
       stdin io' = rest) /\
  (forall depth io u (fails yes : list string) rest net',
     stdin io = u :: yes ++ rest ->
     CLI.is_valid_url urlparse u = true ->
     length fails = S depth -> length yes = S depth -> Forall is_yes yes ->
     exists io',
       CLI.run TextBlob urlparse urljoin depth
         ((RequestException <$> fails) ++ net') io
       = Some (CLI.Uncaught RecursionError, io') /\
       stdin io' = rest) /\
  (forall depth net io io' a results,
     CLI.run TextBlob urlparse urljoin depth net io
     = Some (CLI.Report a results, io') ->
     Article.text a <> "" /\ Article.title a <> "Failed to Fetch").
Proof.
  split; [|split; [|split; [|split; [|split; [|split; [|split]]]]]].
  - intros frames self e net io answer rest Hin.
    apply fetch_content_failure, Hin.
  - intros frames self net io r net' io' Hf.
    by apply (fetch_content_bounded urlparse urljoin self frames net io r net' io').
  - intros frames self net io a net' io' Hf.
    by apply (fetch_content_trace urlparse urljoin self frames net io a net' io').
  - intros frames self net io net' io' Hf.
    apply fetch_content_raises in Hf
      as (_ & fails & yes & Hlf & Hly & Hyes & Hnet & Hs & _).
    by exists fails, yes.
  - intros self. split; reflexivity.
  - intros depth io u fails yes e no rest net'. apply run_declined.
  - intros depth io u fails yes rest net'. apply run_exhausted.
  - intros depth net io io' a results (Hne & Ht & _)%run_Report. by split.
Qed.

End Pipeline.

(** The analyzer refuses the article as [__init__] leaves it before the
    fetch. *)
Lemma analyzer_rejects_empty_body_witness :
  Analyzer.init sample_TextBlob (Article.blank "https://example.org/a")
  = Raise (ValueError "Analyzer requires a valid Article object with fetched text.").
Proof.
  apply (proj1 (analyzer_rejects_empty_body sample_TextBlob sample_urlparse
                  sample_urljoin)).
  reflexivity.
Defined.

(** The page without paragraphs and without title goes through to the
    report, on the placeholder. *)
Lemma empty_extraction_placeholder_witness :
  exists a results io',
    CLI.run sample_TextBlob sample_urlparse sample_urljoin sample_depth
      [Response empty_page] (keyboard ["https://example.org/a"])
    = Some (CLI.Report a results, io') /\
    Article.text a = placeholder /\
    Analyzer.init sample_TextBlob a = Ok (analyzer_for sample_TextBlob a) /\
    Analyzer.text (analyzer_for sample_TextBlob a) = placeholder /\
    analyses_of (analyzer_for sample_TextBlob a) results.
Proof.
  pose proof (empty_extraction_placeholder sample_TextBlob sample_urlparse
                sample_urljoin) as (_ & _ & Hrun).
  apply (Hrun sample_depth [] (keyboard ["https://example.org/a"])
           "https://example.org/a" [] empty_page).
  - reflexivity.
  - reflexivity.
  - reflexivity.
  - discriminate.
Defined.

(** A refused fetch retried once, refused again, and the offer declined. *)
Lemma declined_retry_aborts_witness :
  exists io',
    CLI.run sample_TextBlob sample_urlparse sample_urljoin sample_depth
      ((RequestException <$> ["timeout"]) ++ RequestException "503" :: [])
      (keyboard ("https://example.org/a" :: ["Y"] ++ "n" :: []))
    = Some (CLI.CannotProceed (aborted (Article.blank "https://example.org/a")),
            io') /\
    stdin io' = [].
Proof.
  pose proof (declined_retry_aborts sample_TextBlob sample_urlparse
                sample_urljoin) as (_ & _ & _ & _ & _ & Hrun & _).
  apply (Hrun sample_depth (keyboard ("https://example.org/a" :: ["Y"] ++ "n" :: []))
           "https://example.org/a" ["timeout"] ["Y"] "503" "n" [] []).
  - reflexivity.
  - reflexivity.
  - reflexivity.
  - unfold sample_depth. simpl. lia.
  - constructor; [reflexivity|constructor].
  - discriminate.
Defined.

(** The page titled "Failed to Fetch": it is fetched, its body becomes the
    placeholder, and [run] stops before the analyses. *)
Lemma sentinel_titled_page_stops :
  paragraph_text sentinel_titled_page = "" /\
  exists io',
    CLI.run sample_TextBlob sample_urlparse sample_urljoin sample_depth
      [Response sentinel_titled_page] (keyboard ["https://example.org/a"])
    = Some (CLI.CannotProceed
              {| Article.url := "https://example.org/a";
                 Article.text := "Content could not be extracted.";
                 Article.title := "Failed to Fetch";
                 Article.authors := [];
                 Article.external_links_count := 0 |}, io').
Proof. split; [reflexivity|]. eexists. vm_compute. reflexivity. Qed.

(** The page without paragraphs and without title: its body becomes the
    placeholder and the four analyses run on it. *)
Lemma empty_page_is_analysed :
  exists a results io',
    CLI.run sample_TextBlob sample_urlparse sample_urljoin sample_depth
      [Response empty_page] (keyboard ["https://example.org/a"])
    = Some (CLI.Report a results, io') /\
    Article.text a = placeholder /\ Article.title a = "No title found" /\
    CLI.topic results = "Uncategorized" /\
    Bias.score_of (CLI.bias results) = 0.
Proof. do 3 eexists. vm_compute. repeat split. Qed.

(** Two paragraphs without text: the joined text is a newline, which is
    kept as the body. *)
Lemma two_empty_paragraphs_kept :
  let soup := {| title_string := None; find_article := None;
                 find_main := None;
                 document := {| find_all_p := [
                   {| get_text := ""; hrefs := [] |};
                   {| get_text := ""; hrefs := [] |} ] |} |} in
  Article.text (Article.extract sample_urlparse sample_urljoin
                  (Article.blank "https://example.org/a") soup (keyboard [])).1
  = newline.
Proof. reflexivity. Qed.

(** Three refused fetches, each retried, then a page: four fetches, three
    offers, and the report. *)
Lemma three_retries_then_report :
  exists a results io',
    CLI.run sample_TextBlob sample_urlparse sample_urljoin sample_depth
      [RequestException "timeout"; RequestException "503";
       RequestException "reset"; Response news_page]
      (keyboard ["https://example.org/a"; "y"; "Y"; "y"])
    = Some (CLI.Report a results, io') /\
    attempts "https://example.org/a" io' = 4%nat /\ prompts io' = 3%nat /\
    Article.title a = "Election night" /\
    Article.external_links_count a = 2 /\
    CLI.topic results = "Politics".
Proof. do 3 eexists. vm_compute. repeat split. Qed.

(** The same three retries with room for two only: the third retry prints
    its first line and fails, the page is never asked for, and nothing is
    analysed. *)
Lemma three_retries_without_room :
  exists io',
    CLI.run sample_TextBlob sample_urlparse sample_urljoin 2
      [RequestException "timeout"; RequestException "503";
       RequestException "reset"; Response news_page]
      (keyboard ["https://example.org/a"; "y"; "Y"; "y"])
    = Some (CLI.Uncaught RecursionError, io') /\
    attempts "https://example.org/a" io' = 4%nat /\ prompts io' = 3%nat.
Proof. eexists. vm_compute. repeat split. Qed.

(** A refused fetch and a declined offer: [run] stops, nothing analysed. *)
Lemma declined_then_stop :
  exists io',
    CLI.run sample_TextBlob sample_urlparse sample_urljoin sample_depth
      [RequestException "timeout"; Response news_page]
      (keyboard ["https://example.org/a"; "no"])
    = Some (CLI.CannotProceed (aborted (Article.blank "https://example.org/a")), io') /\
    prompts io' = 1%nat.
Proof. eexists. vm_compute. split; reflexivity. Qed.

End Pipeline.

(** * Further properties of the program *)

(** ** is_valid_url and the early return of CLI.run *)

Module Validation.

Import Fetch Pipeline.

Section Validation.

Context {F : Type} `{PyFloat F}.
Variable TextBlob : string -> Blob F.
Variable urlparse : string -> ParseResult.
Variable urljoin : string -> string -> string.

(** X1. A URL that [is_valid_url] rejects ends [run] at once: one line has
    been read, no fetch has been started, and the network is not looked
    at (the result is the same whatever it would have answered, and
    whatever room the recursion limit leaves). *)
Theorem invalid_url_never_fetches
    (depth : nat) (net : list Outcome) (io : Console) (u : string)
    (rest : list string) :
  stdin io = u :: rest ->
  CLI.is_valid_url urlparse u = false ->
  exists io',
    CLI.run TextBlob urlparse urljoin depth net io
    = Some (CLI.InvalidURL, io') /\
    stdin io' = rest /\
    (forall url, attempts url io' = attempts url io) /\
    (forall depth' net', CLI.run TextBlob urlparse urljoin depth' net' io
                         = Some (CLI.InvalidURL, io')).
Proof.
  intros Hin Hv.
  assert (Hrun : forall d n, CLI.run TextBlob urlparse urljoin d n io
            = Some (CLI.InvalidURL,
                    print {| stdin := rest;
                             stdout := stdout (print io "Welcome to the Media Analysis CLI!")
                               ++ ["Please enter the URL of a news article to analyze: "] |}
                      "Error: Please enter a valid URL (e.g., https://...)")).
  { intros d n. unfold CLI.run, input. cbn [stdin print]. rewrite Hin.
    cbn [mbind option_bind]. rewrite Hv. reflexivity. }
  eexists. split; [apply Hrun|]. split; [reflexivity|]. split; [|apply Hrun].
  intros url. unfold attempts.
  rewrite count_print_ne by (apply (differ_at 0); vm_compute; discriminate).
  cbn [stdout]. rewrite count_occ_app. cbn [count_occ].
  destruct (string_dec _ (fetch_line url)) as [E|_].
  { exfalso. revert E. apply (differ_at 0). vm_compute. discriminate. }
  rewrite count_print_ne by (apply (differ_at 0); vm_compute; discriminate).
  lia.
Qed.

(** X5. [run] never ends with the [ValueError] of [Analyzer.__init__]:
    whenever it builds the analyzer, the body is not empty. It stops with
    "Analysis cannot proceed" only on an empty body or the sentinel title,
    and reaches the report only with neither. *)
Theorem run_never_raises (depth : nat) (net : list Outcome) (io : Console) :
  match CLI.run TextBlob urlparse urljoin depth net io with
  | Some (CLI.Uncaught e, _) => forall msg, e <> ValueError msg
  | Some (CLI.CannotProceed a, _) =>
      Article.text a = "" \/ Article.title a = "Failed to Fetch"
  | Some (CLI.Report a _, _) =>
      Article.text a <> "" /\ Article.title a <> "Failed to Fetch"
  | _ => True
  end.
Proof.
  destruct (CLI.run TextBlob urlparse urljoin depth net io)
    as [[exit io1]|] eqn:Er; [|exact I].
  destruct exit as [|a|a r|e];
    [exact I| | |apply run_Uncaught in Er; by subst e].
  - destruct (stdin io) as [|u rest] eqn:Hin.
    { unfold CLI.run, input in Er. cbn [stdin print] in Er.
      rewrite Hin in Er. discriminate. }
    destruct (CLI.is_valid_url urlparse u) eqn:Hv.
    + rewrite (run_valid _ _ _ depth net io u rest Hin Hv) in Er.
      destruct (Article.init _ _ _ _ _ _) as [[[[a0|e0] net'] io2]|];
        [|discriminate|discriminate].
      destruct (Py.truthy (Article.text a0)) eqn:Et.
      * destruct (String.eqb_spec (Article.title a0) sentinel) as [Es|Hne];
          cbn [negb orb] in Er.
        -- injection Er as <- _. by right.
        -- destruct (CLI.analyse TextBlob a0); discriminate.
      * cbn [negb orb] in Er. injection Er as <- _. left.
        by apply truthy_false.
    + destruct (run_invalid TextBlob urlparse urljoin depth net io u rest Hin Hv)
        as (io' & E'). rewrite E' in Er. discriminate.
  - apply run_Report in Er as (Ht & Hs & _). by split.
Qed.

End Validation.

Lemma invalid_url_never_fetches_witness :
  exists io',
    CLI.run sample_TextBlob sample_urlparse sample_urljoin sample_depth
      [Response news_page] (keyboard ["ftp://example.org/a"; "y"])
    = Some (CLI.InvalidURL, io') /\
    stdin io' = ["y"] /\
    (forall url, attempts url io'
                 = attempts url (keyboard ["ftp://example.org/a"; "y"])) /\
    (forall depth' net',
       CLI.run sample_TextBlob sample_urlparse sample_urljoin depth' net'
         (keyboard ["ftp://example.org/a"; "y"])
       = Some (CLI.InvalidURL, io')).
Proof.
  apply (invalid_url_never_fetches sample_TextBlob sample_urlparse
           sample_urljoin sample_depth [Response news_page]
           (keyboard ["ftp://example.org/a"; "y"]) "ftp://example.org/a" ["y"]).
  - reflexivity.
  - reflexivity.
Defined.

End Validation.

(** ** The retry loop and what a fetch leaves in the article *)

Module Retry.

Import Fetch.

Lemma tolower_y (c : ascii) :
  Py.tolower c = "y"%char -> c = "y"%char \/ c = "Y"%char.
Proof.
  destruct c as [[] [] [] [] [] [] [] []]; vm_compute; intros E;
    try discriminate E; auto.
Qed.

Lemma lower_empty (s : string) : Py.lower s = "" -> s = "".
Proof. by destruct s. Qed.

(** The answers that accept the offer. *)
Lemma is_yes_iff (answer : string) :
  is_yes answer <-> answer = "y" \/ answer = "Y".
Proof.
  unfold is_yes. split.
  - destruct answer as [|c rest]; [discriminate|]. simpl.
    intros [= Hc Hrest]. apply lower_empty in Hrest. subst rest.
    destruct (tolower_y c Hc) as [->| ->]; auto.
  - intros [->| ->]; reflexivity.
Qed.

Section Retry.

Variable urlparse : string -> ParseResult.
Variable urljoin : string -> string -> string.

(** X2. After a failed fetch the only answers that start another fetch are
    "y" and "Y"; every other line, "yes" or " y" or the empty line
    included, ends with the sentinel state. *)
Theorem retry_answers (frames : nat) (self : Article.t) (e : string)
    (net : list Outcome) (io : Console) (answer : string) (rest : list string) :
  stdin io = answer :: rest ->
  exists io1,
    stdin io1 = rest /\
    (answer = "y" \/ answer = "Y" ->
     Article.fetch_content urlparse urljoin (S frames) self
       (RequestException e :: net) io
     = Article.fetch_content urlparse urljoin frames self net io1) /\
    (answer <> "y" -> answer <> "Y" ->
     Article.fetch_content urlparse urljoin (S frames) self
       (RequestException e :: net) io
     = Some (Ok (aborted self), net, io1)).
Proof.
  intros Hin.
  destruct (fetch_content_failure urlparse urljoin frames self e net io
              answer rest Hin)
    as (io1 & Hin1 & _ & _ & Eq).
  exists io1. split; [exact Hin1|]. split.
  - intros Hy%is_yes_iff. apply is_yes_eqb in Hy. by rewrite Hy in Eq.
  - intros Hn1 Hn2.
    assert (En : String.eqb (Py.lower answer) "y" = false).
    { apply not_true_iff_false. intros Hy%is_yes_eqb%is_yes_iff. tauto. }
    by rewrite En in Eq.
Qed.


(** X4. What [Article(url)] can return: the URL is the one given and no
    author is ever set; the body is empty exactly when the retry was
    declined, and then the title is the sentinel and no link is counted;
    at least one outcome of the network has been consumed. *)
Theorem article_after_fetch (depth : nat) (u : string) (net : list Outcome)
    (io : Console) (a : Article.t) (net' : list Outcome) (io' : Console) :
  Article.init urlparse urljoin depth u net io = Some (Ok a, net', io') ->
  Article.url a = u /\ Article.authors a = [] /\
  0 <= Article.external_links_count a /\
  (Article.text a = "" <-> a = aborted (Article.blank u)) /\
  (Article.text a = "" ->
   Article.title a = "Failed to Fetch" /\ Article.external_links_count a = 0) /\
  (length net' < length net)%nat.
Proof.
  unfold Article.init. intros Hf.
  apply fetch_content_trace in Hf as (fails & yes & Hlen & _ & _ & _ & Hcase).
  destruct Hcase as [(soup & -> & _ & _ & ->)|(e & no & -> & _ & _ & _ & ->)].
  - set (a := (Article.extract urlparse urljoin (Article.blank u) soup io).1).
    assert (Hne : Article.text a <> "").
    { unfold a. rewrite extract_text.
      destruct (Py.truthy (paragraph_text soup)) eqn:E; [|discriminate].
      by apply truthy_true. }
    split; [apply Links.extract_url|]. split.
    { unfold a, Article.extract.
      destruct (title_string soup) as [s|]; [destruct (Py.truthy s)|];
        cbn [Article.url Article.set_title Article.set_text Article.text
             Article.set_external_links_count];
        destruct (Py.truthy _); reflexivity. }
    split; [unfold a; rewrite Links.extract_links_count;
            unfold Links.link_count; lia|].
    split; [|split].
    + split; [done|]. intros E. rewrite E in Hne. by destruct Hne.
    + done.
    + rewrite length_app, length_fmap. simpl. lia.
  - split; [reflexivity|]. split; [reflexivity|]. split; [simpl; lia|].
    split; [done|]. split; [done|].
    rewrite length_app, length_fmap. simpl. lia.
Qed.

End Retry.

Lemma retry_answers_witness :
  exists io1,
    stdin io1 = [] /\
    ("yes" = "y" \/ "yes" = "Y" ->
     Article.fetch_content sample_urlparse sample_urljoin (S sample_depth)
       (Article.blank "https://example.org/a")
       (RequestException "timeout" :: [Response news_page]) (keyboard ["yes"])
     = Article.fetch_content sample_urlparse sample_urljoin sample_depth
         (Article.blank "https://example.org/a") [Response news_page] io1) /\
    ("yes" <> "y" -> "yes" <> "Y" ->
     Article.fetch_content sample_urlparse sample_urljoin (S sample_depth)
       (Article.blank "https://example.org/a")
       (RequestException "timeout" :: [Response news_page]) (keyboard ["yes"])
     = Some (Ok (aborted (Article.blank "https://example.org/a")),
             [Response news_page], io1)).
Proof.
  apply (retry_answers sample_urlparse sample_urljoin sample_depth
           (Article.blank "https://example.org/a") "timeout"
           [Response news_page] (keyboard ["yes"]) "yes" []).
  reflexivity.
Defined.


Lemma article_after_fetch_witness :
  Article.url (aborted (Article.blank "https://example.org/a"))
  = "https://example.org/a" /\
  Article.authors (aborted (Article.blank "https://example.org/a")) = [] /\
  0 <= Article.external_links_count (aborted (Article.blank "https://example.org/a")) /\
  (Article.text (aborted (Article.blank "https://example.org/a")) = "" <->
   aborted (Article.blank "https://example.org/a")
   = aborted (Article.blank "https://example.org/a")) /\
  (Article.text (aborted (Article.blank "https://example.org/a")) = "" ->
   Article.title (aborted (Article.blank "https://example.org/a"))
   = "Failed to Fetch" /\
   Article.external_links_count (aborted (Article.blank "https://example.org/a"))
   = 0) /\
  (length [Response news_page] < length [RequestException "timeout"; Response news_page])%nat.
Proof.
  apply (article_after_fetch sample_urlparse sample_urljoin sample_depth
           "https://example.org/a"
           [RequestException "timeout"; Response news_page] (keyboard ["n"])
           (aborted (Article.blank "https://example.org/a"))
           [Response news_page]
           (print (print (print (print (keyboard [])
              (fetch_line "https://example.org/a"))
              "Error: Could not fetch the article. Please check the URL and your connection.")
              "Details: timeout") retry_prompt)).
  vm_compute. reflexivity.
Defined.

End Retry.

(** ** The link count: bounds and order *)

Module LinkBounds.

Import Links.

Section LinkBounds.

Variable urlparse : string -> ParseResult.
Variable urljoin : string -> string -> string.

Lemma cited_anchor (article_url : string) (paragraphs : list Paragraph)
    (u : string) :
  cited urlparse urljoin article_url paragraphs u <->
  exists href, href ∈ anchors paragraphs /\ u = urljoin article_url href /\
               external urlparse article_url u.
Proof.
  unfold cited, anchors. split.
  - intros (p & href & Hp & Hin & E & Hx). exists href. split; [|done].
    apply list_elem_of_In, in_concat. exists (hrefs p).
    split; [apply in_map; by apply list_elem_of_In|by apply list_elem_of_In].
  - intros (href & Hin & E & Hx).
    apply list_elem_of_In, in_concat in Hin as (hs & Hhs & Hin).
    apply in_map_iff in Hhs as (p & <- & Hp).
    exists p, href. split; [by apply list_elem_of_In|].
    split; [by apply list_elem_of_In|done].
Qed.

(** X6. The link count lies between 0 and the number of anchors with an
    [href] in the collected paragraphs, and it depends on which anchors
    there are, not on their order or on the paragraph they stand in. *)
Theorem link_count_bounds_and_order (article_url : string)
    (paragraphs paragraphs' : list Paragraph) :
  anchors paragraphs ≡ₚ anchors paragraphs' ->
  0 <= link_count urlparse urljoin article_url paragraphs
    <= Z.of_nat (length (anchors paragraphs)) /\
  link_count urlparse urljoin article_url paragraphs
  = link_count urlparse urljoin article_url paragraphs'.
Proof.
  intros Hperm. split; [split; [unfold link_count; lia|]|].
  - unfold link_count. apply inj_le.
    rewrite <- (length_fmap (urljoin article_url) (anchors paragraphs)).
    apply submseteq_length, NoDup_submseteq; [apply NoDup_elements|].
    intros u Hu. apply elem_of_elements, collect_links_elem_of in Hu.
    apply cited_anchor in Hu as (href & Hin & -> & _).
    by apply list_elem_of_fmap_2.
  - unfold link_count. do 2 f_equal. apply set_eq. intros u.
    rewrite !collect_links_elem_of, !cited_anchor.
    split; intros (href & Hin & E & Hx); exists href;
      (split; [|done]); [by rewrite <- Hperm|by rewrite Hperm].
Qed.

End LinkBounds.

Lemma link_count_bounds_and_order_witness :
  0 <= link_count sample_urlparse sample_urljoin "https://example.org/a"
         [{| get_text := "a"; hrefs := ["https://gov.example/law"; "/about"] |};
          {| get_text := "b"; hrefs := ["https://gov.example/vote"] |}]
    <= Z.of_nat (length (anchors
         [{| get_text := "a"; hrefs := ["https://gov.example/law"; "/about"] |};
          {| get_text := "b"; hrefs := ["https://gov.example/vote"] |}])) /\
  link_count sample_urlparse sample_urljoin "https://example.org/a"
    [{| get_text := "a"; hrefs := ["https://gov.example/law"; "/about"] |};
     {| get_text := "b"; hrefs := ["https://gov.example/vote"] |}]
  = link_count sample_urlparse sample_urljoin "https://example.org/a"
      [{| get_text := "c";
          hrefs := ["https://gov.example/vote"; "https://gov.example/law";
                    "/about"] |}].
Proof.
  apply link_count_bounds_and_order. simpl.
  change (["https://gov.example/law"; "/about"; "https://gov.example/vote"]
          ≡ₚ ["https://gov.example/vote"] ++ ["https://gov.example/law"; "/about"]).
  apply (Permutation_app_comm ["https://gov.example/law"; "/about"]
           ["https://gov.example/vote"]).
Defined.

End LinkBounds.

(** ** The title *)

Module Titles.

Import Fetch.

(** The string does not begin, and does not end, with whitespace. *)
Definition trimmed (s : string) : Prop :=
  (forall c, Py.head s = Some c -> Py.isspace c = false) /\
  (forall c, Match.last_or None s = Some c -> Py.isspace c = false).

(** Every character of the string is whitespace. *)
Fixpoint blank_string (s : string) : bool :=
  match s with
  | EmptyString => true
  | String c s' => Py.isspace c && blank_string s'
  end.

Lemma lstrip_head (s : string) (c : ascii) :
  Py.head (Py.lstrip s) = Some c -> Py.isspace c = false.
Proof.
  induction s as [|x s IH]; simpl; [discriminate|].
  destruct (Py.isspace x) eqn:E; [exact IH|]. simpl. by intros [= <-].
Qed.

Lemma lstrip_empty (s : string) :
  Py.lstrip s = "" <-> blank_string s = true.
Proof.
  induction s as [|x s IH]; simpl; [done|].
  destruct (Py.isspace x); simpl; [exact IH|]. split; discriminate.
Qed.

Lemma rstrip_empty (s : string) :
  Py.rstrip s = "" <-> blank_string s = true.
Proof.
  induction s as [|x s IH]; simpl; [done|].
  destruct (Py.rstrip s) eqn:Er.
  - destruct (Py.isspace x); simpl.
    + rewrite <- IH. done.
    + split; discriminate.
  - split; [discriminate|]. intros [_ Hs]%andb_true_iff.
    apply IH in Hs. discriminate.
Qed.

Lemma rstrip_head (s : string) (c : ascii) :
  Py.head (Py.rstrip s) = Some c -> Py.head s = Some c.
Proof.
  destruct s as [|x s]; simpl; [discriminate|].
  destruct (Py.rstrip s); [destruct (Py.isspace x)|]; simpl; try done.
Qed.

Lemma rstrip_last (s : string) (d : option ascii) (c : ascii) :
  Py.rstrip s <> "" ->
  Match.last_or d (Py.rstrip s) = Some c -> Py.isspace c = false.
Proof.
  revert d; induction s as [|x s IH]; intros d; simpl; [done|].
  destruct (Py.rstrip s) as [|y r] eqn:Er.
  - destruct (Py.isspace x) eqn:Ex; [done|]. simpl. by intros _ [= <-].
  - intros _. simpl. apply (IH (Some x)). discriminate.
Qed.

Lemma strip_trimmed (s : string) : trimmed (Py.strip s).
Proof.
  unfold Py.strip. split.
  - intros c Hc. apply rstrip_head in Hc. by apply lstrip_head in Hc.
  - intros c Hc. destruct (Py.rstrip (Py.lstrip s)) eqn:E; [discriminate|].
    rewrite <- E in Hc.
    apply (rstrip_last (Py.lstrip s) None c); [by rewrite E|exact Hc].
Qed.

Lemma strip_empty (s : string) : Py.strip s = "" <-> blank_string s = true.
Proof.
  unfold Py.strip. rewrite rstrip_empty. split.
  - intros Hb. induction s as [|x s IH]; simpl in *; [done|].
    destruct (Py.isspace x) eqn:Ex; simpl in *; [by apply IH|].
    by rewrite Ex in Hb.
  - intros Hb. apply lstrip_empty in Hb. by rewrite Hb.
Qed.

Section Titles.

Variable urlparse : string -> ParseResult.
Variable urljoin : string -> string -> string.

(** X7. The title a fetched page gets never begins or ends with
    whitespace. It is "No title found" exactly for a page without title
    text; a title of whitespace only gives the empty title, not "No title
    found". *)
Theorem title_is_trimmed (self : Article.t) (soup : Soup) (io : Console) :
  let t := Article.title (Article.extract urlparse urljoin self soup io).1 in
  trimmed t /\
  (title_string soup = None \/ title_string soup = Some "" ->
   t = "No title found") /\
  (forall s, title_string soup = Some s -> s <> "" -> t = Py.strip s) /\
  (t = "" <->
   exists s, title_string soup = Some s /\ s <> "" /\ blank_string s = true).
Proof.
  intros t. subst t. rewrite extract_title. unfold page_title.
  destruct (title_string soup) as [s|] eqn:Es.
  - destruct (Py.truthy s) eqn:Et.
    + apply truthy_true in Et. split; [apply strip_trimmed|]. split; [|split].
      * intros [?|[= ->]]; done.
      * by intros s' [= <-] _.
      * rewrite strip_empty. split.
        -- intros Hb. by exists s.
        -- by intros (s' & [= <-] & _ & Hb).
    + apply truthy_false in Et. subst s. split; [|split; [|split]].
      * split; intros c; vm_compute; by intros [= <-].
      * done.
      * by intros s' [= <-] Hne.
      * split; [discriminate|]. by intros (s' & [= <-] & Hne & _).
  - split; [|split; [|split]].
    + split; intros c; vm_compute; by intros [= <-].
    + done.
    + discriminate.
    + split; [discriminate|]. by intros (s' & ? & _).
Qed.

End Titles.

End Titles.

(** ** categorize_topic: when nothing is found *)

Module TopicFacts.

Import Topic.

Lemma count_from_zero (sub s : string) :
  sub <> "" -> Py.count_from sub 0 s = 0 <-> occurrences s sub = 0.
Proof.
  intros Hne. split.
  - induction s as [|c s IH]; cbn -[String.prefix].
    + intros _. destruct sub; [done|reflexivity].
    + destruct (String.prefix sub (String c s)).
      * pose proof (count_from_le_occurrences sub s (Nat.pred (String.length sub))).
        lia.
      * intros E. rewrite (IH E). reflexivity.
  - pose proof (count_from_le_occurrences sub s 0). lia.
Qed.

Lemma count_zero (s sub : string) :
  sub <> "" -> Py.count s sub = 0 <-> occurrences s sub = 0.
Proof.
  intros Hne. rewrite <- (count_from_zero sub s Hne).
  destruct sub; [done|reflexivity].
Qed.

Lemma keyword_total_nonneg (body : string) (keywords : list string) :
  Forall (fun k => k <> "") keywords ->
  0 <= keyword_total Py.count body keywords.
Proof.
  unfold keyword_total. induction 1 as [|k ks Hk _ IH]; simpl; [lia|].
  pose proof (count_le_occurrences (Py.lower body) k Hk). lia.
Qed.

Lemma keyword_total_zero (body : string) (keywords : list string) :
  Forall (fun k => k <> "") keywords ->
  keyword_total Py.count body keywords = 0 <->
  forall k, k ∈ keywords -> occurrences (Py.lower body) k = 0.
Proof.
  induction 1 as [|k ks Hk Hks IH].
  - split; [|done]. intros _ k Hin. by apply elem_of_nil in Hin.
  - change (keyword_total Py.count body (k :: ks))
      with (Py.count (Py.lower body) k + keyword_total Py.count body ks).
    pose proof (count_le_occurrences (Py.lower body) k Hk).
    pose proof (keyword_total_nonneg body ks Hks).
    split.
    + intros E k' [->|Hin]%elem_of_cons.
      * apply (count_zero _ _ Hk). lia.
      * apply IH; [lia|exact Hin].
    + intros Hall.
      assert (E1 : Py.count (Py.lower body) k = 0).
      { apply (count_zero _ _ Hk), Hall. left. }
      assert (E2 : keyword_total Py.count body ks = 0).
      { apply IH. intros k' Hin. apply Hall. by right. }
      lia.
Qed.

Lemma topics_keywords_nonempty :
  Forall (fun kws => Forall (fun k : string => k <> "") kws) (Dict.values topics).
Proof.
  repeat (constructor; [repeat (constructor; [discriminate|]); constructor|]).
  constructor.
Qed.

(** Every category scores zero exactly when no keyword occurs. *)
Lemma scores_zero_iff (body : string) :
  Forall (fun p => p.2 = 0) (category_scores Py.count body) <->
  forall k, k ∈ concat (Dict.values topics) ->
            occurrences (Py.lower body) k = 0.
Proof.
  unfold category_scores, Dict.values.
  pose proof topics_keywords_nonempty as Hne. unfold Dict.values in Hne.
  induction topics as [|[t kws] rest IH]; simpl.
  - split; [|constructor]. intros _ k Hin. by apply elem_of_nil in Hin.
  - simpl in Hne. apply Forall_cons in Hne as [Hk Hrest].
    rewrite Forall_cons. cbn [snd]. rewrite (keyword_total_zero body kws Hk).
    rewrite (IH Hrest). split.
    + intros [H1 H2] k [Hin|Hin]%elem_of_app; auto.
    + intros Hall. split; intros k Hin; apply Hall, elem_of_app; auto.
Qed.

Section TopicFacts.

Context {F : Type} `{PyFloat F}.

(** X8. The classifier answers "Uncategorized" exactly when none of the
    keywords of the taxonomy occurs anywhere in the lowercased body, inside
    a longer word or not; every other answer is one of the seven category
    names. *)
Theorem uncategorized_iff_no_keyword (self : Analyzer.t F) :
  (Analyzer.categorize_topic self = Ok "Uncategorized" <->
   forall k, k ∈ concat (Dict.values topics) ->
             occurrences (Py.lower (Analyzer.text self)) k = 0) /\
  (exists r, Analyzer.categorize_topic self = Ok r /\
             r ∈ "Uncategorized" :: Dict.keys topics).
Proof.
  destruct (categorize_topic_classifies self) as (r & Er & Hr).
  unfold classifies in Hr. rewrite Er.
  destruct Hr as [[Hz ->]|[Hnz (before & s & after & E & _)]].
  - split.
    + split; [intros _; by apply scores_zero_iff|reflexivity].
    + exists "Uncategorized". split; [reflexivity|left].
  - assert (Hkey : r ∈ Dict.keys topics).
    { rewrite <- (category_scores_keys Py.count (Analyzer.text self)), E.
      unfold Dict.keys. rewrite fmap_app, fmap_cons. simpl.
      apply elem_of_app. right. left. }
    split.
    + split.
      * intros [= ->]. exfalso. revert Hkey. vm_compute.
        intros Hin. repeat (apply elem_of_cons in Hin as [Hin|Hin]; [discriminate|]).
        by apply elem_of_nil in Hin.
      * intros Hall%scores_zero_iff. by destruct Hnz.
    + exists r. split; [reflexivity|by right].
Qed.

End TopicFacts.

End TopicFacts.

(** ** Letter case *)

Module CaseFolding.











Section CaseFolding.

Context {F : Type} `{PyFloat F}.


End CaseFolding.


End CaseFolding.

(** ** The credibility score: what it depends on *)

Module CredibilityFacts.

Section CredibilityFacts.

Context {F : Type} `{PyFloat F}.


End CredibilityFacts.


End CredibilityFacts.

(** ** The sentiment label: symmetry *)

Module SentimentFacts.

Import Sentiment Binary64.

(** X12. In binary64 the labels are symmetric: a text whose polarity is the
    opposite of another's is "Negative" where the other is "Positive",
    "Positive" where it is "Negative", and "Neutral" where it is "Neutral"
    (a NaN, whose opposite is a NaN, included). *)
Theorem opposite_polarity (a b : Analyzer.t float) :
  polarity (Analyzer.blob b) = (- polarity (Analyzer.blob a))%float ->
  (label_of (Analyzer.analyze_sentiment a) = "Positive" <->
   label_of (Analyzer.analyze_sentiment b) = "Negative") /\
  (label_of (Analyzer.analyze_sentiment a) = "Negative" <->
   label_of (Analyzer.analyze_sentiment b) = "Positive") /\
  (label_of (Analyzer.analyze_sentiment a) = "Neutral" <->
   label_of (Analyzer.analyze_sentiment b) = "Neutral").
Proof.
  intros E.
  destruct (label_cases (H := float_PyFloat) float_above_not_below a)
    as (Pa & Na & Ua).
  destruct (label_cases (H := float_PyFloat) float_above_not_below b)
    as (Pb & Nb & Ub).
  cbv zeta in *. cbn [flt fneg lit_0_1 float_PyFloat] in *.
  rewrite Pa, Na, Ua, Pb, Nb, Ub, E.
  set (p := polarity (Analyzer.blob a)).
  set (tenth := 0x1.999999999999ap-4%float).
  assert (E1 : PrimFloat.ltb (- p) (- tenth) = PrimFloat.ltb tenth p)
    by apply ltb_opp.
  assert (E2 : PrimFloat.ltb tenth (- p) = PrimFloat.ltb p (- tenth)).
  { rewrite <- (ltb_opp (- tenth) p). by rewrite opp_involutive. }
  rewrite E1, E2. tauto.
Qed.

Lemma opposite_polarity_witness :
  (label_of (Analyzer.analyze_sentiment
               (analyzer_with "." 0 {| polarity := 0.5%float;
                                       subjectivity := 0%float;
                                       sentences := [] |}))
   = "Positive" <->
   label_of (Analyzer.analyze_sentiment
               (analyzer_with "." 0 {| polarity := (-0.5)%float;
                                       subjectivity := 0%float;
                                       sentences := [] |}))
   = "Negative") /\
  (label_of (Analyzer.analyze_sentiment
               (analyzer_with "." 0 {| polarity := 0.5%float;
                                       subjectivity := 0%float;
                                       sentences := [] |}))
   = "Negative" <->
   label_of (Analyzer.analyze_sentiment
               (analyzer_with "." 0 {| polarity := (-0.5)%float;
                                       subjectivity := 0%float;
                                       sentences := [] |}))
   = "Positive") /\
  (label_of (Analyzer.analyze_sentiment
               (analyzer_with "." 0 {| polarity := 0.5%float;
                                       subjectivity := 0%float;
                                       sentences := [] |}))
   = "Neutral" <->
   label_of (Analyzer.analyze_sentiment
               (analyzer_with "." 0 {| polarity := (-0.5)%float;
                                       subjectivity := 0%float;
                                       sentences := [] |}))
   = "Neutral").
Proof. apply opposite_polarity. reflexivity. Defined.

End SentimentFacts.

Module ReportFacts.

Import ReportGenerator.

(** The sample of any list of distinct words. *)
Lemma sample_of_words (words : list string) (P : string -> Prop) :
  NoDup words -> (forall w, w ∈ words -> P w) ->
  (sample_line words = None <-> Z.of_nat (length words) = 0) /\
  (forall line, sample_line words = Some line ->
     line = "      - Sample Words Found: "
            +:+ Py.join ", " (display_words words) +:+ ellipsis words) /\
  Z.of_nat (length (display_words words)) = Z.min 5 (Z.of_nat (length words)) /\
  NoDup (display_words words) /\
  (forall w, w ∈ display_words words -> P w) /\
  (ellipsis words = "..." <-> 5 < Z.of_nat (length words)) /\
  (ellipsis words = "" <-> Z.of_nat (length words) <= 5).
Proof.
  intros Hnd Hin.
  split; [|split; [|split; [|split; [|split; [|split]]]]].
  - destruct words; simpl; split; intros E;
      try discriminate E; try reflexivity; lia.
  - intros line. destruct words; simpl; [discriminate|]. by intros [= <-].
  - unfold display_words. rewrite length_take. lia.
  - unfold display_words.
    apply (sublist_NoDup _ words); [exact Hnd|apply sublist_take].
  - intros w Hw. apply Hin. by apply (subseteq_take 5 words).
  - unfold ellipsis.
    destruct (Nat.ltb_spec 5 (length words)); split; intros E;
      try discriminate E; try reflexivity; lia.
  - unfold ellipsis.
    destruct (Nat.ltb_spec 5 (length words)); split; intros E;
      try discriminate E; try reflexivity; lia.
Qed.





Section ReportFacts.

Context {F : Type} `{PyFloat F}.
Variable format_float : F -> string.
Variable TextBlob : string -> Blob F.
Variable urlparse : string -> ParseResult.
Variable urljoin : string -> string -> string.

Lemma detect_bias_score_length (self : Analyzer.t F) :
  Bias.score_of (Analyzer.detect_bias self)
  = Z.of_nat (length (Bias.words_of (Analyzer.detect_bias self))).
Proof. rewrite Bias.words_of_length. apply Bias.score_of_length. Qed.

(** X13. The word sample of the report: it is left out exactly when the
    bias score is 0; otherwise it shows min(5, score) words, all different,
    each a lexicon entry that matches the body, and ends with "..." exactly
    when the score is above 5. *)
Theorem report_word_sample (self : Analyzer.t F) :
  (sample_line (Bias.words_of (Analyzer.detect_bias self)) = None <->
   Bias.score_of (Analyzer.detect_bias self) = 0) /\
  (forall line,
     sample_line (Bias.words_of (Analyzer.detect_bias self)) = Some line ->
     line = "      - Sample Words Found: "
            +:+ Py.join ", "
                  (display_words (Bias.words_of (Analyzer.detect_bias self)))
            +:+ ellipsis (Bias.words_of (Analyzer.detect_bias self))) /\
  Z.of_nat (length (display_words (Bias.words_of (Analyzer.detect_bias self))))
  = Z.min 5 (Bias.score_of (Analyzer.detect_bias self)) /\
  NoDup (display_words (Bias.words_of (Analyzer.detect_bias self))) /\
  (forall w,
     w ∈ display_words (Bias.words_of (Analyzer.detect_bias self)) ->
     w ∈ biased_words /\ Match.whole_word_match w (Analyzer.text self)) /\
  (ellipsis (Bias.words_of (Analyzer.detect_bias self)) = "..." <->
   5 < Bias.score_of (Analyzer.detect_bias self)) /\
  (ellipsis (Bias.words_of (Analyzer.detect_bias self)) = "" <->
   Bias.score_of (Analyzer.detect_bias self) <= 5).
Proof.
  rewrite (detect_bias_score_length self).
  apply (sample_of_words (Bias.words_of (Analyzer.detect_bias self))
           (fun w => w ∈ biased_words /\
                     Match.whole_word_match w (Analyzer.text self))).
  - apply Bias.words_of_NoDup.
  - intros w Hw. apply Bias.matched_elem_of, Bias.words_of_elem_of, Hw.
Qed.



End ReportFacts.


End ReportFacts.
